(** * Strategic planning agent: plan assembly, narrative and HTTP endpoint

    A shallow embedding of [planning_agent.py] (the [StrategicPlanningAgent]
    dataclass) and of the [/generate_plan] handler of [agent_api.py], with the
    properties of the plan-assembly and narrative pipeline stated over it.

    Conventions:
    - Python [int] is [Z]; Python [float] is a binary64 [float] of the
      standard library, so products and roundings are the IEEE ones;
    - the interpreter is CPython with its defaults: [datetime] is the C
      implementation and [str] refuses an [int] of more than 4300 digits;
    - a raised exception is the [Raise] branch of [result], named after the
      Python exception class;
    - a [Dict[int, _]] target map is a [gmap Z _] (the code only reads its key
      set and looks keys up); a [Dict[str, _]] whose iteration order the code
      observes is an insertion-ordered [pydict]. *)

From Stdlib Require Import ZArith Floats String Ascii List Lia DecimalString DecimalFacts DecimalZ.
From stdpp Require Import gmap strings list sorting.

#[local] Set Warnings "-inexact-float,-register-all".

Local Open Scope string_scope.
Local Open Scope list_scope.
Local Open Scope Z_scope.

(** ** Exceptions and results *)

(** The built-in exception classes the modelled code can raise. *)
Inductive exn : Set :=
  | TypeError
  | ValueError
  | AttributeError
  | KeyError
  | OverflowError.

Definition exn_name (e : exn) : string :=
  match e with
  | TypeError => "TypeError"
  | ValueError => "ValueError"
  | AttributeError => "AttributeError"
  | KeyError => "KeyError"
  | OverflowError => "OverflowError"
  end.

Inductive result (A : Type) : Type :=
  | Ok (a : A)
  | Raise (e : exn).
Arguments Ok {A} a.
Arguments Raise {A} e.

#[global] Instance result_ret : MRet result := λ A a, Ok a.
#[global] Instance result_bind : MBind result := λ A B k r,
  match r with
  | Ok a => k a
  | Raise e => Raise e
  end.

#[global] Instance result_fmap : FMap result := λ A B f r,
  match r with
  | Ok a => Ok (f a)
  | Raise e => Raise e
  end.

(** A [for] loop whose body may raise: the accumulator is threaded through
    the iterations and the first exception aborts the loop. *)
Fixpoint for_each {A S : Type} (body : S → A → result S) (xs : list A) (s : S)
  : result S :=
  match xs with
  | [] => Ok s
  | x :: xs' => s' ← body s x; for_each body xs' s'
  end.

(** ** Text helpers *)

(** The decimal digits of an [int], with a minus sign when it is negative. *)
Definition str_int (n : Z) : string := NilZero.string_of_int (Z.to_int n).

(** [sys.get_int_max_str_digits()], as the interpreter sets it. *)
Definition int_max_str_digits : Z := 4300.

(** [str(n)] for an [int]: the conversion raises [ValueError] when the
    number has more digits than the limit. *)
Definition py_str_int (n : Z) : result string :=
  if decide (Z.of_nat (String.length (str_int (Z.abs n))) ≤ int_max_str_digits)
  then Ok (str_int n)
  else Raise ValueError.

(** [sep.join(parts)] for a list of [str]. *)
Fixpoint join (sep : string) (parts : list string) : string :=
  match parts with
  | [] => EmptyString
  | [p] => p
  | p :: rest => p +:+ sep +:+ join sep rest
  end.

(** [s.replace(old, new)] for one-character [old] and [new]. *)
Fixpoint replace_char (old new : ascii) (s : string) : string :=
  match s with
  | EmptyString => EmptyString
  | String c s' =>
      String (if Ascii.eqb c old then new else c) (replace_char old new s')
  end.

(** [s.rjust(width, "0")] as used by the [%0Nd] conversions of [isoformat]. *)
Definition zfill (width : nat) (s : string) : string :=
  string_of_list_ascii (repeat "0"%char (width - String.length s))
  +:+ s.

(** [range(start, stop, step)], which raises [ValueError] on a zero step. *)
Definition range (start stop step : Z) : result (list Z) :=
  if decide (step = 0) then Raise ValueError
  else if decide (0 < step) then
    Ok ((λ k, start + k * step) <$> seqZ 0 ((stop - start + step - 1) `div` step))
  else
    Ok ((λ k, start + k * step) <$> seqZ 0 ((start - stop - step - 1) `div` (- step))).

(** ** The parts of [datetime] the agent uses

    [date] objects are proleptic Gregorian dates between years 1 and 9999;
    the constructor rejects anything else with [ValueError], or with
    [OverflowError] when an argument does not fit a C [int], and date
    arithmetic that leaves the range raises [OverflowError]. *)
Module datetime.

Definition MINYEAR : Z := 1.
Definition MAXYEAR : Z := 9999.
Definition _MAXORDINAL : Z := 3652059.

Record date : Set := Date { year : Z; month : Z; day : Z }.

Definition _is_leap (y : Z) : bool :=
  bool_decide (y `mod` 4 = 0)
  && (bool_decide (y `mod` 100 ≠ 0) || bool_decide (y `mod` 400 = 0)).

Definition _days_before_year (y : Z) : Z :=
  let y' := y - 1 in
  y' * 365 + y' `div` 4 - y' `div` 100 + y' `div` 400.

Definition _days_in_month (y m : Z) : Z :=
  if decide (m = 2) then (if _is_leap y then 29 else 28)
  else if decide (m = 4 ∨ m = 6 ∨ m = 9 ∨ m = 11) then 30
  else 31.

(** Days in the year before the first day of month [m]. *)
Definition _days_before_month (y m : Z) : Z :=
  nth (Z.to_nat m) [0; 0; 31; 59; 90; 120; 151; 181; 212; 243; 273; 304; 334] 0
  + (if bool_decide (2 < m) && _is_leap y then 1 else 0).

Definition _ymd2ord (y m d : Z) : Z :=
  _days_before_year y + _days_before_month y m + d.

Definition _DI400Y : Z := 146097.
Definition _DI100Y : Z := 36524.
Definition _DI4Y : Z := 1461.

Definition _ord2ymd (ordinal : Z) : date :=
  let n := ordinal - 1 in
  let n400 := n `div` _DI400Y in
  let n := n `mod` _DI400Y in
  let n100 := n `div` _DI100Y in
  let n := n `mod` _DI100Y in
  let n4 := n `div` _DI4Y in
  let n := n `mod` _DI4Y in
  let n1 := n `div` 365 in
  let n := n `mod` 365 in
  let y := n400 * 400 + 1 + n100 * 100 + n4 * 4 + n1 in
  if bool_decide (n1 = 4) || bool_decide (n100 = 4) then Date (y - 1) 12 31
  else
    let leapyear :=
      bool_decide (n1 = 3) && (bool_decide (n4 ≠ 24) || bool_decide (n100 = 3)) in
    let m := Z.shiftr (n + 50) 5 in
    let preceding :=
      _days_before_month 1 m + (if bool_decide (2 < m) && leapyear then 1 else 0) in
    if decide (n < preceding) then
      let m' := m - 1 in
      let preceding' :=
        preceding
        - (_days_in_month 1 m' + (if bool_decide (m' = 2) && leapyear then 1 else 0)) in
      Date y m' (n - preceding' + 1)
    else Date y m (n - preceding + 1).

(** The range of a C [int], the type the constructor reads its arguments
    into. *)
Definition INT_MIN : Z := -2147483648.
Definition INT_MAX : Z := 2147483647.

(** [datetime.date(y, m, d)]: an argument that does not fit a C [int] is
    refused with [OverflowError] before the fields are checked. *)
Definition new (y m d : Z) : result date :=
  if decide (INT_MIN ≤ y ≤ INT_MAX ∧ INT_MIN ≤ m ≤ INT_MAX ∧ INT_MIN ≤ d ≤ INT_MAX)
  then
    if decide (MINYEAR ≤ y ≤ MAXYEAR ∧ 1 ≤ m ≤ 12 ∧ 1 ≤ d ≤ _days_in_month y m)
    then Ok (Date y m d)
    else Raise ValueError
  else Raise OverflowError.

Definition toordinal (d : date) : Z := _ymd2ord (year d) (month d) (day d).

(** [datetime.timedelta(days=n)], kept as its number of days. *)
Definition timedelta (days : Z) : result Z :=
  if decide (-999999999 ≤ days ≤ 999999999) then Ok days
  else Raise OverflowError.

(** [d + delta]. *)
Definition add (d : date) (delta : Z) : result date :=
  let o := toordinal d + delta in
  if decide (0 < o ≤ _MAXORDINAL) then Ok (_ord2ymd o)
  else Raise OverflowError.

(** [d.isoformat()]. *)
Definition isoformat (d : date) : string :=
  zfill 4 (str_int (year d)) +:+ "-" +:+ zfill 2 (str_int (month d))
  +:+ "-" +:+ zfill 2 (str_int (day d)).

End datetime.


(** [_year_list(start_year, years)]: [years] consecutive years, three
    unless the caller says otherwise. *)
Definition _year_list (start_year years : Z) : result (list Z) :=
  indices ← range 0 years 1;
  Ok ((λ i, start_year + i) <$> (indices : list Z)).

(** ** Python values held by the target maps

    The maps are annotated [Dict[int, float]] but nothing checks it, so a
    value is whatever the caller stored: a number, [None] or a string. *)
Inductive pyval : Set :=
  | PyNone
  | PyInt (n : Z)
  | PyFloat (x : float)
  | PyStr (s : string).

(** *** Number formatting *)

(** [float(n)] for an [int] as a binary64 value, rounded to nearest even. *)
Definition float_of_int (n : Z) : spec_float := binary_normalize 53 1024 n 0 false.

(** The integer nearest to [m * 2 ^ e], ties going to the even one. *)
Definition round_half_even (m e : Z) : Z :=
  if decide (0 ≤ e) then m * 2 ^ e
  else
    let d := 2 ^ (- e) in
    let q := m `div` d in
    let r := m `mod` d in
    if decide (2 * r < d) then q
    else if decide (d < 2 * r) then q + 1
    else if Z.even q then q else q + 1.

(** Insertion of the [,] thousands separator into a digit string. *)
Fixpoint group_rev (digits : list ascii) (seen : nat) : list ascii :=
  match digits with
  | [] => []
  | c :: rest =>
      match seen with
      | 3%nat => ","%char :: c :: group_rev rest 1
      | _ => c :: group_rev rest (S seen)
      end
  end.

Definition group_thousands (digits : string) : string :=
  string_of_list_ascii (rev (group_rev (rev (list_ascii_of_string digits)) 0)).

Definition sign_text (negative : bool) : string := if negative then "-" else EmptyString.

(** [format(x, ".0f")] and [format(x, ",.0f")] for a float [x]. *)
Definition format_float_0f (grouping : bool) (x : spec_float) : string :=
  match x with
  | S754_nan => "nan"
  | S754_infinity s => sign_text s +:+ "inf"
  | S754_zero s => sign_text s +:+ "0"
  | S754_finite s m e =>
      let digits := str_int (round_half_even (Z.pos m) e) in
      sign_text s +:+ (if grouping then group_thousands digits else digits)
  end.

(** [format(v, ".0f")] and [format(v, ",.0f")] for any value: an [int] is
    converted to [float] first, [None] and [str] do not accept the format. *)
Definition format_0f (grouping : bool) (v : pyval) : result string :=
  match v with
  | PyNone => Raise TypeError
  | PyStr _ => Raise ValueError
  | PyInt n =>
      match float_of_int n with
      | S754_infinity _ => Raise OverflowError
      | x => Ok (format_float_0f grouping x)
      end
  | PyFloat x => Ok (format_float_0f grouping (Prim2SF x))
  end.

Fixpoint repeat_string (s : string) (n : nat) : string :=
  match n with
  | O => EmptyString
  | S n' => s +:+ repeat_string s n'
  end.

(** [v * n] for an [int] literal [n]. *)
Definition py_mul_int (v : pyval) (n : Z) : result pyval :=
  match v with
  | PyNone => Raise TypeError
  | PyInt k => Ok (PyInt (k * n))
  | PyFloat x =>
      match float_of_int n with
      | S754_infinity _ => Raise OverflowError
      | y => Ok (PyFloat (PrimFloat.mul x (SF2Prim y)))
      end
  | PyStr s => Ok (PyStr (repeat_string s (Z.to_nat n)))
  end.

(** ** Insertion-ordered dictionaries with string keys *)

Abbreviation pydict V := (list (string * V)).

Fixpoint dict_get {V : Type} (k : string) (d : pydict V) : option V :=
  match d with
  | [] => None
  | (k', v) :: d' => if decide (k = k') then Some v else dict_get k d'
  end.

(** [d[k] = v]: an existing key keeps its position, a new one goes last. *)
Fixpoint dict_set {V : Type} (k : string) (v : V) (d : pydict V) : pydict V :=
  match d with
  | [] => [(k, v)]
  | (k', v') :: d' =>
      if decide (k = k') then (k, v) :: d' else (k', v') :: dict_set k v d'
  end.

(** A dict display or comprehension: the items are stored left to right. *)
Definition dict_of_items {V : Type} (items : list (string * V)) : pydict V :=
  fold_left (λ d kv, dict_set kv.1 kv.2 d) items [].

(** A well-formed dictionary holds each key once. *)
Definition dict_wf {V : Type} (d : pydict V) : Prop := NoDup d.*1.

(** ** Static catalogues *)

Record provider : Set := {
  name : string;
  features : list string;
  notes : string;
}.

Definition suggest_kpis : list (string * list string) :=
  [ ("financial",
      [ "Annual revenue";
        "Gross margin";
        "Net profit";
        "EBITDA";
        "Cash burn rate";
        "Runway (months of operating cash)" ]);
    ("customer",
      [ "Number of customers";
        "Customer acquisition cost (CAC)";
        "Customer lifetime value (LTV)";
        "Churn rate";
        "Net promoter score (NPS)" ]);
    ("marketing",
      [ "Website traffic";
        "Leads generated";
        "Conversion rate";
        "Cost per lead";
        "Social media engagement" ]);
    ("operations",
      [ "Product/service delivery time";
        "Defect/return rate";
        "Operational efficiency (output per employee)";
        "Inventory turnover rate";
        "On‑time project completion percentage" ]);
    ("hr",
      [ "Employee retention rate";
        "Employee satisfaction score";
        "Time to hire";
        "Diversity ratio";
        "AI adoption in HR processes" ]) ].


Definition recommend_services : list (string * list provider) :=
  [ ("legal",
      [ {| name := "LegalZoom";
           features :=
             [ "Unlimited legal consultations";
               "Annual business evaluation";
               "150+ legal forms" ];
           notes :=
             "Top overall online legal service for startups, offering incorporation, intellectual property and compliance support" |};
        {| name := "Firstbase.io";
           features :=
             [ "Automated compliance reminders";
               "Registered agent service";
               "Annual reports and franchise tax filings" ];
           notes :=
             "Best for startup incorporation and compliance bundles" |};
        {| name := "Rocket Lawyer";
           features :=
             [ "On‑call attorneys";
               "Customizable legal forms";
               "Document defence" ];
           notes :=
             "Best for complex legal issues and access to attorneys" |};
        {| name := "Clerky";
           features :=
             [ "Variety of fundraising documents";
               "Pay‑per‑use filing" ];
           notes :=
             "Best for fundraising and accurate legal paperwork" |} ]);
    ("payroll",
      [ {| name := "Gusto";
           features :=
             [ "Automatic federal, state and local tax filing";
               "Unlimited payroll runs";
               "State new‑hire reporting";
               "PTO and holiday pay" ];
           notes :=
             "Full‑service payroll for small businesses" |};
        {| name := "Wave Payroll";
           features :=
             [ "Full service payroll with tax filing in selected states";
               "Self‑service option for other states";
               "Integration with Wave accounting" ];
           notes :=
             "Payroll add‑on to the free Wave accounting platform" |};
        {| name := "OnPay";
           features :=
             [ "Digital document storage";
               "HR compliance tracking";
               "Integration with QuickBooks and Xero" ];
           notes :=
             "Best for recordkeeping and HR compliance" |};
        {| name := "Rippling";
           features :=
             [ "Automated payroll processing";
               "Integration with HR, IT and benefits";
               "500+ third‑party tool integrations" ];
           notes :=
             "Best for startups wanting seamless payroll and HR integration" |} ]);
    ("accounting",
      [ {| name := "Brex";
           features :=
             [ "Automatic expense categorization";
               "Real‑time spend tracking";
               "Customizable approval workflows";
               "Detailed financial reporting";
               "1000+ software integrations" ];
           notes :=
             "All‑in‑one expense management and accounting platform tailored for startups" |};
        {| name := "QuickBooks Online";
           features :=
             [ "Automated bank feeds";
               "Customizable invoicing";
               "Expense tracking with receipt capture";
               "Inventory management";
               "40+ reporting templates" ];
           notes :=
             "Industry‑standard cloud accounting solution with extensive integrations" |};
        {| name := "Xero";
           features :=
             [ "Bank reconciliation with machine learning";
               "Customizable invoicing";
               "Project costing and time tracking";
               "Inventory tracking";
               "Multi‑currency support" ];
           notes :=
             "User‑friendly cloud accounting system with strong international support" |};
        {| name := "Sage Intacct";
           features :=
             [ "Revenue recognition automation";
               "Multi‑entity management";
               "Customizable reporting";
               "Project accounting";
               "AI‑powered timesheets" ];
           notes :=
             "Best for complex or multi‑entity startups requiring GAAP/IFRS compliance" |};
        {| name := "Wave Accounting";
           features :=
             [ "Free double‑entry bookkeeping";
               "Customizable invoicing";
               "Receipt scanning";
               "Basic financial reports";
               "Multi‑currency support" ];
           notes :=
             "Best free accounting software for small teams and freelancers" |} ]);
    ("marketing",
      [ {| name := "HubSpot Marketing";
           features :=
             [ "CRM integration";
               "Marketing automation";
               "Email and social media management";
               "Lead scoring";
               "Analytics and reporting" ];
           notes :=
             "Comprehensive platform that combines marketing, sales and service tools" |};
        {| name := "Canva";
           features :=
             [ "Drag‑and‑drop design editor";
               "Templates and stock media";
               "Logo maker";
               "Animation and video creation";
               "Collaboration tools" ];
           notes :=
             "Easy graphics creation for branding, content and presentations" |};
        {| name := "Google Analytics";
           features :=
             [ "Website traffic insights";
               "Goal and conversion tracking";
               "Audience segmentation";
               "Reporting dashboards";
               "Integration with advertising platforms" ];
           notes :=
             "Essential tool for understanding website performance and user behaviour" |};
        {| name := "Mailchimp or Klaviyo";
           features :=
             [ "Email marketing automation";
               "Personalized campaigns";
               "Segmentation and A/B testing";
               "Analytics";
               "Ecommerce integrations" ];
           notes :=
             "Popular platforms for email marketing and customer engagement" |};
        {| name := "Buffer or Hootsuite";
           features :=
             [ "Social media scheduling";
               "Multi‑platform posting";
               "Engagement tracking";
               "Analytics";
               "Team collaboration" ];
           notes :=
             "Tools to plan and analyse social media content" |} ]);
    ("hr_ai",
      [ {| name := "AI‑powered HR tools";
           features :=
             [ "Automated candidate screening";
               "Chatbots for recruiting";
               "Predictive analytics for flight risks";
               "Sentiment analysis for engagement";
               "Personalized learning and development" ];
           notes :=
             "AI boosts HR productivity and enables proactive talent management; studies report a 63 % productivity boost and 55 % automation of manual tasks【179547689127451†L129-L149】" |} ]) ].


(** ** The agent *)

Record StrategicPlanningAgent : Type := {
  company_name : string;
  mission : string;
  vision : string;
  core_values : list string;
  baseline_metrics : pydict pyval;
  revenue_targets : gmap Z pyval;
  customer_targets : gmap Z pyval;
  margin_targets : gmap Z pyval;
  other_targets : pydict (gmap Z pyval);
  revenue_moves : list string;
  profit_moves : list string;
  swot : option (pydict (list string));
  start_year : Z;
}.

(** The dataclass constructor: the five required fields, the defaults of
    the others, and the start year (the current year unless given). *)
Definition new_agent (company_name' mission' vision' : string)
    (core_values' : list string) (baseline_metrics' : pydict pyval)
    (start_year' : Z) : StrategicPlanningAgent :=
  {| company_name := company_name'; mission := mission'; vision := vision';
     core_values := core_values'; baseline_metrics := baseline_metrics';
     revenue_targets := ∅; customer_targets := ∅; margin_targets := ∅;
     other_targets := []; revenue_moves := []; profit_moves := [];
     swot := None; start_year := start_year' |}.

Definition set_targets (self : StrategicPlanningAgent)
    (revenue_targets' customer_targets' margin_targets' : gmap Z pyval)
    (other_targets' : option (pydict (gmap Z pyval))) : StrategicPlanningAgent :=
  {| company_name := self.(company_name); mission := self.(mission);
     vision := self.(vision); core_values := self.(core_values);
     baseline_metrics := self.(baseline_metrics);
     revenue_targets := revenue_targets';
     customer_targets := customer_targets';
     margin_targets := margin_targets';
     other_targets :=
       match other_targets' with
       | Some ((_ :: _) as d) => d
       | _ => self.(other_targets)
       end;
     revenue_moves := self.(revenue_moves); profit_moves := self.(profit_moves);
     swot := self.(swot); start_year := self.(start_year) |}.

Definition identify_winning_moves (self : StrategicPlanningAgent)
    (revenue_moves' profit_moves' : list string) : StrategicPlanningAgent :=
  {| company_name := self.(company_name); mission := self.(mission);
     vision := self.(vision); core_values := self.(core_values);
     baseline_metrics := self.(baseline_metrics);
     revenue_targets := self.(revenue_targets);
     customer_targets := self.(customer_targets);
     margin_targets := self.(margin_targets);
     other_targets := self.(other_targets);
     revenue_moves := revenue_moves'; profit_moves := profit_moves';
     swot := self.(swot); start_year := self.(start_year) |}.

(** [create_swot] stores the analysis on the agent and returns it as well. *)
Definition create_swot (self : StrategicPlanningAgent)
    (strengths weaknesses opportunities threats : list string)
  : StrategicPlanningAgent * pydict (list string) :=
  let d := [("strengths", strengths); ("weaknesses", weaknesses);
            ("opportunities", opportunities); ("threats", threats)] in
  ({| company_name := self.(company_name); mission := self.(mission);
      vision := self.(vision); core_values := self.(core_values);
      baseline_metrics := self.(baseline_metrics);
      revenue_targets := self.(revenue_targets);
      customer_targets := self.(customer_targets);
      margin_targets := self.(margin_targets);
      other_targets := self.(other_targets);
      revenue_moves := self.(revenue_moves); profit_moves := self.(profit_moves);
      swot := Some d; start_year := self.(start_year) |}, d).

(** *** Milestones *)

(** The label of a milestone.  The loop only passes month offsets below 36
    and year offsets of dates that exist, numbers of at most five digits,
    which [str] always converts. *)
Definition milestone_name (i months_per_milestone year_offset : Z) : string :=
  "Milestone " +:+ str_int (i `div` months_per_milestone + 1)
  +:+ " – Year " +:+ str_int year_offset.

Definition generate_milestones (self : StrategicPlanningAgent)
    (months_per_milestone : Z) : result (list (datetime.date * string)) :=
  start_date ← datetime.new self.(start_year) 1 1;
  let total_months := 36 in
  months ← range 0 total_months months_per_milestone;
  for_each
    (λ milestones i,
       delta ← datetime.timedelta (30 * i);
       date ← datetime.add start_date delta;
       let year_offset := (datetime.year date - datetime.year start_date) + 1 in
       Ok (milestones ++ [(date, milestone_name i months_per_milestone year_offset)]))
    months [].

(** One pass of that loop on its own: the entry appended for month [i]. *)
Definition milestone_entry (start_date : datetime.date)
    (months_per_milestone i : Z) : result (datetime.date * string) :=
  delta ← datetime.timedelta (30 * i);
  date ← datetime.add start_date delta;
  Ok (date,
      milestone_name i months_per_milestone
        (datetime.year date - datetime.year start_date + 1)).

(** *** Plan assembly *)

Record company_profile : Set := {
  profile_name : string;
  profile_mission : string;
  profile_vision : string;
  profile_core_values : list string;
}.

Record plan : Type := {
  executive_summary : string;
  plan_company_profile : company_profile;
  plan_baseline_metrics : pydict pyval;
  strategic_targets : list (pydict pyval);
  winning_moves : pydict (list string);
  swot_analysis : option (pydict (list string));
  milestones : list (pydict string);
  recommended_kpis : pydict (list string);
  service_recommendations : pydict (list provider);
}.

(** [list(m.keys())]. *)
Definition keys (m : gmap Z pyval) : list Z := (map_to_list m).*1.

(** [m.get(year)]: the stored value, or [None] when the key is missing. *)
Definition get (m : gmap Z pyval) (year : Z) : pyval := default PyNone (m !! year).

(** [sorted(set(revenue keys + customer keys + margin keys))]. *)
Definition plan_years (self : StrategicPlanningAgent) : list Z :=
  merge_sort Z.le
    (elements (list_to_set (keys self.(revenue_targets)
                            ++ keys self.(customer_targets)
                            ++ keys self.(margin_targets)) : gset Z)).

(** The row of one year: the four fixed keys, then the extra metrics
    unpacked over them. *)
Definition target_row (self : StrategicPlanningAgent) (year : Z) : pydict pyval :=
  dict_of_items
    ([("year", PyInt year);
      ("revenue", get self.(revenue_targets) year);
      ("customers", get self.(customer_targets) year);
      ("gross_margin", get self.(margin_targets) year)]
     ++ dict_of_items ((λ mv, (mv.1, get mv.2 year)) <$> self.(other_targets))).

Definition targets_summary (self : StrategicPlanningAgent) : list (pydict pyval) :=
  target_row self <$> plan_years self.

Definition build_plan (self : StrategicPlanningAgent) : result plan :=
  let targets_summary := targets_summary self in
  generated ← generate_milestones self 6;
  Ok {| executive_summary :=
          self.(company_name) +:+ " aims to realise its vision of "
          +:+ self.(vision)
          +:+ " by executing a three‑year plan built around SMART goals, clear milestones and disciplined measurement.";
        plan_company_profile :=
          {| profile_name := self.(company_name);
             profile_mission := self.(mission);
             profile_vision := self.(vision);
             profile_core_values := self.(core_values) |};
        plan_baseline_metrics := self.(baseline_metrics);
        strategic_targets := targets_summary;
        winning_moves :=
          [("revenue_moves", self.(revenue_moves));
           ("profit_moves", self.(profit_moves))];
        swot_analysis := self.(swot);
        milestones :=
          (λ dn, [("date", datetime.isoformat dn.1); ("description", dn.2)])
          <$> generated;
        recommended_kpis := suggest_kpis;
        service_recommendations := recommend_services |}.


(** *** Narrative *)

(** [d[k]] on a dictionary. *)
Definition subscript {V : Type} (d : pydict V) (k : string) : result V :=
  match dict_get k d with
  | Some v => Ok v
  | None => Raise KeyError
  end.

(** [d.get(k, [])] on a dictionary of lists. *)
Definition get_list (d : pydict (list string)) (k : string) : list string :=
  default [] (dict_get k d).

(** The field [${value:,.0f}] of the narrative's f-strings. *)
Definition money_text (value : pyval) : result string :=
  shown ← format_0f true value;
  Ok ("$" +:+ shown).

(** The field [{gross_margin*100:.0f}%] of the narrative's f-strings. *)
Definition percent_text (gross_margin : pyval) : result string :=
  percent ← py_mul_int gross_margin 100;
  shown ← format_0f false percent;
  Ok (shown +:+ "%").

(** The keys of a row that the targets sentence has already used. *)
Definition core_keys : list string := ["year"; "revenue"; "customers"; "gross_margin"].

Section narrative.

(** [repr] of a float, the shortest decimal string that reads back as the
    same float; the narrative only relies on it to print a year or a
    customer count that was given as a float. *)
Variable float_repr : float → string.

(** [str(v)], what an f-string field without a format specification shows;
    only the conversion of an [int] can fail. *)
Definition py_str (v : pyval) : result string :=
  match v with
  | PyNone => Ok "None"
  | PyInt n => py_str_int n
  | PyFloat x => Ok (float_repr x)
  | PyStr s => Ok s
  end.

(** The clause appended for one extra metric of a row. *)
Definition metric_clause (metric : string) (value : pyval) : result string :=
  amount ← money_text value;
  Ok ("with " +:+ replace_char "_" " " metric +:+ " of " +:+ amount).

(** The opening sentence of a row: each field of the f-string is looked up
    and converted to text before the next one is. *)
Definition target_headline (t : pydict pyval) : result string :=
  year ← subscript t "year";
  year_text ← py_str year;
  revenue ← subscript t "revenue";
  revenue_text ← money_text revenue;
  customers ← subscript t "customers";
  customers_text ← py_str customers;
  gross_margin ← subscript t "gross_margin";
  margin_text ← percent_text gross_margin;
  Ok ("In " +:+ year_text +:+ ", we aim to generate " +:+ revenue_text
      +:+ " in revenue and serve " +:+ customers_text
      +:+ " customers, achieving a gross margin of " +:+ margin_text).

(** One pass of the outer loop: the headline, then a clause for every
    item of the row whose key is not one of the four fixed ones. *)
Definition target_line (t : pydict pyval) : result string :=
  headline ← target_headline t;
  lines ← for_each
    (λ lines item,
       if decide (item.1 ∈ core_keys) then Ok lines
       else clause ← metric_clause item.1 item.2; Ok (lines ++ [clause]))
    t [headline];
  Ok (join " " lines +:+ ".").

Definition targets_paragraph (p : plan) : result string :=
  targets_lines ← for_each
    (λ targets_lines t, line ← target_line t; Ok (targets_lines ++ [line]))
    p.(strategic_targets) [];
  Ok (join " " targets_lines).

Definition intro (self : StrategicPlanningAgent) : string :=
  self.(company_name) +:+ " exists to " +:+ self.(mission)
  +:+ ".  Our vision is to " +:+ self.(vision) +:+ ". "
  +:+ "To achieve this ambition, we have created a three‑year strategic plan grounded in our core values: "
  +:+ join ", " self.(core_values) +:+ ".".

Definition moves_paragraph (self : StrategicPlanningAgent) : string :=
  "To realise these goals, we will pursue a focused set of Winning Moves. "
  +:+ "On the revenue side we will: " +:+ join "; " self.(revenue_moves) +:+ ". "
  +:+ "On the profitability side we will: " +:+ join "; " self.(profit_moves) +:+ ".".

(** [self.swot.get(...)]: an attribute lookup on [None] when no SWOT
    analysis was stored. *)
Definition swot_paragraph (self : StrategicPlanningAgent) : result string :=
  match self.(swot) with
  | None => Raise AttributeError
  | Some d =>
      Ok ("Our SWOT analysis reveals that our strengths—"
          +:+ join ", " (get_list d "strengths")
          +:+ "—position us well to capitalise on opportunities such as "
          +:+ join ", " (get_list d "opportunities")
          +:+ ".  However, we must mitigate weaknesses like "
          +:+ join ", " (get_list d "weaknesses")
          +:+ " and guard against threats such as "
          +:+ join ", " (get_list d "threats") +:+ ".")
  end.

Definition execution_paragraph : string :=
  "We will execute against clear milestones every six months and monitor key performance indicators across finance, customers, marketing, operations and HR. "
  +:+ "Our plan leverages best‑in‑class service providers for legal, accounting, payroll, marketing and AI‑enabled HR to build a strong operational foundation.".

Definition closing (self : StrategicPlanningAgent) : string :=
  "By aligning our team around this roadmap and measuring our progress relentlessly, "
  +:+ self.(company_name)
  +:+ " will be well positioned to achieve its three‑year objectives and move closer to its long‑term vision.".

(** The line feed that separates paragraphs. *)
Definition blank_line : string := String "010" (String "010" EmptyString).

Definition generate_narrative (self : StrategicPlanningAgent) : result string :=
  p ← build_plan self;
  let intro := intro self in
  targets ← targets_paragraph p;
  let moves := moves_paragraph self in
  swot_text ← swot_paragraph self;
  Ok (join blank_line
        [intro; targets; moves; swot_text; execution_paragraph; closing self]).

End narrative.


(** ** The [/generate_plan] endpoint *)
Module agent_api.

(** What [request.get_json] hands to the handler. *)
Inductive json : Type :=
  | JNull
  | JBool (b : bool)
  | JInt (n : Z)
  | JFloat (x : float)
  | JStr (s : string)
  | JList (items : list json)
  | JDict (items : list (string * json)).

(** [obj.get(key, default)]: only a dict has the method. *)
Definition get (obj : json) (key : string) (fallback : json) : result json :=
  match obj with
  | JDict d => Ok (default fallback (dict_get key d))
  | _ => Raise AttributeError
  end.

(** Truth value of an object, as [if] and [any] test it. *)
Definition truthy (v : json) : bool :=
  match v with
  | JNull => false
  | JBool b => b
  | JInt n => bool_decide (n ≠ 0)
  | JFloat x => negb (PrimFloat.eqb x 0%float)
  | JStr s => bool_decide (s ≠ EmptyString)
  | JList items => if items is [] then false else true
  | JDict items => if items is [] then false else true
  end.

(** The instance attributes of the agent object shared by all requests. *)
Abbreviation instance := (pydict json).

(** The positional parameters a method takes after [self]. *)
Record signature : Set := { required : nat; optional : nat }.

(** The methods the class [StrategicPlanningAgent] defines. *)
Definition methods : pydict signature :=
  [ ("set_targets", {| required := 3; optional := 1 |});
    ("identify_winning_moves", {| required := 2; optional := 0 |});
    ("create_swot", {| required := 4; optional := 0 |});
    ("suggest_kpis", {| required := 0; optional := 0 |});
    ("generate_milestones", {| required := 0; optional := 1 |});
    ("recommend_services", {| required := 0; optional := 0 |});
    ("build_plan", {| required := 0; optional := 0 |});
    ("generate_narrative", {| required := 0; optional := 0 |}) ].

(** The agent created by [create_app]: placeholders for the five required
    fields, the dataclass defaults for the others. *)
Definition placeholder_agent (current_year : Z) : instance :=
  [ ("company_name", JStr EmptyString); ("mission", JStr EmptyString);
    ("vision", JStr EmptyString);
    ("core_values", JList []); ("baseline_metrics", JDict []);
    ("revenue_targets", JDict []); ("customer_targets", JDict []);
    ("margin_targets", JDict []); ("other_targets", JDict []);
    ("revenue_moves", JList []); ("profit_moves", JList []);
    ("swot", JNull); ("start_year", JInt current_year) ].

(** Statements of the handler: they read and update the shared agent and
    may raise. *)
Definition handler (A : Type) : Type := instance → instance * result A.

#[export] Instance handler_ret : MRet handler := λ A a agent, (agent, Ok a).
#[export] Instance handler_bind : MBind handler := λ A B k m agent,
  match m agent with
  | (agent', Ok a) => k a agent'
  | (agent', Raise e) => (agent', Raise e)
  end.

Definition lift {A : Type} (r : result A) : handler A := λ agent, (agent, r).

(** A statement that raises whatever the agent holds when it starts. *)
Definition raises {A : Type} (m : handler A) : Prop :=
  ∀ agent, ∃ agent' exc, m agent = (agent', Raise exc).

(** [agent.attr = value]. *)
Definition setattr (attr : string) (value : json) : handler unit :=
  λ agent, (dict_set attr value agent, Ok ()).

Inductive error_message : Set :=
  | RequestMustBeJson
  | FailedToGeneratePlan (exc : exn).

Inductive response_body : Type :=
  | ErrorRecord (error : error_message)
  | PlanRecord (plan narrative : json)
  | BadRequestPage.

Record request : Type := {
  is_json : bool;           (* the content type announces JSON *)
  parsed : option json;     (* the body, when it parses as JSON *)
}.

Section endpoint.

(** Running the body of a method of the class on dynamically typed
    arguments, once the call has bound them to its parameters. *)
Variable invoke : string → list json → handler json.

(** [agent.name(args)]: the attribute must be a method of the class and
    the number of arguments must fit its signature. *)
Definition call (name : string) (args : list json) : handler json :=
  match dict_get name methods with
  | None => lift (Raise AttributeError)
  | Some sig =>
      if decide (sig.(required) ≤ length args ≤ sig.(required) + sig.(optional))%nat
      then invoke name args
      else lift (Raise TypeError)
  end.

(** One entry of [targets] for a key of the [targets] input. *)
Definition year_targets (targets_input : json) (year_key : string) : result json :=
  year_data ← get targets_input year_key (JDict []);
  revenue ← get year_data "revenue" JNull;
  customers ← get year_data "customers" JNull;
  margin ← get year_data "margin" JNull;
  Ok (JDict [("revenue_target", revenue); ("customer_target", customers);
             ("margin_target", margin)]).

(** The body of the [try] block. *)
Definition try_block (data : json) : handler (json * json) :=
  company_name ← lift (get data "company_name" (JStr "Your Company"));
  mission ← lift (get data "mission" (JStr EmptyString));
  vision ← lift (get data "vision" (JStr EmptyString));
  core_values ← lift (get data "core_values" (JList []));
  targets_input ← lift (get data "targets" (JDict []));
  targets ← lift (for_each
    (λ targets year_key,
       entry ← year_targets targets_input year_key; Ok (targets ++ [entry]))
    ["year1"; "year2"; "year3"] []);
  winning_moves ← lift (get data "winning_moves" (JList []));
  swot ← lift (get data "swot" (JDict []));
  strengths ← lift (get swot "strengths" (JList []));
  weaknesses ← lift (get swot "weaknesses" (JList []));
  opportunities ← lift (get swot "opportunities" (JList []));
  threats ← lift (get swot "threats" (JList []));
  _ ← setattr "company_name" company_name;
  _ ← setattr "mission" mission;
  _ ← setattr "vision" vision;
  _ ← setattr "core_values" core_values;
  baseline_metrics ← lift (get data "baseline_metrics" (JDict []));
  _ ← setattr "baseline_metrics" baseline_metrics;
  _ ← call "set_targets" [JList targets];
  _ ← (if truthy winning_moves
       then call "add_winning_moves" [winning_moves]
       else mret JNull);
  _ ← (if existsb truthy [strengths; weaknesses; opportunities; threats]
       then call "add_swot" [strengths; weaknesses; opportunities; threats]
       else mret JNull);
  plan ← call "assemble_plan" [company_name];
  narrative ← call "generate_narrative" [plan];
  mret (plan, narrative).

(** The view function: the agent after the request, the response body
    and the HTTP status. *)
Definition generate_plan (agent : instance) (req : request)
  : instance * (response_body * Z) :=
  if negb req.(is_json) then (agent, (ErrorRecord RequestMustBeJson, 400))
  else
    match req.(parsed) with
    | None => (agent, (BadRequestPage, 400))
    | Some data =>
        match try_block data agent with
        | (agent', Ok (plan, narrative)) =>
            (agent', (PlanRecord plan narrative, 200))
        | (agent', Raise exc) =>
            (agent', (ErrorRecord (FailedToGeneratePlan exc), 500))
        end
    end.

End endpoint.

End agent_api.


(** ** Sample agents *)

(** The company of the end-to-end scenario, for a start year and baseline
    metrics of the caller's choice. *)
Definition acme (start_year' : Z) (baseline_metrics' : pydict pyval)
  : StrategicPlanningAgent :=
  new_agent "Acme" "build widgets" "best widgets" ["Integrity"]
    baseline_metrics' start_year'.

(** The end-to-end scenario before the SWOT analysis is supplied. *)
Definition acme_without_swot (start_year' : Z) (baseline_metrics' : pydict pyval)
  : StrategicPlanningAgent :=
  identify_winning_moves
    (set_targets (acme start_year' baseline_metrics')
       {[ 2025 := PyInt 1000000 ]} {[ 2025 := PyInt 100 ]}
       {[ 2025 := PyFloat 0.2 ]} None)
    ["Launch X"] ["Cut costs"].

(** The end-to-end scenario. *)
Definition acme_scenario (start_year' : Z) (baseline_metrics' : pydict pyval)
  : StrategicPlanningAgent :=
  (create_swot (acme_without_swot start_year' baseline_metrics')
     ["brand"] ["small team"] ["market growth"] ["competition"]).1.

(** Net profit is planned one year further than revenue, customers and
    margin are. *)
Definition acme_longer_net_profit : StrategicPlanningAgent :=
  set_targets (acme_scenario 2025 [])
    {[ 2025 := PyInt 1000000 ]} {[ 2025 := PyInt 100 ]}
    {[ 2025 := PyFloat 0.2 ]}
    (Some [("net_profit", {[ 2025 := PyInt 150000; 2026 := PyInt 300000 ]})]).

(** Net profit is planned for the first of two years only. *)
Definition acme_shorter_net_profit : StrategicPlanningAgent :=
  set_targets (acme_scenario 2025 [])
    {[ 2025 := PyInt 1000000; 2026 := PyInt 2000000 ]}
    {[ 2025 := PyInt 100; 2026 := PyInt 200 ]}
    {[ 2025 := PyFloat 0.2; 2026 := PyFloat 0.35 ]}
    (Some [("net_profit", {[ 2025 := PyInt 150000 ]})]).

(** The revenue target arrives as text. *)
Definition acme_text_revenue : StrategicPlanningAgent :=
  set_targets (acme_scenario 2025 [])
    {[ 2025 := PyStr "one million" ]} {[ 2025 := PyInt 100 ]}
    {[ 2025 := PyFloat 0.2 ]} None.

(** No SWOT analysis and no revenue target for a year that has the others. *)
Definition acme_without_swot_and_revenue : StrategicPlanningAgent :=
  set_targets (acme 2025 []) ∅ {[ 2025 := PyInt 100 ]}
    {[ 2025 := PyFloat 0.2 ]} None.

(** An extra metric carries the name of the revenue column, and no revenue
    is planned. *)
Definition acme_extra_named_revenue : StrategicPlanningAgent :=
  set_targets (acme_scenario 2025 []) ∅ {[ 2025 := PyInt 100 ]}
    {[ 2025 := PyFloat 0.2 ]} (Some [("revenue", {[ 2025 := PyInt 5 ]})]).

(** [sub in s]. *)
Definition contains (s sub : string) : Prop := ∃ pre post, s = pre +:+ sub +:+ post.

(** A request that announces JSON and carries the documented payload. *)
Definition documented_request : agent_api.request :=
  {| agent_api.is_json := true;
     agent_api.parsed := Some (agent_api.JDict
       [ ("company_name", agent_api.JStr "Acme Corp");
         ("mission", agent_api.JStr "Our mission is ...");
         ("vision", agent_api.JStr "Our vision is ...");
         ("core_values",
          agent_api.JList [agent_api.JStr "innovation"; agent_api.JStr "integrity"]);
         ("targets", agent_api.JDict
            [ ("year1", agent_api.JDict
                 [ ("revenue", agent_api.JInt 1000000);
                   ("customers", agent_api.JInt 1000);
                   ("margin", agent_api.JFloat 0.2) ]) ]);
         ("winning_moves", agent_api.JList
            [ agent_api.JDict
                [ ("description", agent_api.JStr "Launch new product");
                  ("owner", agent_api.JStr "CEO");
                  ("success_criteria", agent_api.JStr "Reach $500k in sales");
                  ("projected_revenue", agent_api.JInt 500000);
                  ("testing_metrics", agent_api.JStr "User adoption rate") ] ]);
         ("swot", agent_api.JDict
            [ ("strengths", agent_api.JList [agent_api.JStr "strong brand"]);
              ("weaknesses", agent_api.JList []);
              ("opportunities", agent_api.JList []);
              ("threats", agent_api.JList []) ]) ]) |}.

(** * Properties *)

(** ** Loops that append one result per item *)

Lemma for_each_cons {A S : Type} (body : S → A → result S) x xs s :
  for_each body (x :: xs) s = body s x ≫= for_each body xs.
Proof. reflexivity. Qed.

Lemma bind_Ok {A B : Type} (k : A → result B) a : Ok a ≫= k = k a.
Proof. reflexivity. Qed.

Lemma bind_Raise {A B : Type} (k : A → result B) e : Raise e ≫= k = Raise e.
Proof. reflexivity. Qed.

Section for_each_append.
Context {A B : Type} (g : A → result B).

Local Abbreviation body := (λ (acc : list B) (x : A), y ← g x; Ok (acc ++ [y])).

(** Such a loop returns exactly when every item yields a result, and then
    returns the results in order after the initial accumulator. *)
Lemma for_each_append_Ok xs acc res :
  for_each body xs acc = Ok res ↔
  ∃ ys, res = acc ++ ys ∧ Forall2 (λ x y, g x = Ok y) xs ys.
Proof.
  revert acc res. induction xs as [|x xs IH]; intros acc res.
  - simpl. split.
    + intros [= <-]. exists []. by rewrite app_nil_r.
    + intros (ys & -> & Hys). apply Forall2_nil_inv_l in Hys as ->.
      by rewrite app_nil_r.
  - rewrite for_each_cons. destruct (g x) as [y|e] eqn:Hg.
    + rewrite !bind_Ok, IH. split.
      * intros (ys & -> & Hys). exists (y :: ys). split.
        { by rewrite <- app_assoc. }
        by constructor.
      * intros (ys & -> & Hys).
        apply Forall2_cons_inv_l in Hys as (y' & ys' & Hy & Hys & ->).
        rewrite Hg in Hy. injection Hy as <-.
        exists ys'. split; [by rewrite <- app_assoc | done].
    + rewrite !bind_Raise. split; [done|].
      intros (ys & _ & Hys).
      apply Forall2_cons_inv_l in Hys as (y' & ys' & Hy & _).
      by rewrite Hg in Hy.
Qed.

End for_each_append.

Lemma for_each_ext {A S : Type} (body1 body2 : S → A → result S) xs s :
  (∀ s x, body1 s x = body2 s x) →
  for_each body1 xs s = for_each body2 xs s.
Proof.
  intros Hext. revert s. induction xs as [|x xs IH]; intros s; [done|].
  rewrite !for_each_cons, Hext. destruct (body2 s x); [|done].
  rewrite !bind_Ok. apply IH.
Qed.

(** A loop raises as soon as its list holds an item on which the body
    raises whatever the accumulator. *)
Lemma for_each_raises {A S : Type} (body : S → A → result S) xs x :
  x ∈ xs → (∀ s, ∃ e, body s x = Raise e) →
  ∀ s, ∃ e, for_each body xs s = Raise e.
Proof.
  intros Hx Hbody. induction xs as [|x' xs IH]; intros s.
  - by apply elem_of_nil in Hx.
  - rewrite for_each_cons. apply elem_of_cons in Hx as [<-|Hx].
    + destruct (Hbody s) as [e ->]. by exists e.
    + destruct (body s x') as [s'|e]; [|by exists e].
      rewrite bind_Ok. by apply IH.
Qed.

(** ** Milestones *)

Section milestones.
Import datetime.

(** The months [range(0, 36, step)] visits: the [k]-th is [k * step], and
    all of them lie within the 36-month horizon. *)
Lemma range_months step months (k : nat) i :
  range 0 36 step = Ok months → months !! k = Some i →
  i = Z.of_nat k * step ∧ 0 ≤ i < 36.
Proof.
  unfold range. intros Hrange Hk.
  destruct (decide (step = 0)); [done|].
  destruct (decide (0 < step)); injection Hrange as <-;
    rewrite list_lookup_fmap in Hk;
    destruct (seqZ _ _ !! k) as [j|] eqn:Hj; try done;
    injection Hk as <-; apply lookup_seqZ in Hj as [-> Hlt].
  - split; [lia|]. split; [lia|].
    assert (Z.of_nat k + 1 ≤ (36 - 0 + step - 1) `div` step) as Hle by lia.
    pose proof (Z.mul_div_le (36 - 0 + step - 1) step ltac:(lia)). nia.
  - exfalso.
    assert ((0 - 36 - step - 1) `div` (- step) ≤ 0); [|lia].
    destruct (decide (- step ≤ 36)).
    + assert ((0 - 36 - step - 1) `div` (- step) < 0); [|lia].
      apply Z.div_lt_upper_bound; lia.
    + rewrite Z.div_small; lia.
Qed.

Lemma range_returns step : step ≠ 0 → ∃ months, range 0 36 step = Ok months.
Proof.
  intros Hstep. unfold range. destruct (decide (step = 0)); [done|].
  destruct (decide (0 < step)); eauto.
Qed.

Lemma new_year's_day y : 1 ≤ y ≤ 9999 → new y 1 1 = Ok (Date y 1 1).
Proof.
  intros Hy. unfold new, INT_MIN, INT_MAX, MINYEAR, MAXYEAR.
  rewrite decide_True by lia.
  destruct (decide _) as [|Hno]; [done|].
  exfalso. apply Hno. repeat split; try lia. done.
Qed.

Lemma new_Ok y m d date : new y m d = Ok date → date = Date y m d ∧ 1 ≤ y ≤ 9999.
Proof.
  unfold new, MINYEAR, MAXYEAR. destruct (decide _); [|done].
  destruct (decide _); [|done]. intros [= <-]. split; [done|lia].
Qed.

(** Within the horizon every offset of 30-day months from 1 January of a
    year up to 9997 is still a date. *)
Lemma add_within_horizon y i :
  1 ≤ y ≤ 9997 → 0 ≤ i < 36 → ∃ date, add (Date y 1 1) (30 * i) = Ok date.
Proof.
  intros Hy Hi. unfold add, toordinal, _ymd2ord, _days_before_year, _MAXORDINAL.
  cbn [year month day]. destruct (decide _) as [|Hno]; [eauto|].
  exfalso. apply Hno.
  change (_days_before_month y 1) with 0.
  pose proof (Z.div_mod (y - 1) 4 ltac:(lia)).
  pose proof (Z.mod_pos_bound (y - 1) 4 ltac:(lia)).
  pose proof (Z.div_mod (y - 1) 100 ltac:(lia)).
  pose proof (Z.mod_pos_bound (y - 1) 100 ltac:(lia)).
  pose proof (Z.div_mod (y - 1) 400 ltac:(lia)).
  pose proof (Z.mod_pos_bound (y - 1) 400 ltac:(lia)).
  lia.
Qed.

Lemma timedelta_within_horizon i : 0 ≤ i < 36 → timedelta (30 * i) = Ok (30 * i).
Proof. intros Hi. unfold timedelta. destruct (decide _); [done|lia]. Qed.

Lemma generate_milestones_unfold self step :
  generate_milestones self step =
  start_date ← new self.(start_year) 1 1;
  months ← range 0 36 step;
  for_each (λ acc i, entry ← milestone_entry start_date step i; Ok (acc ++ [entry]))
    months [].
Proof.
  unfold generate_milestones. destruct (new _ 1 1) as [start_date|]; [|done].
  rewrite !bind_Ok. destruct (range 0 36 step) as [months|]; [|done].
  rewrite !bind_Ok. apply for_each_ext. intros acc i. unfold milestone_entry.
  destruct (timedelta _); [|done]. rewrite !bind_Ok.
  by destruct (add _ _).
Qed.

(** Whatever the cadence, a returned list holds one entry per month of the
    range, computed from that month alone. *)
Lemma generate_milestones_Ok self step milestones :
  generate_milestones self step = Ok milestones →
  ∃ months,
    1 ≤ self.(start_year) ≤ 9999 ∧
    range 0 36 step = Ok months ∧
    Forall2 (λ i entry,
               milestone_entry (Date self.(start_year) 1 1) step i = Ok entry)
      months milestones.
Proof.
  rewrite generate_milestones_unfold.
  destruct (new _ 1 1) as [start_date|] eqn:Hnew; [|done].
  apply new_Ok in Hnew as [-> Hy]. rewrite bind_Ok.
  destruct (range 0 36 step) as [months|]; [|done]. rewrite bind_Ok.
  intros (ys & -> & Hys)%for_each_append_Ok. eauto.
Qed.

Lemma generate_milestones_returns self step :
  1 ≤ self.(start_year) ≤ 9997 → step ≠ 0 →
  ∃ months milestones,
    range 0 36 step = Ok months ∧
    generate_milestones self step = Ok milestones ∧
    length milestones = length months.
Proof.
  intros Hy Hstep. destruct (range_returns step Hstep) as [months Hmonths].
  rewrite generate_milestones_unfold, new_year's_day, bind_Ok, Hmonths, bind_Ok
    by lia.
  assert (∃ entries,
    Forall2 (λ i entry,
               milestone_entry (Date self.(start_year) 1 1) step i = Ok entry)
      months entries) as [entries Hentries].
  { assert (Forall (λ i, 0 ≤ i < 36) months) as Hall.
    { apply Forall_lookup. intros k i Hk.
      by destruct (range_months _ _ _ _ Hmonths Hk). }
    clear Hmonths. induction Hall as [|i months Hi _ [entries IH]].
    - exists []. constructor.
    - destruct (add_within_horizon _ i Hy Hi) as [date Hdate].
      eexists (_ :: entries). constructor; [|done].
      unfold milestone_entry.
      by rewrite timedelta_within_horizon, bind_Ok, Hdate, bind_Ok. }
  exists months, entries. split; [done|]. split.
  - apply for_each_append_Ok. eauto.
  - symmetry. by eapply Forall2_length.
Qed.

End milestones.

(** ** Dictionaries *)

Section dictionaries.
Context {V : Type}.

Lemma dict_get_set_eq k v (d : pydict V) : dict_get k (dict_set k v d) = Some v.
Proof.
  induction d as [|[k' v'] d IH]; simpl.
  - by rewrite decide_True.
  - destruct (decide (k = k')); simpl.
    + by rewrite decide_True.
    + by rewrite decide_False.
Qed.

Lemma dict_get_set_ne k k' v (d : pydict V) :
  k ≠ k' → dict_get k (dict_set k' v d) = dict_get k d.
Proof.
  intros Hne. induction d as [|[k'' v''] d IH]; simpl.
  - by rewrite decide_False.
  - destruct (decide (k' = k'')) as [<-|]; simpl.
    + by rewrite !decide_False.
    + by rewrite IH.
Qed.

Lemma dict_get_app k (d1 d2 : pydict V) :
  dict_get k (d1 ++ d2) =
  match dict_get k d1 with Some v => Some v | None => dict_get k d2 end.
Proof.
  induction d1 as [|[k' v'] d1 IH]; simpl; [done|].
  by destruct (decide (k = k')).
Qed.

Lemma dict_get_None k (d : pydict V) : dict_get k d = None ↔ k ∉ d.*1.
Proof.
  induction d as [|[k' v'] d IH]; simpl.
  - split; [|done]. intros _. apply not_elem_of_nil.
  - rewrite not_elem_of_cons. destruct (decide (k = k')); [|tauto].
    split; [done|]. by intros [? _].
Qed.

Lemma dict_get_Some_elem k v (d : pydict V) : dict_get k d = Some v → (k, v) ∈ d.
Proof.
  induction d as [|[k' v'] d IH]; simpl; [done|].
  destruct (decide (k = k')) as [->|].
  - intros [= ->]. apply elem_of_cons. by left.
  - intros Hget. apply elem_of_cons. right. by apply IH.
Qed.

(** Storing items one after the other: a key ends up with the value of its
    last item, or keeps the value it had. *)
Lemma dict_get_fold k (items d : pydict V) :
  dict_get k (fold_left (λ d kv, dict_set kv.1 kv.2 d) items d) =
  match dict_get k (reverse items) with
  | Some v => Some v
  | None => dict_get k d
  end.
Proof.
  revert d. induction items as [|[k' v'] items IH]; intros d; simpl; [done|].
  rewrite IH, reverse_cons, dict_get_app. simpl.
  destruct (dict_get k (reverse items)); [done|].
  destruct (decide (k = k')) as [->|].
  - apply dict_get_set_eq.
  - by apply dict_get_set_ne.
Qed.

Lemma dict_get_of_items k (items : pydict V) :
  dict_get k (dict_of_items items) = dict_get k (reverse items).
Proof.
  unfold dict_of_items. rewrite dict_get_fold.
  by destruct (dict_get k (reverse items)).
Qed.

(** In a well-formed dictionary the order of the items does not matter to a
    lookup. *)
Lemma dict_get_reverse k (d : pydict V) : dict_wf d → dict_get k (reverse d) = dict_get k d.
Proof.
  unfold dict_wf. induction d as [|[k' v'] d IH]; [done|].
  rewrite fmap_cons, NoDup_cons. intros [Hk' Hd]. simpl in Hk'.
  rewrite reverse_cons, dict_get_app, IH by done. simpl.
  destruct (decide (k = k')) as [->|].
  - apply dict_get_None in Hk'. by rewrite Hk'.
  - by destruct (dict_get k d).
Qed.

Lemma dict_set_keys k k' v (d : pydict V) : k ∈ (dict_set k' v d).*1 ↔ k = k' ∨ k ∈ d.*1.
Proof.
  induction d as [|[k'' v''] d IH]; simpl.
  - rewrite list_elem_of_singleton. split; [auto|].
    intros [?|[]%elem_of_nil]. done.
  - destruct (decide (k' = k'')) as [<-|]; simpl.
    + rewrite !elem_of_cons. tauto.
    + rewrite !elem_of_cons, IH. tauto.
Qed.

Lemma dict_set_wf k v (d : pydict V) : dict_wf d → dict_wf (dict_set k v d).
Proof.
  unfold dict_wf. induction d as [|[k' v'] d IH]; simpl.
  - intros _. apply NoDup_singleton.
  - rewrite NoDup_cons. intros [Hk' Hd]. simpl in Hk'.
    destruct (decide (k = k')) as [->|]; simpl.
    + by apply NoDup_cons.
    + apply NoDup_cons. split; [|by apply IH].
      rewrite dict_set_keys. intros [?|?]; [congruence|done].
Qed.

Lemma dict_of_items_wf (items : pydict V) : dict_wf (dict_of_items items).
Proof.
  unfold dict_of_items.
  assert (dict_wf (@nil (string * V))) as Hnil by apply NoDup_nil_2.
  revert Hnil. generalize (@nil (string * V)).
  induction items as [|[k v] items IH]; intros d Hd; simpl; [done|].
  apply IH. by apply dict_set_wf.
Qed.

End dictionaries.

Lemma dict_get_fmap {V W : Type} (f : V → W) k (d : pydict V) :
  dict_get k ((λ kv, (kv.1, f kv.2)) <$> d) = f <$> dict_get k d.
Proof.
  induction d as [|[k' v'] d IH]; simpl; [done|].
  by destruct (decide (k = k')).
Qed.

(** ** Plan assembly *)

Lemma elem_of_keys (m : gmap Z pyval) y : y ∈ keys m ↔ is_Some (m !! y).
Proof.
  unfold keys. rewrite list_elem_of_fmap. split.
  - intros ([y' v] & -> & Hv%elem_of_map_to_list). by exists v.
  - intros [v Hv]. exists (y, v). split; [done|]. by apply elem_of_map_to_list.
Qed.

(** The years of the table are the years of the revenue, customer and
    margin targets, and only those. *)
Lemma elem_of_plan_years self y :
  y ∈ plan_years self ↔
  is_Some (self.(revenue_targets) !! y)
  ∨ is_Some (self.(customer_targets) !! y)
  ∨ is_Some (self.(margin_targets) !! y).
Proof.
  unfold plan_years.
  rewrite merge_sort_Permutation, elem_of_elements, elem_of_list_to_set,
    !elem_of_app, !elem_of_keys.
  tauto.
Qed.

Lemma plan_years_NoDup self : NoDup (plan_years self).
Proof. unfold plan_years. rewrite merge_sort_Permutation. apply NoDup_elements. Qed.

Lemma plan_years_sorted self : StronglySorted Z.lt (plan_years self).
Proof.
  pose proof (plan_years_NoDup self) as Hnd.
  assert (StronglySorted Z.le (plan_years self)) as Hs.
  { unfold plan_years. apply StronglySorted_merge_sort; apply _. }
  revert Hnd Hs. generalize (plan_years self). intros ys Hnd Hs.
  induction Hs as [|y ys Hys IH Hall]; constructor.
  - apply IH. by apply NoDup_cons in Hnd as [_ ?].
  - apply NoDup_cons in Hnd as [Hy _].
    rewrite Forall_forall in Hall. apply Forall_forall. intros z Hz.
    specialize (Hall z Hz). assert (y ≠ z) by (by intros ->). lia.
Qed.

(** What a row holds under a key: the value of the extra metric of that name
    when there is one, and otherwise what the four fixed keys hold. *)
Lemma target_row_lookup self year k :
  dict_get k (target_row self year) =
  match dict_get k (reverse self.(other_targets)) with
  | Some values => Some (get values year)
  | None =>
      dict_get k
        [("year", PyInt year);
         ("revenue", get self.(revenue_targets) year);
         ("customers", get self.(customer_targets) year);
         ("gross_margin", get self.(margin_targets) year)]
  end.
Proof.
  unfold target_row.
  rewrite dict_get_of_items, reverse_app, dict_get_app.
  rewrite (dict_get_reverse _ (dict_of_items _)) by apply dict_of_items_wf.
  rewrite dict_get_of_items, <- fmap_reverse.
  rewrite (dict_get_fmap (λ values, get values year)).
  destruct (dict_get k (reverse self.(other_targets))) as [values|]; [done|].
  simpl fmap. apply dict_get_reverse.
  unfold dict_wf. simpl. apply (bool_decide_unpack _). by vm_compute.
Qed.

Lemma target_row_extra self year metric values :
  dict_wf self.(other_targets) →
  dict_get metric self.(other_targets) = Some values →
  dict_get metric (target_row self year) = Some (get values year).
Proof.
  intros Hwf Hmetric.
  by rewrite target_row_lookup, dict_get_reverse, Hmetric.
Qed.

Lemma target_row_core self year k :
  dict_get k self.(other_targets) = None →
  dict_get k (target_row self year) =
  dict_get k
    [("year", PyInt year);
     ("revenue", get self.(revenue_targets) year);
     ("customers", get self.(customer_targets) year);
     ("gross_margin", get self.(margin_targets) year)].
Proof.
  intros Hk. rewrite target_row_lookup.
  assert (dict_get k (reverse self.(other_targets)) = None) as ->; [|done].
  apply dict_get_None. rewrite fmap_reverse, elem_of_reverse.
  by apply dict_get_None.
Qed.

Lemma targets_summary_lookup self (k : nat) row :
  targets_summary self !! k = Some row ↔
  ∃ year, plan_years self !! k = Some year ∧ row = target_row self year.
Proof.
  unfold targets_summary. rewrite list_lookup_fmap.
  destruct (plan_years self !! k) as [year|]; simpl.
  - split; [intros [= <-]; eauto | by intros (? & [= <-] & ->)].
  - split; [done | by intros (? & ? & _)].
Qed.

(** Assembly fails only when the milestones cannot be generated, and
    otherwise returns the summary of the targets as its table. *)
Lemma build_plan_Ok self p :
  build_plan self = Ok p →
  p.(strategic_targets) = targets_summary self ∧ p.(swot_analysis) = self.(swot).
Proof.
  unfold build_plan. destruct (generate_milestones self 6); [|done].
  rewrite bind_Ok. by intros [= <-].
Qed.

Lemma build_plan_returns self :
  1 ≤ self.(start_year) ≤ 9997 → ∃ p, build_plan self = Ok p.
Proof.
  intros Hy.
  destruct (generate_milestones_returns self 6 Hy ltac:(lia))
    as (months & milestones & _ & Hms & _).
  unfold build_plan. rewrite Hms, bind_Ok. eauto.
Qed.

(** C1 (as amended): the year column of the assembled table lists, strictly
    ascending and so without duplicates, exactly the years that have a
    revenue, a customer or a margin target; the years of the extra metrics
    add no row.  (The column is read under the key "year", so no extra
    metric may carry that name.)  Assembly returns the table whenever the
    start year leaves room for the milestones. *)
Theorem strategic_targets_years self :
  (1 ≤ self.(start_year) ≤ 9997 → ∃ p, build_plan self = Ok p) ∧
  (∀ p,
     build_plan self = Ok p →
     dict_get "year" self.(other_targets) = None →
     ∃ years,
       dict_get "year" <$> p.(strategic_targets) = Some ∘ PyInt <$> years ∧
       StronglySorted Z.lt years ∧
       ∀ y, y ∈ years ↔
            is_Some (self.(revenue_targets) !! y)
            ∨ is_Some (self.(customer_targets) !! y)
            ∨ is_Some (self.(margin_targets) !! y)).
Proof.
  split; [apply build_plan_returns|].
  intros p [Hp _]%build_plan_Ok Hyear. exists (plan_years self).
  split; [|split; [apply plan_years_sorted | apply elem_of_plan_years]].
  rewrite Hp. unfold targets_summary. rewrite <- list_fmap_compose.
  apply list_fmap_ext. intros _ year _. simpl.
  by rewrite target_row_core by done.
Qed.

Lemma strategic_targets_years_witness :
  (1 ≤ 2025 ≤ 9997) ∧
  dict_get "year" acme_longer_net_profit.(other_targets) = None ∧
  ∃ p years,
    build_plan acme_longer_net_profit = Ok p ∧
    dict_get "year" <$> p.(strategic_targets) = Some ∘ PyInt <$> years ∧
    (2025 ∈ years) ∧ (2026 ∉ years).
Proof.
  assert (1 ≤ 2025 ≤ 9997) as Hy by lia.
  assert (dict_get "year" acme_longer_net_profit.(other_targets) = None)
    as Hname by reflexivity.
  split; [exact Hy|]. split; [exact Hname|].
  destruct (strategic_targets_years acme_longer_net_profit) as [Hreturns Hyears].
  destruct (Hreturns Hy) as [p Hp].
  destruct (Hyears p Hp Hname) as (years & Hcolumn & _ & Hunion).
  exists p, years. split; [exact Hp|]. split; [exact Hcolumn|]. split.
  - apply Hunion. left. eexists. by vm_compute.
  - intros [[v Hv]|[[v Hv]|[v Hv]]]%Hunion; by vm_compute in Hv.
Defined.

(** C1 as stated fails when net profit is planned for 2025 and 2026 and the
    other three targets for 2025 only: 2026 is a year of the fourth mapping
    and the table has the single row of 2025. *)
Lemma extra_metric_year_has_no_row :
  ∃ p,
    build_plan acme_longer_net_profit = Ok p ∧
    dict_get "year" <$> p.(strategic_targets) = [Some (PyInt 2025)] ∧
    ∃ values,
      dict_get "net_profit" acme_longer_net_profit.(other_targets) = Some values ∧
      values !! 2026 = Some (PyInt 300000).
Proof.
  eexists. split; [by vm_compute|]. split; [by vm_compute|].
  eexists. split; by vm_compute.
Qed.

(** C7 (as amended): in the row assembled for a year, a metric whose source
    mapping has no value for that year is stored as [None]: an extra metric
    under its own name, and revenue, customers and margin under "revenue",
    "customers" and "gross_margin" provided no extra metric carries that
    name.  A stored [None] is never the number zero. *)
Theorem absent_metrics_are_None self :
  (1 ≤ self.(start_year) ≤ 9997 → ∃ p, build_plan self = Ok p) ∧
  (∀ p (k : nat) row year,
     build_plan self = Ok p →
     p.(strategic_targets) !! k = Some row →
     plan_years self !! k = Some year →
     (dict_get "year" self.(other_targets) = None →
      dict_get "year" row = Some (PyInt year)) ∧
     (∀ metric values,
        dict_wf self.(other_targets) →
        dict_get metric self.(other_targets) = Some values →
        values !! year = None →
        dict_get metric row = Some PyNone) ∧
     (dict_get "revenue" self.(other_targets) = None →
      self.(revenue_targets) !! year = None →
      dict_get "revenue" row = Some PyNone) ∧
     (dict_get "customers" self.(other_targets) = None →
      self.(customer_targets) !! year = None →
      dict_get "customers" row = Some PyNone) ∧
     (dict_get "gross_margin" self.(other_targets) = None →
      self.(margin_targets) !! year = None →
      dict_get "gross_margin" row = Some PyNone) ∧
     PyNone ≠ PyInt 0).
Proof.
  split; [apply build_plan_returns|].
  intros p k row year [Hp _]%build_plan_Ok Hrow Hyear.
  rewrite Hp in Hrow.
  apply targets_summary_lookup in Hrow as (year' & Hyear' & ->).
  rewrite Hyear in Hyear'. injection Hyear' as <-.
  repeat split.
  - intros Hkey. by rewrite target_row_core.
  - intros metric values Hwf Hmetric Hnone.
    rewrite (target_row_extra _ _ _ values) by done.
    unfold get. by rewrite Hnone.
  - intros Hkey Hnone. rewrite target_row_core by done.
    unfold get. by rewrite Hnone.
  - intros Hkey Hnone. rewrite target_row_core by done.
    unfold get. by rewrite Hnone.
  - intros Hkey Hnone. rewrite target_row_core by done.
    unfold get. by rewrite Hnone.
  - done.
Qed.

Lemma absent_metrics_are_None_witness :
  (1 ≤ 2025 ≤ 9997) ∧
  ∃ p row,
    build_plan acme_shorter_net_profit = Ok p ∧
    p.(strategic_targets) !! 1%nat = Some row ∧
    dict_get "net_profit" row = Some PyNone.
Proof.
  assert (1 ≤ 2025 ≤ 9997) as Hy by lia.
  split; [exact Hy|].
  destruct (absent_metrics_are_None acme_shorter_net_profit) as [Hreturns Hrows].
  destruct (Hreturns Hy) as [p Hp]. exists p.
  assert (∃ row, p.(strategic_targets) !! 1%nat = Some row) as [row Hrow].
  { vm_compute in Hp. injection Hp as <-. by eexists. }
  exists row. split; [exact Hp|]. split; [exact Hrow|].
  destruct (Hrows p 1%nat row 2026 Hp Hrow ltac:(by vm_compute))
    as (_ & Hextra & _).
  eapply Hextra.
  - apply (bool_decide_unpack _). by vm_compute.
  - by vm_compute.
  - by vm_compute.
Defined.

(** C7 as stated fails when an extra metric is named "revenue": no revenue
    is planned for 2025, yet the row of 2025 holds 5 under "revenue", the
    value of the extra metric, and not [None]. *)
Lemma absent_revenue_is_overwritten :
  acme_extra_named_revenue.(revenue_targets) !! 2025 = None ∧
  ∃ p row,
    build_plan acme_extra_named_revenue = Ok p ∧
    p.(strategic_targets) = [row] ∧
    dict_get "revenue" row = Some (PyInt 5) ∧
    dict_get "revenue" row ≠ Some PyNone.
Proof.
  split; [reflexivity|]. do 2 eexists.
  split; [by vm_compute|]. split; [by vm_compute|].
  split; [by vm_compute|]. by vm_compute.
Qed.

(** C6 (as amended): assembly does not inspect the target values.  Whenever
    the milestones can be generated it returns the plan, and the row of each
    year holds the value of every mapping as it was supplied, numeric or
    not: an extra metric under its name, and revenue, customers and margin
    under "revenue", "customers" and "gross_margin" provided no extra metric
    carries that name (the key then holds what the extra metric has for the
    year); nothing is rejected. *)
Theorem build_plan_keeps_target_values self :
  1 ≤ self.(start_year) ≤ 9997 →
  ∃ p,
    build_plan self = Ok p ∧
    ∀ (k : nat) year,
      plan_years self !! k = Some year →
      ∃ row,
        p.(strategic_targets) !! k = Some row ∧
        (∀ value,
           dict_get "revenue" self.(other_targets) = None →
           self.(revenue_targets) !! year = Some value →
           dict_get "revenue" row = Some value) ∧
        (∀ value,
           dict_get "customers" self.(other_targets) = None →
           self.(customer_targets) !! year = Some value →
           dict_get "customers" row = Some value) ∧
        (∀ value,
           dict_get "gross_margin" self.(other_targets) = None →
           self.(margin_targets) !! year = Some value →
           dict_get "gross_margin" row = Some value) ∧
        (∀ metric values value,
           dict_wf self.(other_targets) →
           dict_get metric self.(other_targets) = Some values →
           values !! year = Some value →
           dict_get metric row = Some value) ∧
        (∀ metric values,
           dict_wf self.(other_targets) →
           dict_get metric self.(other_targets) = Some values →
           dict_get metric row = Some (get values year)).
Proof.
  intros Hy. destruct (build_plan_returns self Hy) as [p Hp].
  exists p. split; [done|]. intros k year Hyear.
  apply build_plan_Ok in Hp as [Hp _].
  exists (target_row self year). split.
  { rewrite Hp. apply targets_summary_lookup. eauto. }
  repeat split.
  - intros value Hkey Hvalue. rewrite target_row_core by done.
    unfold get. by rewrite Hvalue.
  - intros value Hkey Hvalue. rewrite target_row_core by done.
    unfold get. by rewrite Hvalue.
  - intros value Hkey Hvalue. rewrite target_row_core by done.
    unfold get. by rewrite Hvalue.
  - intros metric values value Hwf Hmetric Hvalue.
    rewrite (target_row_extra _ _ _ values) by done.
    unfold get. by rewrite Hvalue.
  - intros metric values Hwf Hmetric. by apply target_row_extra.
Qed.

Lemma build_plan_keeps_target_values_witness :
  (1 ≤ 2025 ≤ 9997) ∧
  ∃ p row,
    build_plan acme_text_revenue = Ok p ∧
    p.(strategic_targets) !! 0%nat = Some row ∧
    dict_get "revenue" row = Some (PyStr "one million").
Proof.
  assert (1 ≤ 2025 ≤ 9997) as Hy by lia.
  split; [exact Hy|].
  destruct (build_plan_keeps_target_values acme_text_revenue Hy) as (p & Hp & Hrows).
  destruct (Hrows 0%nat 2025 ltac:(by vm_compute)) as (row & Hrow & Hrevenue & _).
  exists p, row. split; [exact Hp|]. split; [exact Hrow|].
  apply Hrevenue; by vm_compute.
Defined.

(** C6 as stated fails when the revenue target of 2025 is the text
    "one million": assembly returns the plan with the text in the row, and
    only the narrative, formatting it as a number, raises, and then a plain
    [ValueError]. *)
Lemma text_revenue_is_assembled :
  ∃ p row,
    build_plan acme_text_revenue = Ok p ∧
    p.(strategic_targets) = [row] ∧
    dict_get "revenue" row = Some (PyStr "one million") ∧
    ∀ float_repr, generate_narrative float_repr acme_text_revenue = Raise ValueError.
Proof.
  do 2 eexists. split; [by vm_compute|]. split; [by vm_compute|].
  split; [by vm_compute|]. intros float_repr. by vm_compute.
Qed.

(** ** Narrative *)

(** The sentence of a row cannot be written when the row holds [None]
    under a key that is not one of the four fixed ones. *)
Lemma target_line_raises_on_None float_repr t metric :
  (metric, PyNone) ∈ t → metric ∉ core_keys →
  ∃ e, target_line float_repr t = Raise e.
Proof.
  intros Hitem Hmetric. unfold target_line.
  destruct (target_headline float_repr t) as [headline|e]; [|by exists e].
  rewrite bind_Ok.
  match goal with
  | |- context [for_each ?body t ?acc] =>
      destruct (for_each_raises body t (metric, PyNone) Hitem) with (s := acc)
        as [e ->]; [|by exists e]
  end.
  intros lines. simpl. rewrite decide_False by done. by exists TypeError.
Qed.

Lemma targets_paragraph_raises float_repr p t :
  t ∈ p.(strategic_targets) → (∃ e, target_line float_repr t = Raise e) →
  ∃ e, targets_paragraph float_repr p = Raise e.
Proof.
  intros Hrow [e Hline]. unfold targets_paragraph.
  match goal with
  | |- context [for_each ?body _ ?acc] =>
      destruct (for_each_raises body p.(strategic_targets) t Hrow) with (s := acc)
        as [e' ->]; [|by exists e']
  end.
  intros lines. rewrite Hline. by exists e.
Qed.

(** C3 (the code departs from it): whenever an extra metric has no value
    for one of the years of the table, the row of that year holds [None]
    for it and the narrative, instead of leaving the clause out, is not
    produced at all: the call raises. *)
Theorem narrative_raises_on_absent_extra_metric float_repr self metric values year :
  dict_wf self.(other_targets) →
  metric ∉ core_keys →
  dict_get metric self.(other_targets) = Some values →
  year ∈ plan_years self →
  values !! year = None →
  ∃ e, generate_narrative float_repr self = Raise e.
Proof.
  intros Hwf Hmetric Hvalues Hyear Hnone. unfold generate_narrative.
  destruct (build_plan self) as [p|e] eqn:Hp; [|by exists e].
  rewrite bind_Ok. cbv beta zeta.
  destruct (targets_paragraph_raises float_repr p (target_row self year))
    as [e ->]; [| |by exists e].
  - apply build_plan_Ok in Hp as [-> _]. unfold targets_summary.
    by apply list_elem_of_fmap_2.
  - apply (target_line_raises_on_None _ _ metric); [|done].
    apply dict_get_Some_elem.
    rewrite (target_row_extra _ _ _ values) by done.
    unfold get. by rewrite Hnone.
Qed.

(** With net profit planned for 2025 only and the other targets for 2025
    and 2026, the exception is the [TypeError] of formatting [None]. *)
Lemma narrative_raises_on_absent_extra_metric_witness :
  dict_wf acme_shorter_net_profit.(other_targets) ∧
  ("net_profit" ∉ core_keys) ∧
  (2026 ∈ plan_years acme_shorter_net_profit) ∧
  (∃ values,
     dict_get "net_profit" acme_shorter_net_profit.(other_targets) = Some values ∧
     values !! 2026 = None) ∧
  ∀ float_repr,
    generate_narrative float_repr acme_shorter_net_profit = Raise TypeError.
Proof.
  assert (dict_wf acme_shorter_net_profit.(other_targets)) as Hwf.
  { apply (bool_decide_unpack _). by vm_compute. }
  assert ("net_profit" ∉ core_keys) as Hmetric.
  { apply (bool_decide_unpack _). by vm_compute. }
  assert (2026 ∈ plan_years acme_shorter_net_profit) as Hyear.
  { apply (bool_decide_unpack _). by vm_compute. }
  assert (dict_get "net_profit" acme_shorter_net_profit.(other_targets)
          = Some {[ 2025 := PyInt 150000 ]}) as Hvalues by reflexivity.
  assert (({[ 2025 := PyInt 150000 ]} : gmap Z pyval) !! 2026 = None) as Hnone
    by reflexivity.
  split; [exact Hwf|]. split; [exact Hmetric|]. split; [exact Hyear|].
  split; [by eexists|]. intros float_repr.
  destruct (narrative_raises_on_absent_extra_metric float_repr
              acme_shorter_net_profit "net_profit" _ 2026
              Hwf Hmetric Hvalues Hyear Hnone) as [e He].
  rewrite He. vm_compute in He. by injection He as <-.
Defined.

(** A string occurs in a text that is known in full. *)
Ltac contains_found :=
  lazymatch goal with
  | |- contains ?s ?sub =>
      let s' := eval vm_compute in s in
      let i := eval vm_compute in (String.index 0 sub s') in
      lazymatch i with
      | Some ?n =>
          exists (String.substring 0 n s'),
            (String.substring (n + String.length sub)
               (String.length s' - n - String.length sub) s');
          vm_compute; reflexivity
      end
  end.

(** C9: in the end-to-end scenario the assembled table has the single row
    of 2025 with revenue 1000000, 100 customers and margin 0.2, and the
    targets paragraph of the narrative, hence the narrative, contains the
    sentence of that year.  The start year and the baseline metrics, which
    the scenario leaves open, are arbitrary. *)
Theorem acme_end_to_end float_repr start baseline :
  1 ≤ start ≤ 9997 →
  ∃ p targets narrative,
    build_plan (acme_scenario start baseline) = Ok p ∧
    p.(strategic_targets) =
      [[("year", PyInt 2025); ("revenue", PyInt 1000000);
        ("customers", PyInt 100); ("gross_margin", PyFloat 0.2)]] ∧
    targets_paragraph float_repr p = Ok targets ∧
    contains targets
      "In 2025, we aim to generate $1,000,000 in revenue and serve 100 customers, achieving a gross margin of 20%" ∧
    generate_narrative float_repr (acme_scenario start baseline) = Ok narrative ∧
    contains narrative
      "In 2025, we aim to generate $1,000,000 in revenue and serve 100 customers, achieving a gross margin of 20%".
Proof.
  intros Hstart.
  destruct (build_plan_returns (acme_scenario start baseline) Hstart) as [p Hp].
  assert (p.(strategic_targets) =
      [[("year", PyInt 2025); ("revenue", PyInt 1000000);
        ("customers", PyInt 100); ("gross_margin", PyFloat 0.2)]]) as Hrows.
  { apply build_plan_Ok in Hp as [-> _]. by vm_compute. }
  assert (targets_paragraph float_repr p =
    Ok "In 2025, we aim to generate $1,000,000 in revenue and serve 100 customers, achieving a gross margin of 20%.")
    as Htargets.
  { unfold targets_paragraph. rewrite Hrows. by vm_compute. }
  exists p. eexists. eexists.
  split; [exact Hp|]. split; [exact Hrows|]. split; [exact Htargets|].
  split; [contains_found|]. split.
  - unfold generate_narrative. rewrite Hp, bind_Ok. cbv beta zeta.
    rewrite Htargets, bind_Ok.
    vm_compute. reflexivity.
  - contains_found.
Qed.

Lemma acme_end_to_end_witness :
  (1 ≤ 2025 ≤ 9997) ∧
  ∀ float_repr, ∃ narrative,
    generate_narrative float_repr (acme_scenario 2025 []) = Ok narrative.
Proof.
  assert (1 ≤ 2025 ≤ 9997) as Hy by lia.
  split; [exact Hy|]. intros float_repr.
  destruct (acme_end_to_end float_repr 2025 [] Hy)
    as (p & targets & narrative & _ & _ & _ & _ & Hnarrative & _).
  exists narrative. exact Hnarrative.
Defined.

(** ** The endpoint *)

Section endpoint_raises.
Import agent_api.
Context (invoke : string → list json → handler json).

Lemma raises_bind_l {A B : Type} (m : handler A) (k : A → handler B) :
  raises m → raises (m ≫= k).
Proof.
  intros Hm agent. destruct (Hm agent) as (agent' & exc & Hrun).
  exists agent', exc. unfold mbind, handler_bind. by rewrite Hrun.
Qed.

Lemma raises_bind_r {A B : Type} (m : handler A) (k : A → handler B) :
  (∀ a, raises (k a)) → raises (m ≫= k).
Proof.
  intros Hk agent. unfold mbind, handler_bind.
  destruct (m agent) as [agent' [a|exc]]; [apply Hk | eauto].
Qed.

(** [set_targets] needs three arguments after [self] and takes at most
    four: a call with one does not reach its body. *)
Lemma call_set_targets_with_one_argument x agent :
  call invoke "set_targets" [x] agent = (agent, Raise TypeError).
Proof. reflexivity. Qed.

Lemma call_unknown_method name args agent :
  dict_get name methods = None →
  call invoke name args agent = (agent, Raise AttributeError).
Proof. intros Hname. unfold call. by rewrite Hname. Qed.

Lemma try_block_raises data : raises (try_block invoke data).
Proof.
  unfold try_block. do 18 (apply raises_bind_r; intros ?).
  apply raises_bind_l. intros agent.
  rewrite call_set_targets_with_one_argument. eauto.
Qed.

End endpoint_raises.

(** C4: every request that announces JSON and whose body parses is answered
    with the error record and status 500, never with the plan and the
    narrative.  The call of [set_targets] with the one list raises
    [TypeError] whatever the list holds, and [add_winning_moves], [add_swot]
    and [assemble_plan] are no methods of the class, so a call of any of
    them raises [AttributeError]. *)
Theorem generate_plan_always_fails invoke agent req data :
  req.(agent_api.is_json) = true →
  req.(agent_api.parsed) = Some data →
  (∃ agent' exc,
     agent_api.generate_plan invoke agent req =
     (agent', (agent_api.ErrorRecord (agent_api.FailedToGeneratePlan exc), 500))) ∧
  (∀ targets state,
     agent_api.call invoke "set_targets" [targets] state = (state, Raise TypeError)) ∧
  (∀ name args state,
     name ∈ ["add_winning_moves"; "add_swot"; "assemble_plan"] →
     agent_api.call invoke name args state = (state, Raise AttributeError)).
Proof.
  intros Hjson Hparsed. split; [|split].
  - unfold agent_api.generate_plan. rewrite Hjson, Hparsed. simpl.
    destruct (try_block_raises invoke data agent) as (agent' & exc & ->).
    by exists agent', exc.
  - intros targets state. apply call_set_targets_with_one_argument.
  - intros name args state Hname. apply call_unknown_method.
    repeat (apply elem_of_cons in Hname as [->|Hname]; [done|]).
    by apply elem_of_nil in Hname.
Qed.

Lemma generate_plan_always_fails_witness :
  documented_request.(agent_api.is_json) = true ∧
  ∀ invoke, ∃ agent',
    agent_api.generate_plan invoke (agent_api.placeholder_agent 2025)
      documented_request =
    (agent',
     (agent_api.ErrorRecord (agent_api.FailedToGeneratePlan TypeError), 500)).
Proof.
  assert (documented_request.(agent_api.is_json) = true) as Hjson by reflexivity.
  split; [exact Hjson|]. intros invoke.
  destruct (generate_plan_always_fails invoke (agent_api.placeholder_agent 2025)
              documented_request _ Hjson eq_refl)
    as ((agent' & exc & Hrun) & _).
  exists agent'. rewrite Hrun. vm_compute in Hrun.
  injection Hrun as _ <-. reflexivity.
Defined.


(** ** The calendar *)

Section calendar.
Import datetime.

(** A year written by its place in the 400-, 100- and 4-year cycles. *)
Lemma is_leap_cycles a b c e :
  0 ≤ b ≤ 3 → 0 ≤ c ≤ 24 → 0 ≤ e ≤ 3 →
  _is_leap (400 * a + 100 * b + 4 * c + e + 1) =
  bool_decide (e = 3) && (bool_decide (c ≠ 24) || bool_decide (b = 3)).
Proof.
  intros Hb Hc He. unfold _is_leap.
  set (y := 400 * a + 100 * b + 4 * c + e + 1).
  assert (y `mod` 4 = (e + 1) `mod` 4) as ->.
  { unfold y. replace (400 * a + 100 * b + 4 * c + e + 1)
      with (e + 1 + (100 * a + 25 * b + c) * 4) by lia.
    apply Z_mod_plus_full. }
  assert (y `mod` 100 = (4 * c + e + 1) `mod` 100) as ->.
  { unfold y. replace (400 * a + 100 * b + 4 * c + e + 1)
      with (4 * c + e + 1 + (4 * a + b) * 100) by lia.
    apply Z_mod_plus_full. }
  assert (y `mod` 400 = (100 * b + 4 * c + e + 1) `mod` 400) as ->.
  { unfold y. replace (400 * a + 100 * b + 4 * c + e + 1)
      with (100 * b + 4 * c + e + 1 + a * 400) by lia.
    apply Z_mod_plus_full. }
  repeat case_bool_decide; simpl; try reflexivity; exfalso;
    Z.div_mod_to_equations; lia.
Qed.

Lemma days_before_year_cycles a b c e :
  0 ≤ b ≤ 3 → 0 ≤ c ≤ 24 → 0 ≤ e ≤ 3 →
  _days_before_year (400 * a + 100 * b + 4 * c + e + 1) =
  146097 * a + 36524 * b + 1461 * c + 365 * e.
Proof.
  intros Hb Hc He. unfold _days_before_year. cbv zeta.
  replace (400 * a + 100 * b + 4 * c + e + 1 - 1)
    with (400 * a + 100 * b + 4 * c + e) by lia.
  assert ((400 * a + 100 * b + 4 * c + e) `div` 4 = 100 * a + 25 * b + c) as ->.
  { symmetry. apply (Z.div_unique _ _ _ e); lia. }
  assert ((400 * a + 100 * b + 4 * c + e) `div` 100 = 4 * a + b) as ->.
  { symmetry. apply (Z.div_unique _ _ _ (4 * c + e)); lia. }
  assert ((400 * a + 100 * b + 4 * c + e) `div` 400 = a) as ->.
  { symmetry. apply (Z.div_unique _ _ _ (100 * b + 4 * c + e)); lia. }
  lia.
Qed.

Lemma month_cases m : 1 ≤ m ≤ 12 →
  m = 1 ∨ m = 2 ∨ m = 3 ∨ m = 4 ∨ m = 5 ∨ m = 6 ∨ m = 7 ∨ m = 8 ∨ m = 9
  ∨ m = 10 ∨ m = 11 ∨ m = 12.
Proof. lia. Qed.

Lemma ord2ymd_spec o :
  1 ≤ o →
  1 ≤ year (_ord2ymd o) ∧
  1 ≤ month (_ord2ymd o) ≤ 12 ∧
  1 ≤ day (_ord2ymd o) ≤ _days_in_month (year (_ord2ymd o)) (month (_ord2ymd o)) ∧
  toordinal (_ord2ymd o) = o.
Proof.
  intros Ho. unfold toordinal, _ymd2ord, _ord2ymd, _DI400Y, _DI100Y, _DI4Y.
  cbv zeta.
  set (n := o - 1).
  set (n400 := n `div` 146097).
  set (r400 := n `mod` 146097).
  set (n100 := r400 `div` 36524).
  set (r100 := r400 `mod` 36524).
  set (n4 := r100 `div` 1461).
  set (r4 := r100 `mod` 1461).
  set (n1 := r4 `div` 365).
  set (r := r4 `mod` 365).
  rewrite Z.shiftr_div_pow2 by lia. change (2 ^ 5) with 32.
  set (m := (r + 50) `div` 32).
  assert (0 ≤ r < 365) as Hr by (apply Z.mod_pos_bound; lia).
  assert (1 ≤ m ≤ 12) as Hm by (unfold m; Z.div_mod_to_equations; lia).
  assert (0 ≤ n) as Hn by lia.
  assert (n = 146097 * n400 + r400 ∧ 0 ≤ r400 < 146097) as [E400 B400]
    by (unfold n400, r400; Z.div_mod_to_equations; lia).
  assert (r400 = 36524 * n100 + r100 ∧ 0 ≤ r100 < 36524) as [E100 B100]
    by (unfold n100, r100; Z.div_mod_to_equations; lia).
  assert (r100 = 1461 * n4 + r4 ∧ 0 ≤ r4 < 1461) as [E4 B4]
    by (unfold n4, r4; Z.div_mod_to_equations; lia).
  assert (r4 = 365 * n1 + r) as E1
    by (unfold n1, r; Z.div_mod_to_equations; lia).
  assert (32 * m ≤ r + 50 < 32 * m + 32) as Hmr
    by (unfold m; Z.div_mod_to_equations; lia).
  replace o with (n + 1) by (unfold n; lia).
  clearbody n400 r400 n100 r100 n4 r4 n1 r m n. clear Ho o.
  assert (0 ≤ n400 ∧ 0 ≤ n100 ≤ 4 ∧ 0 ≤ n4 ≤ 24 ∧ 0 ≤ n1 ≤ 4) as Hb by lia.
  destruct (bool_decide (n1 = 4) || bool_decide (n100 = 4)) eqn:Hspecial.
  - cbn [year month day].
    destruct (decide (n1 = 4)) as [Hn1|Hn1].
    + replace (n400 * 400 + 1 + n100 * 100 + n4 * 4 + n1 - 1)
        with (400 * n400 + 100 * n100 + 4 * n4 + 3 + 1) by lia.
      unfold _days_before_month, _days_in_month.
      rewrite is_leap_cycles, days_before_year_cycles by lia.
      simpl. repeat first [case_bool_decide | case_decide]; simpl; lia.
    + assert (n100 = 4) as Hn100.
      { apply orb_true_iff in Hspecial as [?%bool_decide_eq_true|?%bool_decide_eq_true]; done. }
      replace (n400 * 400 + 1 + n100 * 100 + n4 * 4 + n1 - 1)
        with (400 * n400 + 100 * 3 + 4 * 24 + 3 + 1) by lia.
      unfold _days_before_month, _days_in_month.
      rewrite is_leap_cycles, days_before_year_cycles by lia.
      simpl. repeat first [case_bool_decide | case_decide]; simpl; lia.
  - apply orb_false_iff in Hspecial as [H1%bool_decide_eq_false H2%bool_decide_eq_false].
    replace (n400 * 400 + 1 + n100 * 100 + n4 * 4 + n1)
      with (400 * n400 + 100 * n100 + 4 * n4 + n1 + 1) by lia.
    set (y := 400 * n400 + 100 * n100 + 4 * n4 + n1 + 1).
    assert (_is_leap y =
            bool_decide (n1 = 3) && (bool_decide (n4 ≠ 24) || bool_decide (n100 = 3)))
      as Hleap by (apply is_leap_cycles; lia).
    assert (_days_before_year y =
            146097 * n400 + 36524 * n100 + 1461 * n4 + 365 * n1) as Hdby
      by (apply days_before_year_cycles; lia).
    assert (1 ≤ y) as Hy by (unfold y; lia).
    destruct (bool_decide (n1 = 3) && (bool_decide (n4 ≠ 24) || bool_decide (n100 = 3)));
      clearbody y; subst n r400 r100 r4;
      destruct (month_cases m Hm)
        as [->|[->|[->|[->|[->|[->|[->|[->|[->|[->|[->| ->]]]]]]]]]]];
      unfold _days_before_month, _days_in_month; simpl;
      repeat (first [case_bool_decide | case_decide]; cbn [year month day] in *);
      rewrite ?Hleap, ?Hdby; simpl;
      repeat (first [case_bool_decide | case_decide]; cbn [year month day] in *);
      simpl; lia.
Qed.

(** A date as the constructor accepts it. *)
Lemma new_Ok_iff y m d date :
  new y m d = Ok date ↔
  date = Date y m d ∧ 1 ≤ y ≤ 9999 ∧ 1 ≤ m ≤ 12 ∧ 1 ≤ d ≤ _days_in_month y m.
Proof.
  assert (_days_in_month y m ≤ 31) as Hdays.
  { unfold _days_in_month. repeat case_decide; try lia.
    by destruct (_is_leap y). }
  unfold new, INT_MIN, INT_MAX, MINYEAR, MAXYEAR.
  destruct (decide (_ ∧ _ ∧ _)) as [Hint|Hno].
  - destruct (decide _) as [Hok|Hno].
    + split; [intros [= <-]; tauto | by intros [-> _]].
    + split; [done | intros [_ ?]; tauto].
  - split; [done | intros [_ ?]; exfalso; apply Hno; lia].
Qed.

Lemma year_length y :
  _days_before_year (y + 1) - _days_before_year y =
  365 + (if _is_leap y then 1 else 0).
Proof.
  unfold _days_before_year, _is_leap. cbv zeta.
  replace (y + 1 - 1) with y by lia.
  repeat case_bool_decide; simpl; Z.div_mod_to_equations; lia.
Qed.

Lemma days_before_year_mono y1 y2 :
  y1 ≤ y2 → _days_before_year y1 ≤ _days_before_year y2.
Proof.
  intros Hle. unfold _days_before_year. cbv zeta.
  Z.div_mod_to_equations. lia.
Qed.

Lemma days_in_year_bounds y m d :
  1 ≤ m ≤ 12 → 1 ≤ d ≤ _days_in_month y m →
  1 ≤ _days_before_month y m + d ≤ 365 + (if _is_leap y then 1 else 0).
Proof.
  intros Hm Hd. revert Hd. unfold _days_before_month, _days_in_month.
  destruct (_is_leap y);
    destruct (month_cases m Hm)
      as [->|[->|[->|[->|[->|[->|[->|[->|[->|[->|[->| ->]]]]]]]]]]];
    simpl; repeat first [case_bool_decide | case_decide]; simpl; lia.
Qed.

(** The year of a date is the one whose days bracket its ordinal. *)
Lemma year_bracket y m d :
  1 ≤ m ≤ 12 → 1 ≤ d ≤ _days_in_month y m →
  _days_before_year y < _ymd2ord y m d ≤ _days_before_year (y + 1).
Proof.
  intros Hm Hd. unfold _ymd2ord.
  pose proof (days_in_year_bounds y m d Hm Hd).
  pose proof (year_length y). lia.
Qed.

Lemma year_bracket_unique y1 y2 o :
  _days_before_year y1 < o ≤ _days_before_year (y1 + 1) →
  _days_before_year y2 < o ≤ _days_before_year (y2 + 1) →
  y1 = y2.
Proof.
  intros H1 H2. destruct (Z.lt_trichotomy y1 y2) as [Hlt|[->|Hlt]]; [|done|].
  - pose proof (days_before_year_mono (y1 + 1) y2 ltac:(lia)). lia.
  - pose proof (days_before_year_mono (y2 + 1) y1 ltac:(lia)). lia.
Qed.

Lemma ord2ymd_year o y :
  1 ≤ o → _days_before_year y < o ≤ _days_before_year (y + 1) →
  year (_ord2ymd o) = y.
Proof.
  intros Ho Hy. destruct (ord2ymd_spec o Ho) as (_ & Hm & Hd & Ho').
  apply (year_bracket_unique _ _ o); [|done].
  rewrite <- Ho' at 2 3. by apply year_bracket.
Qed.

(** Two dates with the same ordinal are the same date. *)
Lemma toordinal_inj d1 d2 :
  1 ≤ month d1 ≤ 12 → 1 ≤ day d1 ≤ _days_in_month (year d1) (month d1) →
  1 ≤ month d2 ≤ 12 → 1 ≤ day d2 ≤ _days_in_month (year d2) (month d2) →
  toordinal d1 = toordinal d2 → d1 = d2.
Proof.
  destruct d1 as [y1 m1 k1], d2 as [y2 m2 k2]. unfold toordinal.
  cbn [year month day]. intros Hm1 Hk1 Hm2 Hk2 Heq.
  assert (y1 = y2) as <-.
  { apply (year_bracket_unique _ _ (_ymd2ord y1 m1 k1)).
    - by apply year_bracket.
    - rewrite Heq. by apply year_bracket. }
  revert Hk1 Hk2 Heq. unfold _ymd2ord, _days_before_month, _days_in_month.
  intros Hk1 Hk2 Heq.
  assert (m1 = m2 ∧ k1 = k2) as [<- <-]; [|done].
  revert Hk1 Hk2 Heq.
  destruct (_is_leap y1);
    destruct (month_cases m1 Hm1)
      as [->|[->|[->|[->|[->|[->|[->|[->|[->|[->|[->| ->]]]]]]]]]]];
    destruct (month_cases m2 Hm2)
      as [->|[->|[->|[->|[->|[->|[->|[->|[->|[->|[->| ->]]]]]]]]]]];
    simpl; repeat first [case_bool_decide | case_decide]; simpl; lia.
Qed.

(** [date.fromordinal(d.toordinal()) == d]. *)
Lemma ord2ymd_toordinal d :
  1 ≤ year d → 1 ≤ month d ≤ 12 →
  1 ≤ day d ≤ _days_in_month (year d) (month d) →
  _ord2ymd (toordinal d) = d.
Proof.
  intros Hy Hm Hd.
  assert (1 ≤ toordinal d) as Ho.
  { unfold toordinal. pose proof (year_bracket _ _ _ Hm Hd).
    pose proof (days_before_year_mono 1 (year d) Hy).
    change (_days_before_year 1) with 0 in *. lia. }
  destruct (ord2ymd_spec _ Ho) as (_ & Hm' & Hd' & Ho').
  by apply toordinal_inj.
Qed.

End calendar.


(** ** Milestones: counts, dates and labels *)

Section milestone_dates.
Import datetime.

Lemma new_year's_ordinal y : toordinal (Date y 1 1) = _days_before_year y + 1.
Proof.
  unfold toordinal, _ymd2ord. cbn [year month day].
  change (_days_before_month y 1) with 0. lia.
Qed.

Lemma add_zero y : 1 ≤ y ≤ 9999 → add (Date y 1 1) 0 = Ok (Date y 1 1).
Proof.
  intros Hy. unfold add. rewrite Z.add_0_r.
  assert (0 < toordinal (Date y 1 1) ≤ _MAXORDINAL) as Ho.
  { rewrite new_year's_ordinal.
    pose proof (days_before_year_mono 1 y ltac:(lia)).
    pose proof (days_before_year_mono y 9999 ltac:(lia)).
    change (_days_before_year 1) with 0 in *.
    change (_days_before_year 9999) with 3651694 in *.
    unfold _MAXORDINAL. lia. }
  rewrite decide_True by done. f_equal.
  apply ord2ymd_toordinal; cbn [year month day]; [lia|lia|].
  unfold _days_in_month. simpl. lia.
Qed.

Lemma add_Ok d delta date :
  add d delta = Ok date →
  1 ≤ toordinal d + delta ∧ date = _ord2ymd (toordinal d + delta).
Proof.
  unfold add. destruct (decide _); [|done]. intros [= <-]. split; [lia|done].
Qed.

(** What one pass of the loop yields for a month of the horizon: the date
    that many 30-day months after 1 January, in the start year or one of
    the two years after it. *)
Lemma milestone_entry_Ok y step i date label :
  1 ≤ y → 0 ≤ i < 36 →
  milestone_entry (Date y 1 1) step i = Ok (date, label) →
  toordinal date = toordinal (Date y 1 1) + 30 * i ∧
  0 ≤ year date - y ≤ 2 ∧
  label = milestone_name i step (year date - y + 1).
Proof.
  intros Hy Hi. unfold milestone_entry.
  rewrite timedelta_within_horizon, bind_Ok by done.
  destruct (add (Date y 1 1) (30 * i)) as [date'|] eqn:Hadd; [|done].
  rewrite bind_Ok. cbn [year]. intros [= -> <-].
  apply add_Ok in Hadd as [Ho Hdate].
  destruct (ord2ymd_spec _ Ho) as (_ & Hm & Hd & Ho').
  rewrite <- Hdate in Hm, Hd, Ho'. clear Hdate.
  pose proof (year_bracket _ _ _ Hm Hd) as Hbracket.
  split; [exact Ho'|]. split; [|reflexivity].
  unfold toordinal in Ho' at 1. rewrite Ho', new_year's_ordinal in Hbracket.
  clear Ho Ho' Hm Hd. revert Hbracket. generalize (year date). intros y' Hbracket.
  split.
  - destruct (decide (y ≤ y')); [lia|].
    pose proof (days_before_year_mono (y' + 1) y ltac:(lia)). lia.
  - destruct (decide (y' ≤ y + 2)); [lia|].
    pose proof (days_before_year_mono (y + 3) y' ltac:(lia)).
    pose proof (year_length y). pose proof (year_length (y + 1)).
    pose proof (year_length (y + 2)).
    replace (y + 1 + 1) with (y + 2) in * by lia.
    replace (y + 2 + 1) with (y + 3) in * by lia.
    destruct (_is_leap y), (_is_leap (y + 1)), (_is_leap (y + 2)); lia.
Qed.

Lemma range_negative_step step : step < 0 → range 0 36 step = Ok [].
Proof.
  intros Hstep. unfold range.
  rewrite decide_False, decide_False by lia. f_equal.
  rewrite seqZ_nil; [done|].
  destruct (decide (- step ≤ 36)).
  - assert ((0 - 36 - step - 1) `div` (- step) < 0); [|lia].
    apply Z.div_lt_upper_bound; lia.
  - rewrite Z.div_small; lia.
Qed.

Lemma range_positive_step step :
  0 < step →
  range 0 36 step = Ok ((λ k, 0 + k * step) <$> seqZ 0 ((35 + step) `div` step)).
Proof.
  intros Hstep. unfold range.
  rewrite decide_False, decide_True by lia.
  by replace (36 - 0 + step - 1) with (35 + step) by lia.
Qed.

End milestone_dates.


Section milestone_theorems.
Import datetime.

Lemma milestone_entry_date y step i date label :
  milestone_entry (Date y 1 1) step i = Ok (date, label) →
  0 ≤ i < 36 →
  1 ≤ toordinal (Date y 1 1) + 30 * i ∧
  date = _ord2ymd (toordinal (Date y 1 1) + 30 * i).
Proof.
  intros Hentry Hi. unfold milestone_entry in Hentry.
  rewrite timedelta_within_horizon, bind_Ok in Hentry by done.
  destruct (add (Date y 1 1) (30 * i)) as [date'|] eqn:Hadd; [|done].
  rewrite bind_Ok in Hentry. injection Hentry as -> _.
  by apply add_Ok.
Qed.

(** The year in which a day of the horizon falls, counted from 1 January
    of year [y]: the first 365 days are in [y], days 366 to 729 in
    [y + 1], days 732 to 1094 in [y + 2]. *)
Lemma year_after y k :
  1 ≤ y → 0 ≤ k →
  (k < 365 → year (_ord2ymd (toordinal (Date y 1 1) + k)) = y) ∧
  (366 ≤ k < 730 → year (_ord2ymd (toordinal (Date y 1 1) + k)) = y + 1) ∧
  (732 ≤ k < 1095 → year (_ord2ymd (toordinal (Date y 1 1) + k)) = y + 2).
Proof.
  intros Hy Hk. rewrite new_year's_ordinal.
  pose proof (days_before_year_mono 1 y Hy) as H1.
  change (_days_before_year 1) with 0 in H1.
  pose proof (year_length y) as L0. pose proof (year_length (y + 1)) as L1.
  pose proof (year_length (y + 2)) as L2.
  replace (y + 1 + 1) with (y + 2) in * by lia.
  replace (y + 2 + 1) with (y + 3) in * by lia.
  repeat split; intros Hk'; apply ord2ymd_year; try lia.
  - destruct (_is_leap y); lia.
  - replace (y + 1 + 1) with (y + 2) by lia.
    destruct (_is_leap y), (_is_leap (y + 1)); lia.
  - replace (y + 2 + 1) with (y + 3) by lia.
    destruct (_is_leap y), (_is_leap (y + 1)), (_is_leap (y + 2)); lia.
Qed.

Lemma generate_milestones_zero_step self :
  1 ≤ self.(start_year) ≤ 9999 →
  generate_milestones self 0 = Raise ValueError.
Proof.
  intros Hy. by rewrite generate_milestones_unfold, new_year's_day by done.
Qed.

(** A start year that is no year of the calendar is refused by the
    constructor of the start date. *)
Lemma generate_milestones_bad_year self step :
  self.(start_year) < 1 ∨ 9999 < self.(start_year) →
  INT_MIN ≤ self.(start_year) ≤ INT_MAX →
  generate_milestones self step = Raise ValueError.
Proof.
  intros Hy Hint. rewrite generate_milestones_unfold.
  unfold new, INT_MIN, INT_MAX, MINYEAR, MAXYEAR in *.
  rewrite decide_True by lia. rewrite decide_False by lia. done.
Qed.

(** A start year that does not fit a C [int] does not even reach the
    checks of the constructor. *)
Lemma generate_milestones_huge_year self step :
  self.(start_year) < INT_MIN ∨ INT_MAX < self.(start_year) →
  generate_milestones self step = Raise OverflowError.
Proof.
  intros Hy. rewrite generate_milestones_unfold.
  unfold new, INT_MIN, INT_MAX in *. rewrite decide_False by lia. done.
Qed.

Lemma generate_milestones_late_year self :
  9998 ≤ self.(start_year) ≤ 9999 →
  generate_milestones self 6 = Raise OverflowError.
Proof.
  intros Hy. rewrite generate_milestones_unfold.
  assert (self.(start_year) = 9998 ∨ self.(start_year) = 9999) as [-> | ->]
    by lia; by vm_compute.
Qed.

(** X1: the number of milestones is the number of multiples of the cadence
    below 36.  For a start year from 1 to 9997: a positive cadence [c]
    gives [(35 + c) // c] milestones, a cadence of 36 months or more only
    the one of 1 January, "Milestone 1 – Year 1"; a negative cadence gives
    an empty list and a cadence of zero raises [ValueError]. *)
Theorem milestone_count self step :
  1 ≤ self.(start_year) ≤ 9997 →
  (step = 0 → generate_milestones self step = Raise ValueError) ∧
  (step < 0 → generate_milestones self step = Ok []) ∧
  (0 < step →
   ∃ milestones,
     generate_milestones self step = Ok milestones ∧
     Z.of_nat (length milestones) = (35 + step) `div` step) ∧
  (36 ≤ step →
   generate_milestones self step =
   Ok [(Date self.(start_year) 1 1, "Milestone 1 – Year 1")]).
Proof.
  intros Hy. repeat split.
  - intros ->. apply generate_milestones_zero_step. lia.
  - intros Hstep.
    by rewrite generate_milestones_unfold, new_year's_day, bind_Ok,
      range_negative_step by lia.
  - intros Hstep.
    destruct (generate_milestones_returns self step Hy ltac:(lia))
      as (months & milestones & Hmonths & Hms & Hlen).
    exists milestones. split; [done|].
    rewrite range_positive_step in Hmonths by done. injection Hmonths as <-.
    rewrite Hlen, length_fmap, length_seqZ, Z2Nat.id; [done|].
    apply Z.div_pos; lia.
  - intros Hstep.
    rewrite generate_milestones_unfold, new_year's_day, bind_Ok,
      range_positive_step, bind_Ok by lia.
    assert ((35 + step) `div` step = 1) as ->.
    { symmetry. apply (Z.div_unique _ _ _ 35); lia. }
    change (seqZ 0 1) with [0]. simpl fmap. rewrite for_each_cons.
    unfold milestone_entry. replace (0 + 0 * step) with 0 by lia.
    rewrite timedelta_within_horizon, bind_Ok by lia.
    change (30 * 0) with 0. rewrite add_zero, !bind_Ok by lia.
    cbn [year]. unfold milestone_name.
    rewrite Z.sub_diag, Z.div_0_l by lia. reflexivity.
Qed.

Lemma milestone_count_witness :
  (1 ≤ 2025 ≤ 9997) ∧
  ∃ milestones,
    generate_milestones (acme 2025 []) 5 = Ok milestones ∧
    length milestones = 8%nat.
Proof.
  assert (1 ≤ 2025 ≤ 9997) as Hy by lia.
  split; [exact Hy|].
  destruct (milestone_count (acme 2025 []) 5 Hy) as (_ & _ & Hpositive & _).
  destruct (Hpositive ltac:(lia)) as (milestones & Hms & Hlen).
  exists milestones. split; [exact Hms|].
  apply Nat2Z.inj. rewrite Hlen. reflexivity.
Defined.

(** X2: the milestones are 30-day months apart.  The [k]-th date of a
    returned list (counting from 0) lies [30 * k * cadence] days after
    1 January of the start year, the first one is that day itself, and each
    milestone comes [30 * cadence] days after the one before it. *)
Theorem milestones_thirty_days_apart self step milestones (k : nat) date label :
  generate_milestones self step = Ok milestones →
  milestones !! k = Some (date, label) →
  toordinal date =
    toordinal (Date self.(start_year) 1 1) + 30 * (Z.of_nat k * step) ∧
  (k = 0%nat → date = Date self.(start_year) 1 1) ∧
  (∀ date' label',
     milestones !! S k = Some (date', label') →
     toordinal date' - toordinal date = 30 * step).
Proof.
  intros Hms Hk.
  apply generate_milestones_Ok in Hms as (months & Hy & Hmonths & Hall).
  destruct (Forall2_lookup_r _ _ _ _ _ Hall Hk) as (i & Hi & Hentry).
  destruct (range_months _ _ _ _ Hmonths Hi) as [-> Hrange].
  destruct (milestone_entry_Ok _ _ _ _ _ (proj1 Hy) Hrange Hentry)
    as (Hdate & _ & _).
  split; [done|]. split.
  - intros ->. unfold milestone_entry in Hentry.
    change (Z.of_nat 0 * step) with 0 in Hentry.
    rewrite timedelta_within_horizon, bind_Ok in Hentry by lia.
    change (30 * 0) with 0 in Hentry.
    rewrite add_zero, bind_Ok in Hentry by lia. by injection Hentry as <- _.
  - intros date' label' Hk'.
    destruct (Forall2_lookup_r _ _ _ _ _ Hall Hk') as (i' & Hi' & Hentry').
    destruct (range_months _ _ _ _ Hmonths Hi') as [-> Hrange'].
    destruct (milestone_entry_Ok _ _ _ _ _ (proj1 Hy) Hrange' Hentry')
      as (Hdate' & _ & _).
    lia.
Qed.

Lemma milestones_thirty_days_apart_witness :
  ∃ milestones date label,
    generate_milestones (acme 2025 []) 6 = Ok milestones ∧
    milestones !! 2%nat = Some (date, label) ∧
    toordinal date = toordinal (Date 2025 1 1) + 360.
Proof.
  assert (generate_milestones (acme 2025 []) 6 =
    Ok [(Date 2025 1 1, "Milestone 1 – Year 1");
        (Date 2025 6 30, "Milestone 2 – Year 1");
        (Date 2025 12 27, "Milestone 3 – Year 1");
        (Date 2026 6 25, "Milestone 4 – Year 2");
        (Date 2026 12 22, "Milestone 5 – Year 2");
        (Date 2027 6 20, "Milestone 6 – Year 3")]) as Hms by (by vm_compute).
  do 3 eexists. split; [exact Hms|]. split; [reflexivity|].
  exact (proj1 (milestones_thirty_days_apart _ 6 _ 2%nat _ _ Hms eq_refl)).
Defined.

(** X3: every milestone is numbered by its place in the list, starting at
    1, and its year of plan is 1, 2 or 3: the date falls in the start year
    or in one of the two years after it. *)
Theorem milestone_labels_in_horizon self step milestones (k : nat) date label :
  generate_milestones self step = Ok milestones →
  milestones !! k = Some (date, label) →
  ∃ offset,
    1 ≤ offset ≤ 3 ∧
    year date = self.(start_year) + offset - 1 ∧
    label = "Milestone " +:+ str_int (Z.of_nat k + 1) +:+ " – Year "
            +:+ str_int offset.
Proof.
  intros Hms Hk.
  assert (step ≠ 0) as Hstep.
  { intros ->. apply generate_milestones_Ok in Hms as (? & ? & ? & _). done. }
  apply generate_milestones_Ok in Hms as (months & Hy & Hmonths & Hall).
  destruct (Forall2_lookup_r _ _ _ _ _ Hall Hk) as (i & Hi & Hentry).
  destruct (range_months _ _ _ _ Hmonths Hi) as [-> Hrange].
  destruct (milestone_entry_Ok _ _ _ _ _ (proj1 Hy) Hrange Hentry)
    as (_ & Hyear & ->).
  exists (year date - self.(start_year) + 1).
  split; [lia|]. split; [lia|].
  unfold milestone_name. by rewrite Z.div_mul.
Qed.

Lemma milestone_labels_in_horizon_witness :
  ∃ milestones date label,
    generate_milestones (acme 2025 []) 12 = Ok milestones ∧
    milestones !! 2%nat = Some (date, label) ∧
    ∃ offset,
      1 ≤ offset ≤ 3 ∧
      year date = (acme 2025 []).(start_year) + offset - 1 ∧
      label = "Milestone " +:+ str_int (Z.of_nat 2 + 1) +:+ " – Year "
              +:+ str_int offset.
Proof.
  assert (generate_milestones (acme 2025 []) 12 =
    Ok [(Date 2025 1 1, "Milestone 1 – Year 1");
        (Date 2025 12 27, "Milestone 2 – Year 1");
        (Date 2026 12 22, "Milestone 3 – Year 2")]) as Hms by (by vm_compute).
  do 3 eexists. split; [exact Hms|]. split; [reflexivity|].
  exact (milestone_labels_in_horizon _ 12 _ 2%nat _ _ Hms eq_refl).
Defined.

(** X4: at the default cadence the labels do not depend on the start year.
    Because a month counts 30 days, the third milestone (day 360) is still
    in the first year: the years of plan are 1, 1, 1, 2, 2 and 3. *)
Theorem default_milestone_labels self milestones :
  generate_milestones self 6 = Ok milestones →
  milestones.*2 =
    ["Milestone 1 – Year 1"; "Milestone 2 – Year 1"; "Milestone 3 – Year 1";
     "Milestone 4 – Year 2"; "Milestone 5 – Year 2"; "Milestone 6 – Year 3"].
Proof.
  intros Hms.
  apply generate_milestones_Ok in Hms as (months & Hy & Hmonths & Hall).
  vm_compute in Hmonths. injection Hmonths as <-.
  repeat match goal with
  | H : Forall2 _ (_ :: _) _ |- _ =>
      apply Forall2_cons_inv_l in H as ([? ?] & ? & ? & H & ->)
  | H : Forall2 _ [] _ |- _ => apply Forall2_nil_inv_l in H as ->
  end.
  repeat match goal with
  | H : milestone_entry _ _ ?i = Ok (?date, _) |- _ =>
      let Ho := fresh in let Hdate := fresh in
      destruct (milestone_entry_date _ _ i _ _ H ltac:(lia)) as [Ho Hdate];
      destruct (milestone_entry_Ok _ _ i _ _ (proj1 Hy) ltac:(lia) H)
        as (_ & _ & ->);
      destruct (year_after self.(start_year) (30 * i) (proj1 Hy) ltac:(lia))
        as (Hfirst & Hsecond & Hthird);
      rewrite Hdate;
      first [rewrite Hfirst by lia | rewrite Hsecond by lia | rewrite Hthird by lia];
      clear H Ho Hdate Hfirst Hsecond Hthird
  end.
  simpl fmap. unfold milestone_name.
  replace (self.(start_year) - self.(start_year) + 1) with 1 by lia.
  replace (self.(start_year) + 1 - self.(start_year) + 1) with 2 by lia.
  replace (self.(start_year) + 2 - self.(start_year) + 1) with 3 by lia.
  reflexivity.
Qed.

Lemma default_milestone_labels_witness :
  ∃ milestones,
    generate_milestones (acme 2031 []) 6 = Ok milestones ∧
    milestones.*2 !! 2%nat = Some "Milestone 3 – Year 1".
Proof.
  destruct (generate_milestones (acme 2031 []) 6) as [milestones|e] eqn:Hms;
    [|by vm_compute in Hms].
  exists milestones. split; [reflexivity|].
  by rewrite (default_milestone_labels _ _ Hms).
Defined.

End milestone_theorems.



(** ** The milestones the specification describes *)

Section milestone_claims.
Import datetime.

(** C5: whatever the cadence, the milestone the loop makes for month offset
    [i] (the [k]-th one, [i = k * cadence]) is dated [30 * i] days after
    1 January of the start year: it is the result of adding that many days
    to the start date, a date of the calendar whose day number is the day
    number of 1 January plus [30 * i].  It is labelled
    "Milestone n – Year offset" with [n = i // cadence + 1] and [offset] the
    year of that date minus the start year, plus one.  The list is returned
    for every non-zero cadence when the start year leaves room for the
    horizon. *)
Theorem generate_milestones_dates_and_labels self step :
  (1 ≤ self.(start_year) ≤ 9997 → step ≠ 0 →
   ∃ milestones, generate_milestones self step = Ok milestones) ∧
  (∀ milestones (k : nat) date label,
     generate_milestones self step = Ok milestones →
     milestones !! k = Some (date, label) →
     let i := Z.of_nat k * step in
     0 ≤ i < 36 ∧
     add (Date self.(start_year) 1 1) (30 * i) = Ok date ∧
     toordinal date = toordinal (Date self.(start_year) 1 1) + 30 * i ∧
     1 ≤ year date ∧
     1 ≤ month date ≤ 12 ∧
     1 ≤ day date ≤ _days_in_month (year date) (month date) ∧
     i `div` step + 1 = Z.of_nat k + 1 ∧
     label = "Milestone " +:+ str_int (i `div` step + 1) +:+ " – Year "
             +:+ str_int (year date - self.(start_year) + 1)).
Proof.
  split.
  - intros Hy Hstep.
    destruct (generate_milestones_returns self step Hy Hstep)
      as (months & milestones & _ & Hms & _). eauto.
  - intros milestones k date label Hms Hk i.
    apply generate_milestones_Ok in Hms as (months & Hy & Hmonths & Hall).
    destruct (Forall2_lookup_r _ _ _ _ _ Hall Hk) as (j & Hj & Hentry).
    destruct (range_months _ _ _ _ Hmonths Hj) as [-> Hi].
    assert (step ≠ 0) as Hstep.
    { intros ->. by vm_compute in Hmonths. }
    fold i in Hi, Hentry.
    destruct (milestone_entry_Ok _ _ _ _ _ (proj1 Hy) Hi Hentry)
      as (Hord & _ & _).
    destruct (milestone_entry_date _ _ _ _ _ Hentry Hi) as [Ho Hdate].
    destruct (ord2ymd_spec _ Ho) as (Hyear & Hmonth & Hday & _).
    rewrite <- Hdate in Hyear, Hmonth, Hday.
    unfold milestone_entry in Hentry.
    rewrite timedelta_within_horizon, bind_Ok in Hentry by done.
    destruct (add _ _) as [date'|] eqn:Hadd; [|done].
    rewrite bind_Ok in Hentry. injection Hentry as -> <-.
    repeat split; try done; try lia.
    unfold i. by rewrite Z.div_mul.
Qed.

Lemma generate_milestones_dates_and_labels_witness :
  (1 ≤ 2025 ≤ 9997) ∧ 6 ≠ 0 ∧
  ∃ milestones date label,
    generate_milestones (acme 2025 []) 6 = Ok milestones ∧
    milestones !! 1%nat = Some (date, label) ∧
    add (Date 2025 1 1) 180 = Ok date ∧
    toordinal date = toordinal (Date 2025 1 1) + 180 ∧
    label = "Milestone 2 – Year 1".
Proof.
  assert (1 ≤ 2025 ≤ 9997) as Hy by lia.
  assert (6 ≠ 0) as Hstep by lia.
  split; [exact Hy|]. split; [exact Hstep|].
  destruct (generate_milestones_dates_and_labels (acme 2025 []) 6)
    as [Hreturns Hentries].
  destruct (Hreturns Hy Hstep) as [milestones Hms].
  assert (milestones !! 1%nat = Some (Date 2025 6 30, "Milestone 2 – Year 1"))
    as Hsecond.
  { vm_compute in Hms. by injection Hms as <-. }
  exists milestones, (Date 2025 6 30), "Milestone 2 – Year 1".
  split; [exact Hms|]. split; [exact Hsecond|].
  destruct (Hentries milestones 1%nat _ _ Hms Hsecond)
    as (_ & Hdate & Hord & _).
  split; [exact Hdate|]. split; [exact Hord | reflexivity].
Defined.

(** C10 (as amended): at the default cadence of 6 months the 36-month
    horizon yields exactly 6 entries for every start year from 1 to 9997,
    the years whose six dates [datetime.date] can hold.  Every other start
    year raises and yields no list: [OverflowError] for 9998 and 9999,
    where a date passes the last day of 9999; [ValueError] for the other
    years outside 1..9999 that fit a C [int]; [OverflowError] again for a
    start year that does not fit one. *)
Theorem default_cadence_six_milestones self :
  (1 ≤ self.(start_year) ≤ 9997 →
   ∃ milestones,
     generate_milestones self 6 = Ok milestones ∧ length milestones = 6%nat) ∧
  (9998 ≤ self.(start_year) ≤ 9999 →
   generate_milestones self 6 = Raise OverflowError) ∧
  (self.(start_year) < 1 ∨ 9999 < self.(start_year) →
   INT_MIN ≤ self.(start_year) ≤ INT_MAX →
   generate_milestones self 6 = Raise ValueError) ∧
  (self.(start_year) < INT_MIN ∨ INT_MAX < self.(start_year) →
   generate_milestones self 6 = Raise OverflowError).
Proof.
  split; [|split; [|split]].
  - intros Hy.
    destruct (generate_milestones_returns self 6 Hy ltac:(lia))
      as (months & milestones & Hmonths & Hms & Hlen).
    exists milestones. split; [done|].
    rewrite Hlen. vm_compute in Hmonths. by injection Hmonths as <-.
  - apply generate_milestones_late_year.
  - apply generate_milestones_bad_year.
  - apply generate_milestones_huge_year.
Qed.

Lemma default_cadence_six_milestones_witness :
  (1 ≤ 2025 ≤ 9997) ∧
  ∃ milestones,
    generate_milestones (acme 2025 []) 6 = Ok milestones ∧
    length milestones = 6%nat.
Proof.
  assert (1 ≤ 2025 ≤ 9997) as Hy by lia.
  split; [exact Hy|].
  exact (proj1 (default_cadence_six_milestones (acme 2025 [])) Hy).
Defined.

(** C10 as stated fails for a plan that starts in 9999: the fourth date, 540
    days after 1 January 9999, is beyond the last date there is. *)
Lemma default_cadence_overflows_in_9999 :
  generate_milestones (acme 9999 []) 6 = Raise OverflowError ∧
  ¬ ∃ milestones,
      generate_milestones (acme 9999 []) 6 = Ok milestones ∧
      length milestones = 6%nat.
Proof.
  assert (generate_milestones (acme 9999 []) 6 = Raise OverflowError) as H
    by (vm_compute; reflexivity).
  split; [exact H|]. intros (milestones & Hms & _). by rewrite H in Hms.
Qed.

End milestone_claims.
(** ** Rows and the table *)

Section row_layout.
Context {V : Type}.

Lemma dict_set_fresh k v (d : pydict V) :
  k ∉ d.*1 → dict_set k v d = d ++ [(k, v)].
Proof.
  induction d as [|[k' v'] d IH]; simpl; [done|].
  rewrite not_elem_of_cons. intros [Hne Hk].
  rewrite decide_False by done. by rewrite IH.
Qed.

(** Items with fresh, distinct keys are stored in their order, after what
    the dictionary held. *)
Lemma dict_fold_fresh (items d : pydict V) :
  NoDup (d.*1 ++ items.*1) →
  fold_left (λ d kv, dict_set kv.1 kv.2 d) items d = d ++ items.
Proof.
  revert d. induction items as [|[k v] items IH]; intros d Hnd; simpl.
  - by rewrite app_nil_r.
  - simpl in Hnd. rewrite dict_set_fresh.
    + rewrite IH; [by rewrite <- app_assoc|].
      by rewrite fmap_app, <- app_assoc.
    + apply NoDup_app in Hnd as (_ & Hdisjoint & _).
      intros Hk. apply (Hdisjoint k Hk). apply elem_of_cons. by left.
Qed.

Lemma dict_of_items_fresh (items : pydict V) :
  dict_wf items → dict_of_items items = items.
Proof. intros Hwf. unfold dict_of_items. by rewrite dict_fold_fresh. Qed.

End row_layout.

(** The row of a year when the extra metrics have names of their own: the
    four fixed keys, then one item per extra metric in the order of
    [other_targets]. *)
Lemma target_row_layout self year :
  dict_wf self.(other_targets) →
  (∀ k, k ∈ core_keys → dict_get k self.(other_targets) = None) →
  target_row self year =
  [("year", PyInt year);
   ("revenue", get self.(revenue_targets) year);
   ("customers", get self.(customer_targets) year);
   ("gross_margin", get self.(margin_targets) year)]
  ++ ((λ mv, (mv.1, get mv.2 year)) <$> self.(other_targets)).
Proof.
  intros Hwf Hnames. unfold target_row.
  assert (((λ mv : string * gmap Z pyval, (mv.1, get mv.2 year))
             <$> self.(other_targets)).*1 = self.(other_targets).*1) as Hkeys.
  { rewrite <- list_fmap_compose. by apply list_fmap_ext. }
  rewrite (dict_of_items_fresh ((λ mv, (mv.1, get mv.2 year)) <$> _))
    by (unfold dict_wf; by rewrite Hkeys).
  apply dict_of_items_fresh. unfold dict_wf.
  rewrite fmap_app, Hkeys. apply NoDup_app. split; [|split; [|done]].
  - simpl. apply (bool_decide_unpack _). by vm_compute.
  - intros k Hk Hk'. apply (dict_get_None k self.(other_targets)) in Hk'; [done|].
    apply Hnames. exact Hk.
Qed.

(** X5: plan assembly and the narrative depend on the start year through
    the milestones alone.  The plan is returned exactly for the start years
    1 to 9997.  For 9998 and 9999 assembly and narration raise
    [OverflowError] (a milestone would fall after the year 9999); for the
    other start years outside 1..9999 they raise the [ValueError] of
    [datetime.date] when the year fits a C [int], and [OverflowError] when
    it does not. *)
Theorem plan_assembly_by_start_year float_repr self :
  (1 ≤ self.(start_year) ≤ 9997 ↔ ∃ p, build_plan self = Ok p) ∧
  (9998 ≤ self.(start_year) ≤ 9999 →
   build_plan self = Raise OverflowError ∧
   generate_narrative float_repr self = Raise OverflowError) ∧
  (self.(start_year) < 1 ∨ 9999 < self.(start_year) →
   datetime.INT_MIN ≤ self.(start_year) ≤ datetime.INT_MAX →
   build_plan self = Raise ValueError ∧
   generate_narrative float_repr self = Raise ValueError) ∧
  (self.(start_year) < datetime.INT_MIN ∨ datetime.INT_MAX < self.(start_year) →
   build_plan self = Raise OverflowError ∧
   generate_narrative float_repr self = Raise OverflowError).
Proof.
  assert (∀ e, generate_milestones self 6 = Raise e →
               build_plan self = Raise e ∧
               generate_narrative float_repr self = Raise e) as Hraise.
  { intros e He. assert (build_plan self = Raise e) as Hp.
    { unfold build_plan. by rewrite He. }
    split; [done|]. unfold generate_narrative. by rewrite Hp. }
  split; [split|split; [|split]].
  - apply build_plan_returns.
  - intros [p Hp]. unfold build_plan in Hp.
    destruct (generate_milestones self 6) as [generated|] eqn:Hms; [|done].
    destruct (generate_milestones_Ok _ _ _ Hms) as (_ & Hy & _).
    destruct (decide (9998 ≤ self.(start_year))) as [Hlate|]; [|lia].
    by rewrite generate_milestones_late_year in Hms by lia.
  - intros Hy. by apply Hraise, generate_milestones_late_year.
  - intros Hy Hint. by apply Hraise, generate_milestones_bad_year.
  - intros Hy. by apply Hraise, generate_milestones_huge_year.
Qed.

Lemma plan_assembly_by_start_year_witness :
  (9998 ≤ (acme 9999 []).(start_year) ≤ 9999) ∧
  build_plan (acme 9999 []) = Raise OverflowError.
Proof.
  assert (9998 ≤ (acme 9999 []).(start_year) ≤ 9999) as Hy by (simpl; lia).
  split; [exact Hy|].
  destruct (plan_assembly_by_start_year (λ _, EmptyString) (acme 9999 []))
    as (_ & Hlate & _).
  exact (proj1 (Hlate Hy)).
Defined.

(** X6: the whole table.  When the extra metrics are stored under names of
    their own (none of them called year, revenue, customers or
    gross_margin), the assembled table has one row per year of the core
    targets, in ascending order, and each row lists year, revenue,
    customers and gross_margin followed by the extra metrics in the order
    of [other_targets], each with its value for the year or [None]. *)
Theorem strategic_targets_layout self p :
  build_plan self = Ok p →
  dict_wf self.(other_targets) →
  (∀ k, k ∈ core_keys → dict_get k self.(other_targets) = None) →
  p.(strategic_targets) =
  (λ year,
     [("year", PyInt year);
      ("revenue", default PyNone (self.(revenue_targets) !! year));
      ("customers", default PyNone (self.(customer_targets) !! year));
      ("gross_margin", default PyNone (self.(margin_targets) !! year))]
     ++ ((λ mv, (mv.1, default PyNone (mv.2 !! year))) <$> self.(other_targets)))
  <$> plan_years self.
Proof.
  intros [-> _]%build_plan_Ok Hwf Hnames. unfold targets_summary.
  apply list_fmap_ext. intros _ year _. by apply target_row_layout.
Qed.

Lemma strategic_targets_layout_witness :
  ∃ p,
    build_plan acme_shorter_net_profit = Ok p ∧
    p.(strategic_targets) =
    [[("year", PyInt 2025); ("revenue", PyInt 1000000);
      ("customers", PyInt 100); ("gross_margin", PyFloat 0.2);
      ("net_profit", PyInt 150000)];
     [("year", PyInt 2026); ("revenue", PyInt 2000000);
      ("customers", PyInt 200); ("gross_margin", PyFloat 0.35);
      ("net_profit", PyNone)]].
Proof.
  destruct (build_plan acme_shorter_net_profit) as [p|e] eqn:Hp;
    [|by vm_compute in Hp].
  exists p. split; [reflexivity|].
  rewrite (strategic_targets_layout _ p Hp).
  - by vm_compute.
  - apply (bool_decide_unpack _). by vm_compute.
  - intros k Hk. repeat (apply elem_of_cons in Hk as [->|Hk]; [done|]).
    by apply elem_of_nil in Hk.
Defined.

(** X7: the table is empty exactly when there is no revenue, customer or
    margin target at all, whatever the extra metrics hold; the targets
    paragraph of the narrative is then the empty string. *)
Theorem empty_table_iff_no_core_targets float_repr self p :
  build_plan self = Ok p →
  (p.(strategic_targets) = [] ↔
   self.(revenue_targets) = ∅ ∧ self.(customer_targets) = ∅
   ∧ self.(margin_targets) = ∅) ∧
  (p.(strategic_targets) = [] → targets_paragraph float_repr p = Ok EmptyString).
Proof.
  intros [Hp _]%build_plan_Ok. split.
  - rewrite Hp. unfold targets_summary.
    assert (target_row self <$> plan_years self = [] ↔ plan_years self = [])
      as ->.
    { split; [apply fmap_nil_inv | by intros ->]. }
    split.
    + intros Hnone.
      assert (∀ y, ¬ (is_Some (self.(revenue_targets) !! y)
                      ∨ is_Some (self.(customer_targets) !! y)
                      ∨ is_Some (self.(margin_targets) !! y))) as Hno.
      { intros y Hy%elem_of_plan_years. rewrite Hnone in Hy.
        by apply elem_of_nil in Hy. }
      repeat split; apply map_empty; intros y; apply eq_None_not_Some;
        intros Hy; apply (Hno y); tauto.
    + intros (Hr & Hc & Hm). apply elem_of_nil_inv. intros y.
      rewrite elem_of_plan_years, Hr, Hc, Hm, !lookup_empty.
      intros [[? ?]|[[? ?]|[? ?]]]; done.
  - intros Hempty. unfold targets_paragraph. by rewrite Hempty.
Qed.

Lemma empty_table_iff_no_core_targets_witness :
  ∃ p,
    build_plan
      (set_targets (acme 2025 []) ∅ ∅ ∅
         (Some [("net_profit", {[ 2025 := PyInt 150000 ]})])) = Ok p ∧
    p.(strategic_targets) = [].
Proof.
  destruct (build_plan _) as [p|e] eqn:Hp; [|by vm_compute in Hp].
  exists p. split; [reflexivity|].
  by apply (proj1 (empty_table_iff_no_core_targets (λ _, EmptyString) _ p Hp)).
Defined.


(** ** The sentences of the targets paragraph *)

Lemma append_assoc (s1 s2 s3 : string) : (s1 +:+ s2) +:+ s3 = s1 +:+ (s2 +:+ s3).
Proof. induction s1 as [|c s1 IH]; [done|]. exact (f_equal (String c) IH). Qed.

Lemma contains_append_r s t sub : contains s sub → contains (s +:+ t) sub.
Proof.
  intros (pre & post & ->). exists pre, (post +:+ t).
  by rewrite !append_assoc.
Qed.

Lemma join_cons_head sep h rest : ∃ tail, join sep (h :: rest) = h +:+ tail.
Proof.
  destruct rest as [|r rest]; simpl.
  - exists EmptyString. induction h as [|c h IH]; [done|].
    exact (f_equal (String c) IH).
  - by eexists.
Qed.

Lemma for_each_Raise_inv {A S : Type} (body : S → A → result S) xs s e :
  for_each body xs s = Raise e → ∃ s' x, x ∈ xs ∧ body s' x = Raise e.
Proof.
  revert s. induction xs as [|x xs IH]; intros s; [done|].
  rewrite for_each_cons. destruct (body s x) as [s'|e'] eqn:Hbody.
  - rewrite bind_Ok. intros (s'' & x' & Hx' & Hraise)%IH.
    exists s'', x'. split; [|done]. apply elem_of_cons. by right.
  - rewrite bind_Raise. intros [= ->]. exists s, x. split; [|done].
    apply elem_of_cons. by left.
Qed.

Section target_lines.
Context (float_repr : float → string).

(** The inner loop of the targets paragraph: it returns exactly when every
    item outside the four fixed keys formats as an amount, and then has
    appended their clauses in the order of the row. *)
Lemma clause_loop_Ok (t : pydict pyval) lines result :
  for_each
    (λ lines item,
       if decide (item.1 ∈ core_keys) then Ok lines
       else clause ← metric_clause item.1 item.2; Ok (lines ++ [clause]))
    t lines = Ok result ↔
  ∃ clauses,
    result = lines ++ clauses ∧
    Forall2 (λ item clause, metric_clause item.1 item.2 = Ok clause)
      (filter (λ item, item.1 ∉ core_keys) t) clauses.
Proof.
  revert lines result. induction t as [|item t IH]; intros lines result.
  - simpl. split.
    + intros [= <-]. exists []. by rewrite app_nil_r.
    + intros (clauses & -> & ->%Forall2_nil_inv_l). by rewrite app_nil_r.
  - rewrite for_each_cons. destruct (decide (item.1 ∈ core_keys)) as [Hcore|Hcore].
    + rewrite bind_Ok, IH, filter_cons_False by (by intros ?). done.
    + rewrite filter_cons_True by done.
      destruct (metric_clause item.1 item.2) as [clause|e] eqn:Hclause.
      * rewrite !bind_Ok, IH. split.
        -- intros (clauses & -> & Hall). exists (clause :: clauses).
           split; [by rewrite <- app_assoc|]. by constructor.
        -- intros (clauses & -> & Hall).
           apply Forall2_cons_inv_l in Hall as (c & cs & Hc & Hcs & ->).
           rewrite Hclause in Hc. injection Hc as <-.
           exists cs. split; [by rewrite <- app_assoc | done].
      * rewrite !bind_Raise. split; [done|].
        intros (clauses & _ & Hall).
        apply Forall2_cons_inv_l in Hall as (c & cs & Hc & _).
        by rewrite Hclause in Hc.
Qed.

Lemma target_line_Ok (t : pydict pyval) line :
  target_line float_repr t = Ok line ↔
  ∃ headline clauses,
    target_headline float_repr t = Ok headline ∧
    Forall2 (λ item clause, metric_clause item.1 item.2 = Ok clause)
      (filter (λ item, item.1 ∉ core_keys) t) clauses ∧
    line = join " " (headline :: clauses) +:+ ".".
Proof.
  unfold target_line.
  destruct (target_headline float_repr t) as [headline|e].
  - rewrite bind_Ok. cbv beta.
    match goal with
    | |- context [for_each ?body t ?acc] =>
        destruct (for_each body t acc) as [lines|e] eqn:Hloop
    end.
    + rewrite bind_Ok. apply clause_loop_Ok in Hloop as (clauses & -> & Hall).
      split.
      * intros [= <-]. by exists headline, clauses.
      * intros (h & cs & [= <-] & Hcs & ->).
        by rewrite (Forall2_unique _ _ _ _ Hall Hcs) by congruence.
    + rewrite bind_Raise. split; [done|].
      intros (h & cs & [= <-] & Hcs & _).
      assert (∃ result, for_each
        (λ lines item,
           if decide (item.1 ∈ core_keys) then Ok lines
           else clause ← metric_clause item.1 item.2; Ok (lines ++ [clause]))
        t [headline] = Ok result) as [result Hresult].
      { eexists. apply clause_loop_Ok. by exists cs. }
      by rewrite Hresult in Hloop.
  - rewrite bind_Raise. split; [done|]. by intros (? & ? & ? & _).
Qed.

(** The extra items of a row with names of their own are all its items
    after the four fixed ones. *)
Lemma target_row_extras self year :
  dict_wf self.(other_targets) →
  (∀ k, k ∈ core_keys → dict_get k self.(other_targets) = None) →
  filter (λ item, item.1 ∉ core_keys) (target_row self year) =
  (λ mv, (mv.1, get mv.2 year)) <$> self.(other_targets).
Proof.
  intros Hwf Hnames. rewrite target_row_layout by done.
  rewrite filter_app.
  assert (filter (λ item : string * pyval, item.1 ∉ core_keys)
    [("year", PyInt year); ("revenue", get self.(revenue_targets) year);
     ("customers", get self.(customer_targets) year);
     ("gross_margin", get self.(margin_targets) year)] = []) as ->.
  { repeat (rewrite filter_cons_False;
      [|intros Hno; apply Hno; apply (bool_decide_unpack _); by vm_compute]).
    done. }
  simpl.
  assert (∀ k, k ∈ self.(other_targets).*1 → k ∉ core_keys) as Hfresh.
  { intros k Hk Hcore. by apply (dict_get_None k self.(other_targets)) in Hk; [|apply Hnames]. }
  clear Hwf Hnames. induction self.(other_targets) as [|[k values] extras IH];
    [done|].
  rewrite fmap_cons, filter_cons_True.
  - f_equal. apply IH. intros k' Hk'. apply Hfresh. apply elem_of_cons. by right.
  - simpl. apply Hfresh. apply elem_of_cons. by left.
Qed.

End target_lines.


(** Running the binds of a computation whose first steps are known. *)
Ltac bind_steps :=
  repeat first [rewrite bind_Ok | rewrite bind_Raise | progress cbv beta iota zeta].

Section narrative_results.
Context (float_repr : float → string).

Lemma contains_append_l s t sub : contains t sub → contains (s +:+ t) sub.
Proof.
  intros (pre & post & ->). exists (s +:+ pre), post.
  by rewrite !append_assoc.
Qed.

Lemma contains_join sep parts part sub :
  part ∈ parts → contains part sub → contains (join sep parts) sub.
Proof.
  intros Hpart Hsub. induction parts as [|p parts IH]; [by apply elem_of_nil in Hpart|].
  apply elem_of_cons in Hpart as [<-|Hpart].
  - destruct (join_cons_head sep part parts) as [tail ->].
    by apply contains_append_r.
  - destruct parts as [|p' parts]; [by apply elem_of_nil in Hpart|].
    change (join sep (p :: p' :: parts))
      with (p +:+ sep +:+ join sep (p' :: parts)).
    apply contains_append_l, contains_append_l. by apply IH.
Qed.

Lemma targets_paragraph_Ok p text :
  targets_paragraph float_repr p = Ok text ↔
  ∃ lines,
    Forall2 (λ t line, target_line float_repr t = Ok line)
      p.(strategic_targets) lines ∧
    text = join " " lines.
Proof.
  unfold targets_paragraph.
  match goal with
  | |- context [for_each ?body ?xs ?acc] =>
      destruct (for_each body xs acc) as [lines|e] eqn:Hloop
  end.
  - apply for_each_append_Ok in Hloop as (lines' & -> & Hall).
    rewrite bind_Ok. simpl. split.
    + intros [= <-]. by exists lines'.
    + intros (lines & Hlines & ->).
      by rewrite (Forall2_unique _ _ _ _ Hall Hlines) by congruence.
  - rewrite bind_Raise. split; [done|]. intros (lines & Hlines & _).
    assert (∃ result,
      for_each (λ acc t, line ← target_line float_repr t; Ok (acc ++ [line]))
        p.(strategic_targets) [] = Ok result) as [result Hresult].
    { eexists. apply for_each_append_Ok. by exists lines. }
    by rewrite Hresult in Hloop.
Qed.

Lemma generate_narrative_Ok self text :
  generate_narrative float_repr self = Ok text ↔
  ∃ p targets swot_text,
    build_plan self = Ok p ∧
    targets_paragraph float_repr p = Ok targets ∧
    swot_paragraph self = Ok swot_text ∧
    text = join blank_line
             [intro self; targets; moves_paragraph self; swot_text;
              execution_paragraph; closing self].
Proof.
  unfold generate_narrative. split.
  - intros Hrun. destruct (build_plan self) as [p|e]; [|done].
    rewrite bind_Ok in Hrun. cbv beta zeta in Hrun.
    destruct (targets_paragraph float_repr p) as [targets|e] eqn:Htargets;
      [|done].
    rewrite bind_Ok in Hrun. cbv beta zeta in Hrun.
    destruct (swot_paragraph self) as [swot_text|e]; [|done].
    rewrite bind_Ok in Hrun. injection Hrun as <-.
    by exists p, targets, swot_text.
  - intros (p & targets & swot_text & Hp & Htargets & Hswot & ->).
    rewrite Hp, bind_Ok. cbv beta zeta. rewrite Htargets, bind_Ok.
    cbv beta zeta. by rewrite Hswot, bind_Ok.
Qed.

Lemma build_plan_Ok_start_year self p :
  build_plan self = Ok p → 1 ≤ self.(start_year) ≤ 9997.
Proof.
  intros Hp. unfold build_plan in Hp.
  destruct (generate_milestones self 6) as [generated|] eqn:Hms; [|done].
  destruct (generate_milestones_Ok _ _ _ Hms) as (_ & Hy & _).
  destruct (decide (9998 ≤ self.(start_year))) as [Hlate|]; [|lia].
  by rewrite generate_milestones_late_year in Hms by lia.
Qed.

(** The headline of the row of a year reads the year itself and the three
    core targets, unless an extra metric has taken one of their keys. *)
Lemma target_headline_row self year :
  (∀ k, k ∈ core_keys → dict_get k self.(other_targets) = None) →
  target_headline float_repr (target_row self year) =
  year_text ← py_str float_repr (PyInt year);
  revenue_text ← money_text (get self.(revenue_targets) year);
  customers_text ← py_str float_repr (get self.(customer_targets) year);
  margin_text ← percent_text (get self.(margin_targets) year);
  Ok ("In " +:+ year_text +:+ ", we aim to generate " +:+ revenue_text
      +:+ " in revenue and serve " +:+ customers_text
      +:+ " customers, achieving a gross margin of " +:+ margin_text).
Proof.
  intros Hnames. unfold target_headline, subscript.
  rewrite !target_row_core
    by (apply Hnames; apply (bool_decide_unpack _); by vm_compute).
  set (r := get self.(revenue_targets) year).
  set (c := get self.(customer_targets) year).
  set (m := get self.(margin_targets) year).
  change (dict_get "year" _) with (Some (PyInt year)).
  change (dict_get "revenue" _) with (Some r).
  change (dict_get "customers" _) with (Some c).
  change (dict_get "gross_margin" _) with (Some m).
  bind_steps.
  destruct (py_str float_repr (PyInt year)) as [year_text|]; [|done].
  bind_steps.
  destruct (money_text r) as [revenue_text|]; [|done]. bind_steps.
  destruct (py_str float_repr c) as [customers_text|]; [|done]. bind_steps.
  by destruct (percent_text m).
Qed.

Lemma metric_clause_Ok metric value clause :
  metric_clause metric value = Ok clause ↔
  ∃ amount,
    money_text value = Ok amount ∧
    clause = "with " +:+ replace_char "_" " " metric +:+ " of " +:+ amount.
Proof.
  unfold metric_clause. destruct (money_text value) as [amount|e].
  - rewrite bind_Ok. split; [intros [= <-]; eauto | by intros (? & [= <-] & ->)].
  - rewrite bind_Raise. split; [done | by intros (? & ? & _)].
Qed.

End narrative_results.


(** *** Printing an [int] *)

Lemma little_double_digits d :
  (Decimal.nb_digits (Decimal.Little.double d) ≤ S (Decimal.nb_digits d))%nat ∧
  (Decimal.nb_digits (Decimal.Little.succ_double d) ≤ S (Decimal.nb_digits d))%nat.
Proof.
  induction d as
    [|d [IH1 IH2]|d [IH1 IH2]|d [IH1 IH2]|d [IH1 IH2]|d [IH1 IH2]
     |d [IH1 IH2]|d [IH1 IH2]|d [IH1 IH2]|d [IH1 IH2]|d [IH1 IH2]];
    simpl; lia.
Qed.

Lemma to_little_uint_digits p :
  (Decimal.nb_digits (Pos.to_little_uint p) ≤ Pos.size_nat p)%nat.
Proof.
  induction p as [p IH|p IH|]; simpl; [| |lia].
  - pose proof (proj2 (little_double_digits (Pos.to_little_uint p))). lia.
  - pose proof (proj1 (little_double_digits (Pos.to_little_uint p))). lia.
Qed.

Lemma string_of_uint_length d :
  String.length (NilEmpty.string_of_uint d) = Decimal.nb_digits d.
Proof. induction d; simpl; congruence. Qed.

Lemma nilzero_string_length d :
  String.length (NilZero.string_of_uint d) = Nat.max 1 (Decimal.nb_digits d).
Proof.
  destruct d; [done|..];
    change (NilZero.string_of_uint ?u) with (NilEmpty.string_of_uint u);
    rewrite string_of_uint_length; simpl; lia.
Qed.

Lemma size_nat_bound p (k : nat) :
  Z.pos p < 2 ^ Z.of_nat k → (Pos.size_nat p ≤ k)%nat.
Proof.
  revert k. induction p as [p IH|p IH|]; intros [|k] Hp;
    rewrite ?Nat2Z.inj_succ, ?Z.pow_succ_r in Hp by lia; simpl in *; try lia.
  - apply le_n_S, IH. lia.
  - apply le_n_S, IH. lia.
Qed.

(** A number below [2 ^ k] is written with at most [k] digits. *)
Lemma str_int_length n (k : nat) :
  Z.abs n < 2 ^ Z.of_nat k →
  (String.length (str_int (Z.abs n)) ≤ Nat.max 1 k)%nat.
Proof.
  intros Hn. unfold str_int.
  destruct (Z.abs n) as [|p|p] eqn:Habs; [simpl; lia| |lia].
  change (NilZero.string_of_int (Z.to_int (Z.pos p)))
    with (NilZero.string_of_uint (Pos.to_uint p)).
  rewrite nilzero_string_length. unfold Pos.to_uint.
  rewrite DecimalFacts.nb_digits_rev.
  pose proof (to_little_uint_digits p). pose proof (size_nat_bound p k Hn).
  lia.
Qed.

(** [str] converts every [int] below [2 ^ 4300] in magnitude, a number of
    some 1294 digits. *)
Lemma py_str_int_Ok n : Z.abs n < 2 ^ 4300 → py_str_int n = Ok (str_int n).
Proof.
  intros Hn. unfold py_str_int, int_max_str_digits.
  pose proof (str_int_length n 4300 Hn). rewrite decide_True; [done|lia].
Qed.

(** [str] of a number given by its decimal digits: it is converted exactly
    when it has at most 4300 of them. *)
Lemma py_str_int_digits (u : Decimal.uint) :
  Decimal.unorm u = u →
  py_str_int (Z.of_uint u) =
  if decide (Z.of_nat (Decimal.nb_digits u) ≤ int_max_str_digits)
  then Ok (NilZero.string_of_uint u)
  else Raise ValueError.
Proof.
  intros Hu. unfold py_str_int, str_int.
  assert (0 ≤ Z.of_uint u) as Hpos by (unfold Z.of_uint; apply N2Z.is_nonneg).
  rewrite Z.abs_eq by done.
  change (Z.of_uint u) with (Z.of_int (Decimal.Pos u)).
  rewrite DecimalZ.to_of. unfold Decimal.norm. rewrite Hu.
  change (NilZero.string_of_int (Decimal.Pos u))
    with (NilZero.string_of_uint u).
  rewrite nilzero_string_length. unfold int_max_str_digits.
  repeat case_decide; try done; lia.
Qed.

Lemma nb_digits_iter (f : Decimal.uint → Decimal.uint) n d :
  (∀ d, Decimal.nb_digits (f d) = S (Decimal.nb_digits d)) →
  Decimal.nb_digits (Nat.iter n f d) = (n + Decimal.nb_digits d)%nat.
Proof. intros Hf. induction n as [|n IH]; simpl; [done|]. by rewrite Hf, IH. Qed.

(** The limit is met: the number written with 4300 nines is converted, the
    next one, a one followed by 4300 zeros, is refused. *)
Lemma py_str_int_limit :
  (∃ text,
     py_str_int (Z.of_uint (Nat.iter 4300 Decimal.D9 Decimal.Nil)) = Ok text) ∧
  py_str_int (Z.of_uint (Decimal.D1 (Nat.iter 4300 Decimal.D0 Decimal.Nil)))
  = Raise ValueError.
Proof.
  split.
  - eexists. rewrite py_str_int_digits.
    + rewrite nb_digits_iter by done. rewrite decide_True; [done|].
      unfold int_max_str_digits. simpl Decimal.nb_digits. lia.
    + change 4300%nat with (S 4299). done.
  - rewrite py_str_int_digits by done.
    change (Decimal.nb_digits (Decimal.D1 ?d)) with (S (Decimal.nb_digits d)).
    rewrite nb_digits_iter by done. rewrite decide_False; [done|].
    unfold int_max_str_digits. simpl Decimal.nb_digits. lia.
Qed.

Section narrative_theorems.
Context (float_repr : float → string).

Lemma Forall_Ok_Forall2 {A B : Type} (g : A → result B) xs :
  Forall (λ x, ∃ y, g x = Ok y) xs → ∃ ys, Forall2 (λ x y, g x = Ok y) xs ys.
Proof.
  induction 1 as [|x xs [y Hy] _ [ys IH]].
  - exists []. constructor.
  - exists (y :: ys). by constructor.
Qed.

(** What the sentence of a year needs: a year and a customer count that
    [str] converts, a revenue, a margin and extra values that the number
    formats accept. *)
Local Abbreviation year_can_be_written self year :=
  ((∃ text, py_str float_repr (PyInt year) = Ok text) ∧
   (∃ text, money_text (get self.(revenue_targets) year) = Ok text) ∧
   (∃ text, py_str float_repr (get self.(customer_targets) year) = Ok text) ∧
   (∃ text, percent_text (get self.(margin_targets) year) = Ok text) ∧
   (∀ metric values,
      (metric, values) ∈ self.(other_targets) →
      ∃ text, money_text (get values year) = Ok text)).

(** When the extra metrics have names of their own, the sentence of a year
    is written exactly when each of its fields can be. *)
Lemma target_line_row_Ok self year :
  dict_wf self.(other_targets) →
  (∀ k, k ∈ core_keys → dict_get k self.(other_targets) = None) →
  (∃ line, target_line float_repr (target_row self year) = Ok line) ↔
  year_can_be_written self year.
Proof.
  intros Hwf Hnames. split.
  - intros (line & (headline & clauses & Hhead & Hclauses & _)%target_line_Ok).
    rewrite target_headline_row in Hhead by done.
    rewrite target_row_extras in Hclauses by done.
    destruct (py_str float_repr (PyInt year)) as [yt|]; [|done].
    rewrite bind_Ok in Hhead.
    destruct (money_text (get self.(revenue_targets) year)) as [rt|]; [|done].
    rewrite bind_Ok in Hhead.
    destruct (py_str float_repr (get self.(customer_targets) year)) as [ct|];
      [|done].
    rewrite bind_Ok in Hhead.
    destruct (percent_text (get self.(margin_targets) year)) as [mt|]; [|done].
    do 4 (split; [by eexists|]).
    intros metric values Hin.
    apply Forall2_fmap_l in Hclauses.
    apply list_elem_of_lookup in Hin as [i Hi].
    destruct (Forall2_lookup_l _ _ _ _ _ Hclauses Hi) as (clause & _ & Hclause).
    simpl in Hclause. apply metric_clause_Ok in Hclause as (amount & ? & _).
    by exists amount.
  - intros ([yt Hyt] & [rt Hrt] & [ct Hct] & [mt Hmt] & Hextras).
    assert (∃ clauses,
      Forall2 (λ item clause, metric_clause item.1 item.2 = Ok clause)
        ((λ mv, (mv.1, get mv.2 year)) <$> self.(other_targets)) clauses)
      as [clauses Hclauses].
    { apply Forall_Ok_Forall2 with (g := λ item : string * pyval,
        metric_clause item.1 item.2).
      apply Forall_fmap, Forall_forall. intros [metric values] Hin. simpl.
      destruct (Hextras metric values Hin) as [amount Hamount].
      eexists. apply metric_clause_Ok. by exists amount. }
    eexists. apply target_line_Ok. do 2 eexists.
    split; [|split; [|reflexivity]].
    + rewrite target_headline_row by done.
      rewrite Hyt, bind_Ok, Hrt, bind_Ok, Hct, bind_Ok, Hmt, bind_Ok.
      reflexivity.
    + by rewrite target_row_extras.
Qed.

Lemma swot_paragraph_Ok self :
  (∃ text, swot_paragraph self = Ok text) ↔ is_Some self.(swot).
Proof.
  unfold swot_paragraph. destruct self.(swot) as [d|].
  - split; [by eexists | by eexists].
  - split; [by intros [? ?] | by intros [? ?]].
Qed.

Lemma narrative_returns_when self :
  dict_wf self.(other_targets) →
  (∀ k, k ∈ core_keys → dict_get k self.(other_targets) = None) →
  1 ≤ self.(start_year) ≤ 9997 →
  is_Some self.(swot) →
  (∀ year, year ∈ plan_years self → year_can_be_written self year) →
  ∃ text, generate_narrative float_repr self = Ok text.
Proof.
  intros Hwf Hnames Hy Hswot Hyears.
  destruct (build_plan_returns self Hy) as [p Hp].
  apply swot_paragraph_Ok in Hswot as [swot_text Hswot].
  assert (∃ lines,
    Forall2 (λ t line, target_line float_repr t = Ok line)
      p.(strategic_targets) lines) as [lines Hlines].
  { apply Forall_Ok_Forall2.
    apply build_plan_Ok in Hp as [-> _]. unfold targets_summary.
    apply Forall_fmap, Forall_forall. intros year Hyear. simpl.
    apply target_line_row_Ok; [done|done|]. by apply Hyears. }
  eexists. apply generate_narrative_Ok. exists p. do 2 eexists.
  split; [done|]. split; [|split; [exact Hswot | reflexivity]].
  apply targets_paragraph_Ok. by exists lines.
Qed.

Lemma narrative_returns_only_if self text :
  dict_wf self.(other_targets) →
  (∀ k, k ∈ core_keys → dict_get k self.(other_targets) = None) →
  generate_narrative float_repr self = Ok text →
  1 ≤ self.(start_year) ≤ 9997 ∧
  is_Some self.(swot) ∧
  (∀ year, year ∈ plan_years self → year_can_be_written self year).
Proof.
  intros Hwf Hnames
    (p & targets & swot_text & Hp & Htargets & Hswot & _)%generate_narrative_Ok.
  split; [by eapply build_plan_Ok_start_year|].
  split; [apply swot_paragraph_Ok; by eexists|].
  intros year Hyear. apply target_line_row_Ok; [done|done|].
  apply targets_paragraph_Ok in Htargets as (lines & Hlines & _).
  apply build_plan_Ok in Hp as [Hp _]. rewrite Hp in Hlines.
  unfold targets_summary in Hlines. apply Forall2_fmap_l in Hlines.
  apply list_elem_of_lookup in Hyear as [i Hi].
  destruct (Forall2_lookup_l _ _ _ _ _ Hlines Hi) as (line & _ & Hline).
  by exists line.
Qed.

End narrative_theorems.

(** A customer count of 4301 digits stops the narrative, whatever else the
    agent holds in order. *)
Lemma huge_customer_count_stops_the_narrative float_repr :
  ¬ ∃ text,
      generate_narrative float_repr
        (set_targets (acme_scenario 2025 []) {[ 2025 := PyInt 1000000 ]}
           {[ 2025 :=
                PyInt (Z.of_uint (Decimal.D1 (Nat.iter 4300 Decimal.D0 Decimal.Nil))) ]}
           {[ 2025 := PyFloat 0.2 ]} None) = Ok text.
Proof.
  pose proof (proj2 py_str_int_limit) as Hhuge. revert Hhuge.
  generalize (Z.of_uint (Decimal.D1 (Nat.iter 4300 Decimal.D0 Decimal.Nil))).
  intros huge Hhuge [text Htext].
  apply narrative_returns_only_if in Htext as (_ & _ & Hyears).
  - destruct (Hyears 2025) as (_ & _ & [shown Hshown] & _).
    + apply elem_of_plan_years. left. by eexists.
    + unfold get in Hshown. cbn [customer_targets set_targets] in Hshown.
      rewrite lookup_singleton in Hshown. simpl in Hshown.
      by rewrite Hhuge in Hshown.
  - apply (bool_decide_unpack _). by vm_compute.
  - intros k Hk. repeat (apply elem_of_cons in Hk as [->|Hk]; [done|]).
    by apply elem_of_nil in Hk.
Qed.


(** X8: when the extra metrics have names of their own, the narrative is
    returned exactly when the start year is between 1 and 9997, a SWOT
    analysis is stored, and every year of the table can be written: [str]
    converts the year and the customer count (it refuses an [int] of more
    than 4300 digits), and the revenue, the margin and every extra metric
    hold a value that the number formats accept. *)
Theorem narrative_returns_iff float_repr self :
  dict_wf self.(other_targets) →
  (∀ k, k ∈ core_keys → dict_get k self.(other_targets) = None) →
  (∃ text, generate_narrative float_repr self = Ok text) ↔
  1 ≤ self.(start_year) ≤ 9997 ∧
  is_Some self.(swot) ∧
  (∀ year, year ∈ plan_years self →
     (∃ text, py_str float_repr (PyInt year) = Ok text) ∧
     (∃ text, money_text (get self.(revenue_targets) year) = Ok text) ∧
     (∃ text, py_str float_repr (get self.(customer_targets) year) = Ok text) ∧
     (∃ text, percent_text (get self.(margin_targets) year) = Ok text) ∧
     (∀ metric values,
        (metric, values) ∈ self.(other_targets) →
        ∃ text, money_text (get values year) = Ok text)).
Proof.
  intros Hwf Hnames. split.
  - intros [text Htext]. by eapply narrative_returns_only_if.
  - intros (Hy & Hswot & Hyears). by apply narrative_returns_when.
Qed.

Lemma narrative_returns_iff_witness :
  dict_wf acme_shorter_net_profit.(other_targets) ∧
  (∀ k, k ∈ core_keys →
        dict_get k acme_shorter_net_profit.(other_targets) = None) ∧
  ∀ float_repr,
    ¬ ∃ text, generate_narrative float_repr acme_shorter_net_profit = Ok text.
Proof.
  assert (dict_wf acme_shorter_net_profit.(other_targets)) as Hwf.
  { apply (bool_decide_unpack _). by vm_compute. }
  assert (∀ k, k ∈ core_keys →
               dict_get k acme_shorter_net_profit.(other_targets) = None)
    as Hnames.
  { intros k Hk. repeat (apply elem_of_cons in Hk as [->|Hk]; [done|]).
    by apply elem_of_nil in Hk. }
  split; [exact Hwf|]. split; [exact Hnames|].
  intros float_repr Hreturns.
  apply (narrative_returns_iff float_repr _ Hwf Hnames) in Hreturns
    as (_ & _ & Hyears).
  destruct (Hyears 2026) as (_ & _ & _ & _ & Hextras).
  { apply (bool_decide_unpack _). by vm_compute. }
  destruct (Hextras "net_profit" {[ 2025 := PyInt 150000 ]}) as [text Htext].
  { apply elem_of_cons. by left. }
  by vm_compute in Htext.
Defined.

(** X9: with targets typed as the agent declares them, the narrative is
    always produced.  If the start year is between 1 and 9997, a SWOT
    analysis is stored, the extra metrics have names of their own, and
    every year of the table is below [2 ^ 4300] in magnitude, has a float
    for its revenue, its margin and each extra metric, and has no customer
    count or one that is no [int] of [2 ^ 4300] or more in magnitude, then
    [generate_narrative] returns a text. *)
Theorem narrative_returns_on_float_targets float_repr self :
  dict_wf self.(other_targets) →
  (∀ k, k ∈ core_keys → dict_get k self.(other_targets) = None) →
  1 ≤ self.(start_year) ≤ 9997 →
  is_Some self.(swot) →
  (∀ year, year ∈ plan_years self →
     Z.abs year < 2 ^ 4300 ∧
     (∃ x, self.(revenue_targets) !! year = Some (PyFloat x)) ∧
     (∀ n, self.(customer_targets) !! year = Some (PyInt n) →
           Z.abs n < 2 ^ 4300) ∧
     (∃ x, self.(margin_targets) !! year = Some (PyFloat x)) ∧
     (∀ metric values,
        (metric, values) ∈ self.(other_targets) →
        ∃ x, values !! year = Some (PyFloat x))) →
  ∃ text, generate_narrative float_repr self = Ok text.
Proof.
  intros Hwf Hnames Hy Hswot Hfloats.
  apply narrative_returns_when; [done..|].
  intros year Hyear.
  destruct (Hfloats year Hyear) as (Hsize & [r Hr] & Hc & [m Hm] & Hextras).
  split; [simpl; rewrite py_str_int_Ok by done; by eexists|].
  unfold get. rewrite Hr, Hm. split; [by eexists|]. split; [|split].
  - destruct (self.(customer_targets) !! year) as [[|n|x|s]|];
      simpl; try (by eexists).
    rewrite py_str_int_Ok by (by apply Hc). by eexists.
  - unfold percent_text, py_mul_int. simpl default.
    let v := eval vm_compute in (float_of_int 100) in
    change (float_of_int 100) with v.
    by eexists.
  - intros metric values Hin. destruct (Hextras metric values Hin) as [x ->].
    by eexists.
Qed.

Lemma narrative_returns_on_float_targets_witness :
  (1 ≤ 2025 ≤ 9997) ∧
  ∀ float_repr, ∃ text,
    generate_narrative float_repr
      (set_targets (acme_scenario 2025 [])
         {[ 2025 := PyFloat 1000000 ]} {[ 2025 := PyInt 100 ]}
         {[ 2025 := PyFloat 0.2 ]}
         (Some [("net_profit", {[ 2025 := PyFloat 150000 ]})])) = Ok text.
Proof.
  split; [lia|].
  intros float_repr. apply narrative_returns_on_float_targets.
  - apply (bool_decide_unpack _). by vm_compute.
  - intros k Hk. repeat (apply elem_of_cons in Hk as [->|Hk]; [done|]).
    by apply elem_of_nil in Hk.
  - simpl. lia.
  - by eexists.
  - intros year Hyear.
    assert (year = 2025) as ->.
    { apply elem_of_plan_years in Hyear. simpl in Hyear.
      destruct Hyear as [[v Hv]|[[v Hv]|[v Hv]]];
        by apply lookup_singleton_Some in Hv as [<- _]. }
    assert (∀ n, Z.abs n < 2 ^ 11 → Z.abs n < 2 ^ 4300) as Hsmall.
    { intros n Hn. eapply Z.lt_le_trans; [exact Hn|].
      apply Z.pow_le_mono_r; lia. }
    split; [apply Hsmall; by vm_compute|].
    split; [by eexists|]. split.
    { simpl. intros n [_ [= <-]]%lookup_singleton_Some. apply Hsmall.
      by vm_compute. }
    split; [by eexists|].
    intros metric values Hin. apply list_elem_of_singleton in Hin.
    injection Hin as -> ->. by eexists.
Defined.


Ltac bind_steps_in H :=
  repeat first [rewrite bind_Ok in H | rewrite bind_Raise in H
               | progress cbv beta iota zeta in H].

Section narrative_details.
Context (float_repr : float → string).

Lemma target_headline_customers_None (t : pydict pyval) headline :
  target_headline float_repr t = Ok headline →
  dict_get "customers" t = Some PyNone →
  contains headline "serve None customers".
Proof.
  intros Hhead Hcustomers. unfold target_headline, subscript in Hhead.
  rewrite Hcustomers in Hhead.
  destruct (dict_get "year" t) as [y|]; [|done]. bind_steps_in Hhead.
  destruct (py_str float_repr y) as [yt|]; [|done]. bind_steps_in Hhead.
  destruct (dict_get "revenue" t) as [r|]; [|done]. bind_steps_in Hhead.
  destruct (money_text r) as [rt|]; [|done]. bind_steps_in Hhead.
  change (py_str float_repr PyNone) with (@Ok string "None") in Hhead.
  bind_steps_in Hhead.
  destruct (dict_get "gross_margin" t) as [m|]; [|done]. bind_steps_in Hhead.
  destruct (percent_text m) as [mt|]; [|done]. bind_steps_in Hhead.
  injection Hhead as <-.
  exists ("In " +:+ yt +:+ ", we aim to generate " +:+ rt +:+ " in revenue and "),
         (", achieving a gross margin of " +:+ mt).
  rewrite !append_assoc. reflexivity.
Qed.

(** The sentence that the narrative holds for a year of the table. *)
Lemma narrative_line_of_year self text year :
  generate_narrative float_repr self = Ok text →
  year ∈ plan_years self →
  ∃ line,
    target_line float_repr (target_row self year) = Ok line ∧
    ∀ sub, contains line sub → contains text sub.
Proof.
  intros (p & targets & swot_text & Hp & Htargets & _ & ->)%generate_narrative_Ok
    Hyear.
  apply targets_paragraph_Ok in Htargets as (lines & Hlines & ->).
  apply build_plan_Ok in Hp as [Hp _]. rewrite Hp in Hlines.
  unfold targets_summary in Hlines. apply Forall2_fmap_l in Hlines.
  apply list_elem_of_lookup in Hyear as [i Hi].
  destruct (Forall2_lookup_l _ _ _ _ _ Hlines Hi) as (line & Hline & Hrow).
  exists line. split; [done|]. intros sub Hsub.
  apply (contains_join _ _ (join " " lines)).
  - apply elem_of_cons. right. apply elem_of_cons. by left.
  - apply (contains_join _ _ line); [|done].
    by apply list_elem_of_lookup_2 in Hline.
Qed.

Lemma py_str_Raise value e : py_str float_repr value = Raise e → e = ValueError.
Proof.
  destruct value as [|n|x|s]; simpl; try done.
  unfold py_str_int. case_decide; [done|]. by intros [= <-].
Qed.

Lemma money_text_Raise value e :
  money_text value = Raise e →
  e = TypeError ∨ e = ValueError ∨ e = OverflowError.
Proof.
  unfold money_text, format_0f. destruct value as [|n|x|s]; simpl.
  - intros [= <-]. tauto.
  - destruct (float_of_int n); simpl; intros [= <-]; tauto.
  - done.
  - intros [= <-]. tauto.
Qed.

Lemma percent_text_Raise value e :
  percent_text value = Raise e →
  e = TypeError ∨ e = ValueError ∨ e = OverflowError.
Proof.
  unfold percent_text, py_mul_int, format_0f. destruct value as [|n|x|s]; simpl.
  - intros [= <-]. tauto.
  - destruct (float_of_int (n * 100)); simpl; intros [= <-]; tauto.
  - destruct (float_of_int 100); simpl; try done; intros [= <-]; tauto.
  - intros [= <-]. tauto.
Qed.

(** A row holds a value under each of the four fixed keys. *)
Lemma target_row_core_key self year k :
  k ∈ core_keys → is_Some (dict_get k (target_row self year)).
Proof.
  intros Hk. rewrite target_row_lookup.
  destruct (dict_get k (reverse self.(other_targets))); [by eexists|].
  repeat (apply elem_of_cons in Hk as [->|Hk]; [by eexists|]).
  by apply elem_of_nil in Hk.
Qed.

Lemma target_line_row_Raise self year e :
  target_line float_repr (target_row self year) = Raise e →
  e = TypeError ∨ e = ValueError ∨ e = OverflowError.
Proof.
  unfold target_line. set (t := target_row self year).
  destruct (target_headline float_repr t) as [headline|e'] eqn:Hhead.
  - rewrite bind_Ok. cbv beta.
    match goal with
    | |- context [for_each ?body t ?acc] =>
        destruct (for_each body t acc) as [lines|e'] eqn:Hloop
    end; [done|].
    rewrite bind_Raise. intros [= ->].
    apply for_each_Raise_inv in Hloop as (lines & [metric value] & _ & Hbody).
    simpl in Hbody. destruct (decide (metric ∈ core_keys)); [done|].
    unfold metric_clause in Hbody.
    destruct (money_text value) as [amount|e'] eqn:Hamount; [done|].
    rewrite !bind_Raise in Hbody. injection Hbody as ->.
    by eapply money_text_Raise.
  - rewrite bind_Raise. intros [= ->].
    unfold target_headline, subscript in Hhead.
    destruct (target_row_core_key self year "year") as [y Hy];
      [apply (bool_decide_unpack _); by vm_compute|].
    destruct (target_row_core_key self year "revenue") as [r Hr];
      [apply (bool_decide_unpack _); by vm_compute|].
    destruct (target_row_core_key self year "customers") as [c Hc];
      [apply (bool_decide_unpack _); by vm_compute|].
    destruct (target_row_core_key self year "gross_margin") as [m Hm];
      [apply (bool_decide_unpack _); by vm_compute|].
    fold t in Hy, Hr, Hc, Hm. rewrite Hy, Hr, Hc, Hm in Hhead.
    bind_steps_in Hhead.
    destruct (py_str float_repr y) as [yt|e'] eqn:Hyt.
    2:{ bind_steps_in Hhead. injection Hhead as ->.
        apply py_str_Raise in Hyt. tauto. }
    bind_steps_in Hhead.
    destruct (money_text r) as [rt|e'] eqn:Hrt.
    2:{ bind_steps_in Hhead. injection Hhead as ->. by eapply money_text_Raise. }
    bind_steps_in Hhead.
    destruct (py_str float_repr c) as [ct|e'] eqn:Hct.
    2:{ bind_steps_in Hhead. injection Hhead as ->.
        apply py_str_Raise in Hct. tauto. }
    bind_steps_in Hhead.
    destruct (percent_text m) as [mt|e'] eqn:Hmt; [done|].
    bind_steps_in Hhead. injection Hhead as ->. by eapply percent_text_Raise.
Qed.

Lemma generate_milestones_Raise self step e :
  generate_milestones self step = Raise e → e = ValueError ∨ e = OverflowError.
Proof.
  rewrite generate_milestones_unfold. unfold datetime.new.
  destruct (decide _); [|intros [= <-]; tauto].
  destruct (decide _); [|intros [= <-]; tauto]. rewrite bind_Ok.
  destruct (range 0 36 step) as [months|e'] eqn:Hrange.
  2:{ rewrite bind_Raise. intros [= <-]. unfold range in Hrange.
      repeat case_decide; try done. injection Hrange as <-. tauto. }
  rewrite bind_Ok.
  intros (acc & i & _ & Hbody)%for_each_Raise_inv.
  unfold milestone_entry, datetime.timedelta, datetime.add in Hbody.
  repeat (destruct (decide _) in Hbody;
          [bind_steps_in Hbody|bind_steps_in Hbody; injection Hbody as <-; tauto]).
  done.
Qed.

Lemma build_plan_Raise self e :
  build_plan self = Raise e → e = ValueError ∨ e = OverflowError.
Proof.
  unfold build_plan.
  destruct (generate_milestones self 6) as [ms|e'] eqn:Hms; [done|].
  rewrite bind_Raise. intros [= <-]. by eapply generate_milestones_Raise.
Qed.

Lemma targets_paragraph_Raise self p e :
  build_plan self = Ok p →
  targets_paragraph float_repr p = Raise e →
  e = TypeError ∨ e = ValueError ∨ e = OverflowError.
Proof.
  intros [Hp _]%build_plan_Ok. unfold targets_paragraph.
  match goal with
  | |- context [for_each ?body ?xs ?acc] =>
      destruct (for_each body xs acc) as [lines|e'] eqn:Hloop; [done|]
  end.
  rewrite bind_Raise. intros [= <-].
  apply for_each_Raise_inv in Hloop as (acc & t & Ht & Hbody).
  rewrite Hp in Ht. unfold targets_summary in Ht.
  apply list_elem_of_fmap in Ht as (year & -> & _).
  destruct (target_line float_repr (target_row self year))
    as [line|e''] eqn:Hline; [done|].
  rewrite bind_Raise in Hbody. injection Hbody as <-.
  by eapply target_line_row_Raise.
Qed.

End narrative_details.


(** X10: when no extra metric is named "customers", a year of the table
    without a customer target does not stop the narrative; its sentence
    reads "serve None customers". *)
Theorem missing_customers_are_printed_as_None float_repr self text year :
  generate_narrative float_repr self = Ok text →
  year ∈ plan_years self →
  dict_get "customers" self.(other_targets) = None →
  self.(customer_targets) !! year = None →
  contains text "serve None customers".
Proof.
  intros Htext Hyear Hname Hnone.
  destruct (narrative_line_of_year float_repr self text year Htext Hyear)
    as (line & Hline & Hsub).
  apply Hsub.
  apply target_line_Ok in Hline as (headline & clauses & Hhead & _ & ->).
  apply contains_append_r.
  apply (contains_join _ _ headline); [apply elem_of_cons; by left|].
  apply (target_headline_customers_None float_repr _ _ Hhead).
  rewrite target_row_core by done. unfold get. by rewrite Hnone.
Qed.

Lemma missing_customers_are_printed_as_None_witness :
  (∅ : gmap Z pyval) !! 2025 = None ∧
  ∀ float_repr,
    ∃ text,
      generate_narrative float_repr
        (set_targets (acme_scenario 2025 []) {[ 2025 := PyInt 1000000 ]} ∅
           {[ 2025 := PyFloat 0.2 ]} None) = Ok text ∧
      contains text "serve None customers".
Proof.
  split; [reflexivity|]. intros float_repr.
  destruct (generate_narrative float_repr _) as [text|e] eqn:Htext;
    [|by vm_compute in Htext].
  exists text. split; [reflexivity|].
  apply (missing_customers_are_printed_as_None float_repr _ text 2025 Htext).
  - apply (bool_decide_unpack _). by vm_compute.
  - reflexivity.
  - reflexivity.
Defined.

(** X11: the exceptions of the narrative.  [generate_narrative] never
    raises [KeyError]: every row has its four fixed keys.  It raises
    [AttributeError] exactly when no SWOT analysis is stored while the plan
    and the targets paragraph could be built; any other failure is a
    [ValueError], [OverflowError] or [TypeError] of the milestones or of a
    number format. *)
Theorem narrative_exceptions float_repr self e :
  generate_narrative float_repr self = Raise e →
  e ≠ KeyError ∧
  (e = AttributeError ↔
   self.(swot) = None ∧
   ∃ p targets,
     build_plan self = Ok p ∧ targets_paragraph float_repr p = Ok targets).
Proof.
  unfold generate_narrative.
  destruct (build_plan self) as [p|e'] eqn:Hp.
  - rewrite bind_Ok. cbv beta zeta.
    destruct (targets_paragraph float_repr p) as [targets|e'] eqn:Htargets.
    + rewrite bind_Ok. cbv beta zeta. unfold swot_paragraph.
      destruct self.(swot) as [d|]; [done|].
      rewrite bind_Raise. intros [= <-]. split; [done|].
      split; [|done]. intros _. split; [done|]. by exists p, targets.
    + rewrite bind_Raise. intros [= ->].
      assert (e = TypeError ∨ e = ValueError ∨ e = OverflowError) as He.
      { unfold targets_paragraph in Htargets.
        match type of Htargets with
        | context [for_each ?body ?xs ?acc] =>
            destruct (for_each body xs acc) as [lines|e''] eqn:Hloop; [done|]
        end.
        rewrite bind_Raise in Htargets. injection Htargets as ->.
        apply for_each_Raise_inv in Hloop as (acc & t & Ht & Hbody).
        apply build_plan_Ok in Hp as [Hp _]. rewrite Hp in Ht.
        unfold targets_summary in Ht.
        apply list_elem_of_fmap in Ht as (year & -> & _).
        destruct (target_line float_repr (target_row self year))
          as [line|e''] eqn:Hline; [done|].
        rewrite bind_Raise in Hbody. injection Hbody as ->.
        by eapply target_line_row_Raise. }
      split; [by destruct He as [->|[->| ->]]|].
      split; [by destruct He as [->|[->| ->]]|].
      intros (_ & p' & targets' & [= <-] & Htargets').
      by rewrite Htargets in Htargets'.
  - rewrite bind_Raise. intros [= ->].
    assert (e = ValueError ∨ e = OverflowError) as He.
    { unfold build_plan in Hp.
      destruct (generate_milestones self 6) as [ms|e''] eqn:Hms; [done|].
      rewrite bind_Raise in Hp. injection Hp as ->.
      by eapply generate_milestones_Raise. }
    split; [by destruct He as [->| ->]|].
    split; [by destruct He as [->| ->]|].
    by intros (_ & ? & ? & ? & _).
Qed.

Lemma narrative_exceptions_witness :
  (∀ float_repr,
     generate_narrative float_repr (acme_without_swot 2025 []) =
     Raise AttributeError) ∧
  (acme_without_swot 2025 []).(swot) = None.
Proof.
  assert (∀ float_repr,
    generate_narrative float_repr (acme_without_swot 2025 []) =
    Raise AttributeError) as Hrun by (intros float_repr; by vm_compute).
  split; [exact Hrun|].
  destruct (narrative_exceptions (λ _, EmptyString) _ _ (Hrun _)) as [_ Hiff].
  exact (proj1 (proj1 Hiff eq_refl)).
Defined.

(** X12: the clauses of a sentence follow the extra metrics.  When the
    extra metrics have names of their own, the sentence of a year is its
    headline followed by one clause "with <name> of $<amount>" per extra
    metric, in the order of [other_targets], the name shown with spaces for
    underscores, and a full stop. *)
Theorem narrative_clauses_follow_extra_metrics float_repr self year line :
  dict_wf self.(other_targets) →
  (∀ k, k ∈ core_keys → dict_get k self.(other_targets) = None) →
  target_line float_repr (target_row self year) = Ok line ↔
  ∃ headline clauses,
    target_headline float_repr (target_row self year) = Ok headline ∧
    Forall2
      (λ mv clause,
         ∃ amount,
           money_text (default PyNone (mv.2 !! year)) = Ok amount ∧
           clause = "with " +:+ replace_char "_" " " mv.1 +:+ " of " +:+ amount)
      self.(other_targets) clauses ∧
    line = join " " (headline :: clauses) +:+ ".".
Proof.
  intros Hwf Hnames. rewrite target_line_Ok, target_row_extras by done.
  assert (∀ clauses,
    Forall2 (λ item clause, metric_clause item.1 item.2 = Ok clause)
      ((λ mv, (mv.1, get mv.2 year)) <$> self.(other_targets)) clauses ↔
    Forall2
      (λ mv clause,
         ∃ amount,
           money_text (default PyNone (mv.2 !! year)) = Ok amount ∧
           clause = "with " +:+ replace_char "_" " " mv.1 +:+ " of " +:+ amount)
      self.(other_targets) clauses) as Hclauses.
  { intros clauses. rewrite Forall2_fmap_l.
    split; intros Hall; (eapply Forall2_impl; [exact Hall|]);
      intros [metric values] clause; simpl; by rewrite metric_clause_Ok. }
  split; intros (headline & clauses & Hhead & Hall & ->);
    exists headline, clauses; (split; [done|]); (split; [|done]);
    by apply Hclauses.
Qed.

Lemma narrative_clauses_follow_extra_metrics_witness :
  dict_wf acme_longer_net_profit.(other_targets) ∧
  ∀ float_repr,
    target_line float_repr (target_row acme_longer_net_profit 2025) =
    Ok "In 2025, we aim to generate $1,000,000 in revenue and serve 100 customers, achieving a gross margin of 20% with net profit of $150,000.".
Proof.
  assert (dict_wf acme_longer_net_profit.(other_targets)) as Hwf.
  { apply (bool_decide_unpack _). by vm_compute. }
  split; [exact Hwf|]. intros float_repr.
  apply (narrative_clauses_follow_extra_metrics float_repr _ 2025 _ Hwf).
  - intros k Hk. repeat (apply elem_of_cons in Hk as [->|Hk]; [done|]).
    by apply elem_of_nil in Hk.
  - exists "In 2025, we aim to generate $1,000,000 in revenue and serve 100 customers, achieving a gross margin of 20%",
      ["with net profit of $150,000"].
    split; [by vm_compute|]. split; [|reflexivity].
    constructor; [|constructor]. exists "$150,000". split; by vm_compute.
Defined.

(** ** The narrative without a SWOT analysis *)

(** C2 (as amended): without a SWOT analysis the narrative is never
    returned, in part or in whole: the call raises.  The steps fail in
    their order: an exception of plan assembly is the one raised; if the
    plan is assembled, an exception of the targets paragraph is the one
    raised; and the [AttributeError] of the lookup on [None] is raised
    exactly when the plan is assembled and the targets paragraph is
    written, so after them. *)
Theorem narrative_without_swot_raises float_repr self :
  self.(swot) = None →
  (∃ e, generate_narrative float_repr self = Raise e) ∧
  (∀ e, build_plan self = Raise e →
        generate_narrative float_repr self = Raise e) ∧
  (∀ p e,
     build_plan self = Ok p →
     targets_paragraph float_repr p = Raise e →
     generate_narrative float_repr self = Raise e) ∧
  (∀ p targets,
     build_plan self = Ok p →
     targets_paragraph float_repr p = Ok targets →
     generate_narrative float_repr self = Raise AttributeError) ∧
  (∀ e,
     generate_narrative float_repr self = Raise e →
     (e = AttributeError ↔
      ∃ p targets,
        build_plan self = Ok p ∧ targets_paragraph float_repr p = Ok targets)).
Proof.
  intros Hswot.
  assert (swot_paragraph self = Raise AttributeError) as Hpar.
  { unfold swot_paragraph. by rewrite Hswot. }
  assert (∀ e, build_plan self = Raise e →
               generate_narrative float_repr self = Raise e) as Hfirst.
  { intros e Hp. unfold generate_narrative. by rewrite Hp. }
  assert (∀ p e, build_plan self = Ok p →
                 targets_paragraph float_repr p = Raise e →
                 generate_narrative float_repr self = Raise e) as Hsecond.
  { intros p e Hp Htargets. unfold generate_narrative.
    rewrite Hp, bind_Ok. cbv beta zeta. by rewrite Htargets. }
  assert (∀ p targets, build_plan self = Ok p →
                       targets_paragraph float_repr p = Ok targets →
                       generate_narrative float_repr self = Raise AttributeError)
    as Hlast.
  { intros p targets Hp Htargets. unfold generate_narrative.
    rewrite Hp, bind_Ok. cbv beta zeta. by rewrite Htargets, bind_Ok, Hpar. }
  split; [|split; [done|split; [done|split; [done|]]]].
  - destruct (build_plan self) as [p|e] eqn:Hp; [|by exists e; apply Hfirst].
    destruct (targets_paragraph float_repr p) as [targets|e] eqn:Htargets.
    + exists AttributeError. by eapply Hlast.
    + exists e. by eapply Hsecond.
  - intros e Hrun.
    destruct (build_plan self) as [p|e'] eqn:Hp.
    + destruct (targets_paragraph float_repr p) as [targets|e'] eqn:Htargets.
      * rewrite (Hlast p targets) in Hrun by done. injection Hrun as <-.
        split; [|done]. intros _. by exists p, targets.
      * rewrite (Hsecond p e') in Hrun by done. injection Hrun as <-.
        pose proof (targets_paragraph_Raise float_repr self p e' Hp Htargets)
          as He.
        split; [intros ->; by destruct He as [?|[?|?]]|].
        intros (p' & targets & [= <-] & Htargets').
        by rewrite Htargets in Htargets'.
    + rewrite (Hfirst e') in Hrun by done. injection Hrun as <-.
      pose proof (build_plan_Raise self e' Hp) as He.
      split; [intros ->; by destruct He|]. by intros (p' & targets & [=] & _).
Qed.

Lemma narrative_without_swot_raises_witness :
  (acme_without_swot 2025 []).(swot) = None ∧
  ∀ float_repr,
    generate_narrative float_repr (acme_without_swot 2025 []) = Raise AttributeError.
Proof.
  assert ((acme_without_swot 2025 []).(swot) = None) as Hswot by reflexivity.
  split; [exact Hswot|]. intros float_repr.
  destruct (narrative_without_swot_raises float_repr (acme_without_swot 2025 []) Hswot)
    as (_ & _ & _ & Hlate & _).
  assert (∃ p targets,
    build_plan (acme_without_swot 2025 []) = Ok p ∧
    targets_paragraph float_repr p = Ok targets) as (p & targets & Hp & Htargets).
  { do 2 eexists. split; [by vm_compute|]. vm_compute. reflexivity. }
  exact (Hlate p targets Hp Htargets).
Defined.

(** C2 as stated fails on the end-to-end scenario without its SWOT
    analysis: the exception is an [AttributeError], not an error named
    MissingRequiredSection; and when the revenue target is missing as well,
    the [TypeError] of the targets paragraph comes first, so that paragraph
    is interpolated before the SWOT analysis is looked at. *)
Lemma narrative_without_swot_is_untyped :
  (∀ float_repr,
     generate_narrative float_repr (acme_without_swot 2025 []) = Raise AttributeError) ∧
  exn_name AttributeError ≠ "MissingRequiredSection" ∧
  (∀ float_repr,
     generate_narrative float_repr acme_without_swot_and_revenue = Raise TypeError).
Proof.
  split; [intros float_repr; by vm_compute|].
  split; [done|]. intros float_repr. by vm_compute.
Qed.
(** ** Consecutive years *)

Lemma seqZ_sorted m n : StronglySorted Z.lt (seqZ m n).
Proof.
  unfold seqZ. generalize (Z.to_nat n) as len. generalize 0%nat as a.
  intros a len. revert a. induction len as [|len IH]; intros a; csimpl.
  - constructor.
  - constructor; [apply IH|].
    apply Forall_fmap, Forall_forall. intros i Hi%elem_of_seq. simpl. lia.
Qed.

Lemma year_list_unfold start years :
  _year_list start years = Ok ((λ i, start + i) <$> seqZ 0 years).
Proof.
  unfold _year_list, range. rewrite decide_False, decide_True by lia.
  rewrite bind_Ok. cbv beta.
  replace ((years - 0 + 1 - 1) `div` 1) with years by (rewrite Z.div_1_r; lia).
  f_equal. rewrite <- list_fmap_compose. apply list_fmap_ext.
  intros _ i _. simpl. lia.
Qed.

(** X13: [_year_list] returns the [years] consecutive years from
    [start_year] on, and none when [years] is not positive; the targets of
    an agent that are keyed by exactly these years give a table with one
    row for each of them, in the same order. *)
Theorem year_list_rows self start years :
  ∃ ys,
    _year_list start years = Ok ys ∧
    length ys = Z.to_nat years ∧
    (∀ k : nat, Z.of_nat k < years → ys !! k = Some (start + Z.of_nat k)) ∧
    ((∀ y, y ∈ ys ↔
           is_Some (self.(revenue_targets) !! y)
           ∨ is_Some (self.(customer_targets) !! y)
           ∨ is_Some (self.(margin_targets) !! y)) →
     plan_years self = ys ∧
     ∀ p, build_plan self = Ok p → length p.(strategic_targets) = Z.to_nat years).
Proof.
  exists ((λ i, start + i) <$> seqZ 0 years).
  split; [apply year_list_unfold|].
  split; [by rewrite length_fmap, length_seqZ|].
  split.
  { intros k Hk. by rewrite list_lookup_fmap, lookup_seqZ_lt. }
  intros Hkeys.
  assert (plan_years self = (λ i, start + i) <$> seqZ 0 years) as Hyears.
  { apply (StronglySorted_unique_strong Z.lt).
    - intros; lia.
    - apply plan_years_sorted.
    - apply (StronglySorted_fmap _ Z.lt Z.lt); [intros; lia|apply seqZ_sorted].
    - apply NoDup_Permutation.
      + apply plan_years_NoDup.
      + assert (Inj (=) (=) (λ i : Z, start + i)) by (intros i j ?; lia).
        apply (NoDup_fmap_2 _), NoDup_seqZ.
      + intros y. by rewrite elem_of_plan_years, Hkeys. }
  split; [done|].
  intros p [Hp _]%build_plan_Ok.
  rewrite Hp. unfold targets_summary.
  by rewrite length_fmap, Hyears, length_fmap, length_seqZ.
Qed.

Lemma year_list_rows_witness :
  ∃ self,
    _year_list 2025 3 = Ok [2025; 2026; 2027] ∧
    plan_years self = [2025; 2026; 2027].
Proof.
  set (self := set_targets (acme 2025 [])
                 {[ 2025 := PyInt 1; 2026 := PyInt 2; 2027 := PyInt 3 ]}
                 {[ 2026 := PyInt 20 ]} ∅ None).
  exists self.
  destruct (year_list_rows self 2025 3) as (ys & Hys & _ & _ & Hrows).
  vm_compute in Hys. injection Hys as <-.
  split; [reflexivity|]. apply Hrows.
  intros y. simpl.
  rewrite !lookup_insert_is_Some, !lookup_singleton_is_Some, lookup_empty.
  rewrite !elem_of_cons, elem_of_nil.
  pose proof (@is_Some_None pyval). intuition lia.
Defined.

(** ** The milestones of the plan *)

Section plan_milestones.
Import datetime.

Lemma days_in_month_bound y m : _days_in_month y m ≤ 31.
Proof. unfold _days_in_month. repeat case_decide; try lia. by destruct (_is_leap y). Qed.

(** A year of the calendar is written with four digits, zeros first, that
    read back as the year; a month or a day with two. *)
Lemma year_field y :
  1 ≤ y ≤ 9999 →
  String.length (zfill 4 (str_int y)) = 4%nat ∧
  Z.of_uint <$> NilEmpty.uint_of_string (zfill 4 (str_int y)) = Some y.
Proof.
  intros Hy.
  assert (Forall (λ y, String.length (zfill 4 (str_int y)) = 4%nat ∧
                       Z.of_uint <$> NilEmpty.uint_of_string (zfill 4 (str_int y))
                       = Some y) (seqZ 1 9999)) as Hall.
  { apply (bool_decide_unpack _). by vm_compute. }
  rewrite Forall_forall in Hall. apply Hall, elem_of_seqZ. lia.
Qed.

Lemma day_field d :
  1 ≤ d ≤ 31 →
  String.length (zfill 2 (str_int d)) = 2%nat ∧
  Z.of_uint <$> NilEmpty.uint_of_string (zfill 2 (str_int d)) = Some d.
Proof.
  intros Hd.
  assert (Forall (λ d, String.length (zfill 2 (str_int d)) = 2%nat ∧
                       Z.of_uint <$> NilEmpty.uint_of_string (zfill 2 (str_int d))
                       = Some d) (seqZ 1 31)) as Hall.
  { apply (bool_decide_unpack _). by vm_compute. }
  rewrite Forall_forall in Hall. apply Hall, elem_of_seqZ. lia.
Qed.

(** The text of a date that [datetime.date] can hold: year, month and day
    in this order, as decimal digits of fixed width. *)
Lemma isoformat_shape date :
  1 ≤ year date ≤ 9999 → 1 ≤ month date ≤ 12 →
  1 ≤ day date ≤ _days_in_month (year date) (month date) →
  ∃ yyyy mm dd,
    isoformat date = yyyy +:+ "-" +:+ mm +:+ "-" +:+ dd ∧
    String.length yyyy = 4%nat ∧ String.length mm = 2%nat ∧
    String.length dd = 2%nat ∧
    Z.of_uint <$> NilEmpty.uint_of_string yyyy = Some (year date) ∧
    Z.of_uint <$> NilEmpty.uint_of_string mm = Some (month date) ∧
    Z.of_uint <$> NilEmpty.uint_of_string dd = Some (day date).
Proof.
  intros Hy Hm Hd.
  pose proof (days_in_month_bound (year date) (month date)).
  destruct (year_field (year date)) as [? ?]; [done|].
  destruct (day_field (month date)) as [? ?]; [lia|].
  destruct (day_field (day date)) as [? ?]; [lia|].
  exists (zfill 4 (str_int (year date))), (zfill 2 (str_int (month date))),
         (zfill 2 (str_int (day date))).
  by repeat split.
Qed.

(** X14: the milestones of the plan.  A plan that is returned lists six
    milestones, the [k]-th for the date [180 * k] days after 1 January of
    the start year, the first one being that day.  Each date is written
    [YYYY-MM-DD]: the year of the date as four decimal digits, then its
    month and its day as two digits each, padded with zeros. *)
Theorem plan_milestones_are_iso_dates self p :
  build_plan self = Ok p →
  length p.(milestones) = 6%nat ∧
  p.(milestones) !! 0%nat =
    Some [("date", zfill 4 (str_int self.(start_year)) +:+ "-01-01");
          ("description", "Milestone 1 – Year 1")] ∧
  Forall2
    (λ i entry,
       ∃ date yyyy mm dd label,
         entry = [("date", yyyy +:+ "-" +:+ mm +:+ "-" +:+ dd);
                  ("description", label)] ∧
         toordinal date = toordinal (Date self.(start_year) 1 1) + 30 * i ∧
         1 ≤ year date ≤ 9999 ∧
         1 ≤ month date ≤ 12 ∧
         1 ≤ day date ≤ _days_in_month (year date) (month date) ∧
         String.length yyyy = 4%nat ∧ String.length mm = 2%nat ∧
         String.length dd = 2%nat ∧
         Z.of_uint <$> NilEmpty.uint_of_string yyyy = Some (year date) ∧
         Z.of_uint <$> NilEmpty.uint_of_string mm = Some (month date) ∧
         Z.of_uint <$> NilEmpty.uint_of_string dd = Some (day date))
    [0; 6; 12; 18; 24; 30] p.(milestones).
Proof.
  intros Hp. pose proof (build_plan_Ok_start_year _ _ Hp) as Hy.
  unfold build_plan in Hp.
  destruct (generate_milestones self 6) as [generated|] eqn:Hms; [|done].
  rewrite bind_Ok in Hp. injection Hp as <-. cbn [milestones].
  apply generate_milestones_Ok in Hms as (months & _ & Hmonths & Hall).
  assert (months = [0; 6; 12; 18; 24; 30]) as ->
    by (vm_compute in Hmonths; by injection Hmonths).
  assert (length generated = 6%nat) as Hlen
    by (by rewrite <- (Forall2_length _ _ _ Hall)).
  split; [by rewrite length_fmap|]. split.
  - apply Forall2_cons_inv_l in Hall as (entry & rest & Hentry & _ & ->).
    unfold milestone_entry in Hentry.
    rewrite (timedelta_within_horizon 0), bind_Ok in Hentry by lia.
    change (30 * 0) with 0 in Hentry.
    rewrite add_zero, bind_Ok in Hentry by lia.
    injection Hentry as <-. cbn [year]. unfold milestone_name.
    by rewrite Z.sub_diag.
  - apply Forall2_same_length_lookup_2; [by rewrite length_fmap, Hlen|].
    intros k i entry Hi Hk.
    rewrite list_lookup_fmap in Hk.
    destruct (generated !! k) as [[date label]|] eqn:Hgen; [|done].
    injection Hk as <-.
    pose proof (Forall2_lookup_lr _ _ _ _ _ _ Hall Hi Hgen) as Hentry.
    assert (0 ≤ i < 36) as Hrange.
    { apply list_elem_of_lookup_2 in Hi.
      repeat (apply elem_of_cons in Hi as [->|Hi]; [lia|]).
      by apply elem_of_nil in Hi. }
    destruct (milestone_entry_Ok _ _ _ _ _ (proj1 Hy) Hrange Hentry)
      as (Hord & Hyear & _).
    destruct (milestone_entry_date _ _ _ _ _ Hentry Hrange) as [Ho Hdate].
    destruct (ord2ymd_spec _ Ho) as (_ & Hm & Hd & _).
    rewrite <- Hdate in Hm, Hd.
    destruct (isoformat_shape date) as (yyyy & mm & dd & Hiso & Hfields);
      [lia|done|done|].
    exists date, yyyy, mm, dd, label. simpl. rewrite Hiso.
    split; [done|]. split; [done|]. split; [lia|]. by split.
Qed.

End plan_milestones.

Lemma plan_milestones_are_iso_dates_witness :
  ∃ p,
    build_plan (acme 987 []) = Ok p ∧
    p.(milestones) !! 0%nat =
      Some [("date", "0987-01-01"); ("description", "Milestone 1 – Year 1")].
Proof.
  destruct (build_plan (acme 987 [])) as [p|e] eqn:Hp; [|by vm_compute in Hp].
  exists p. split; [reflexivity|].
  exact (proj1 (proj2 (plan_milestones_are_iso_dates _ _ Hp))).
Defined.


(** ** The setters and what they leave behind *)

Lemma contains_refl s : contains s s.
Proof.
  exists EmptyString, EmptyString. change (s = s +:+ EmptyString).
  induction s as [|c s IH]; [done|]. exact (f_equal (String c) IH).
Qed.

Section setters.
Context (float_repr : float → string).

(** X15: only a non-empty [other_targets] replaces the extra metrics.
    After [set_targets] with [None] or an empty dict for [other_targets]
    the metrics stored before are still there: every row of the next
    plan lists each of them, with its value for the year of the new
    targets or [None]. *)
Theorem set_targets_keeps_extra_metrics
    self revenue customers margin other p metric values :
  other = None ∨ other = Some [] →
  dict_wf self.(other_targets) →
  dict_get metric self.(other_targets) = Some values →
  build_plan (set_targets self revenue customers margin other) = Ok p →
  Forall2 (λ year row, dict_get metric row = Some (get values year))
    (plan_years (set_targets self revenue customers margin other))
    p.(strategic_targets).
Proof.
  intros Hother Hwf Hmetric [Hp _]%build_plan_Ok.
  rewrite Hp. unfold targets_summary.
  apply Forall2_fmap_r, Forall_Forall2_diag, Forall_forall.
  intros year _. apply target_row_extra.
  - by destruct Hother as [-> | ->].
  - by destruct Hother as [-> | ->].
Qed.

Lemma set_targets_keeps_extra_metrics_witness :
  ∃ row,
    build_plan
      (set_targets acme_shorter_net_profit
         {[ 2030 := PyInt 5 ]} ∅ ∅ (Some []))
    ≫= (λ p, Ok p.(strategic_targets)) = Ok [row]
    ∧ dict_get "net_profit" row = Some PyNone.
Proof.
  set (self := set_targets acme_shorter_net_profit
                 {[ 2030 := PyInt 5 ]} ∅ ∅ (Some [])).
  destruct (build_plan self) as [p|e] eqn:Hp; [|by vm_compute in Hp].
  assert (dict_wf acme_shorter_net_profit.(other_targets)) as Hwf.
  { apply (bool_decide_unpack _). by vm_compute. }
  pose proof (set_targets_keeps_extra_metrics acme_shorter_net_profit
                {[ 2030 := PyInt 5 ]} ∅ ∅ (Some []) p "net_profit"
                {[ 2025 := PyInt 150000 ]}
                (or_intror eq_refl) Hwf eq_refl Hp) as Hrows.
  change (plan_years _) with (plan_years self) in Hrows.
  assert (plan_years self = [2030]) as Hyears by (by vm_compute).
  rewrite Hyears in Hrows.
  apply Forall2_cons_inv_l in Hrows as (row & rows & Hrow & Hnil & Hrows).
  apply Forall2_nil_inv_l in Hnil as ->.
  exists row. rewrite bind_Ok. cbv beta. rewrite Hrows. split; [done|].
  exact Hrow.
Defined.

(** X16: what the setters store is what the narrative prints.  After
    [identify_winning_moves] and [create_swot] a returned narrative holds
    the revenue moves and the profit moves joined by "; ", and the SWOT
    sentence with the strengths, opportunities, weaknesses and threats in
    this order, each list joined by ", "; and the narrative can then only
    fail on a date or on a number format, with [ValueError],
    [OverflowError] or [TypeError]. *)
Theorem narrative_prints_moves_and_swot
    self revenue_moves' profit_moves' strengths weaknesses opportunities threats :
  let agent :=
    (create_swot (identify_winning_moves self revenue_moves' profit_moves')
       strengths weaknesses opportunities threats).1 in
  (∀ text,
     generate_narrative float_repr agent = Ok text →
     contains text
       ("On the revenue side we will: " +:+ join "; " revenue_moves'
        +:+ ". On the profitability side we will: "
        +:+ join "; " profit_moves' +:+ ".") ∧
     contains text
       ("Our SWOT analysis reveals that our strengths—"
        +:+ join ", " strengths
        +:+ "—position us well to capitalise on opportunities such as "
        +:+ join ", " opportunities
        +:+ ".  However, we must mitigate weaknesses like "
        +:+ join ", " weaknesses
        +:+ " and guard against threats such as "
        +:+ join ", " threats +:+ ".")) ∧
  (∀ e,
     generate_narrative float_repr agent = Raise e →
     e = TypeError ∨ e = ValueError ∨ e = OverflowError).
Proof.
  intros agent. split.
  - intros text
      (p & targets & swot_text & _ & _ & Hswot & ->)%generate_narrative_Ok.
    injection Hswot as <-. split.
    + apply (contains_join _ _ (moves_paragraph agent)).
      { do 2 (apply elem_of_cons; right). apply elem_of_cons. by left. }
      apply contains_append_l, contains_refl.
    + eapply contains_join; [|apply contains_refl].
      do 3 (apply elem_of_cons; right). apply elem_of_cons. by left.
  - intros e. unfold generate_narrative.
    destruct (build_plan agent) as [p|e'] eqn:Hp.
    + rewrite bind_Ok. cbv beta zeta.
      destruct (targets_paragraph float_repr p) as [targets|e'] eqn:Htargets.
      * by rewrite bind_Ok.
      * rewrite bind_Raise. intros [= <-].
        by eapply targets_paragraph_Raise.
    + rewrite bind_Raise. intros [= <-].
      apply build_plan_Raise in Hp. tauto.
Qed.

End setters.

Lemma narrative_prints_moves_and_swot_witness :
  (acme_scenario 2025 []).(revenue_moves) = ["Launch X"] ∧
  ∀ float_repr, ∃ text,
    generate_narrative float_repr (acme_scenario 2025 []) = Ok text ∧
    contains text
      "On the revenue side we will: Launch X. On the profitability side we will: Cut costs.".
Proof.
  split; [reflexivity|]. intros float_repr.
  destruct (generate_narrative float_repr (acme_scenario 2025 []))
    as [text|e] eqn:Htext; [|by vm_compute in Htext].
  exists text. split; [reflexivity|].
  exact (proj1 (proj1 (narrative_prints_moves_and_swot float_repr
    (set_targets (acme 2025 []) {[ 2025 := PyInt 1000000 ]}
       {[ 2025 := PyInt 100 ]} {[ 2025 := PyFloat 0.2 ]} None)
    ["Launch X"] ["Cut costs"]
    ["brand"] ["small team"] ["market growth"] ["competition"]) text Htext)).
Defined.

(** ** Number formats *)

Lemma list_ascii_of_string_app s t :
  list_ascii_of_string (s +:+ t) = list_ascii_of_string s ++ list_ascii_of_string t.
Proof.
  induction s as [|c s IH]; [done|].
  exact (f_equal (cons c) IH).
Qed.

Lemma uint_digits_no_comma (d : Decimal.uint) :
  ","%char ∉ list_ascii_of_string (NilEmpty.string_of_uint d).
Proof.
  induction d; simpl; rewrite ?elem_of_cons; try (intros [[=]|?]; done).
  apply not_elem_of_nil.
Qed.

Lemma str_int_no_comma n : ","%char ∉ list_ascii_of_string (str_int n).
Proof.
  assert (∀ d, ","%char ∉ list_ascii_of_string (NilZero.string_of_uint d)) as Huint.
  { intros d. destruct d; try apply uint_digits_no_comma.
    simpl. rewrite elem_of_cons. intros [[=]|?%elem_of_nil]. done. }
  unfold str_int. destruct (Z.to_int n) as [d|d]; simpl; [apply Huint|].
  rewrite elem_of_cons. intros [[=]|?]. by eapply Huint.
Qed.

Lemma group_rev_filter digits seen :
  ","%char ∉ digits →
  filter (λ c, c ≠ ","%char) (group_rev digits seen) = digits.
Proof.
  revert seen. induction digits as [|c rest IH]; intros seen Hno; [done|].
  apply not_elem_of_cons in Hno as [Hc Hrest].
  assert (∀ k, filter (λ c, c ≠ ","%char) (c :: group_rev rest k) = c :: rest)
    as Hkeep.
  { intros k. rewrite filter_cons_True by done. by rewrite IH. }
  simpl. destruct seen as [|[|[|[|seen]]]]; apply Hkeep.
Qed.

Lemma group_thousands_filter digits :
  ","%char ∉ list_ascii_of_string digits →
  filter (λ c, c ≠ ","%char) (list_ascii_of_string (group_thousands digits))
  = list_ascii_of_string digits.
Proof.
  intros Hno. unfold group_thousands.
  rewrite list_ascii_of_string_of_list_ascii, !rev_alt.
  change (filter (λ c, c ≠ ","%char)
            (reverse (group_rev (reverse (list_ascii_of_string digits)) 0))
          = list_ascii_of_string digits).
  rewrite filter_reverse, group_rev_filter, reverse_involutive; [done|].
  by rewrite elem_of_reverse.
Qed.

(** X17: the thousands separator only inserts commas.  Whenever a value
    is accepted by the format [,.0f], it is accepted by [.0f] as well, and
    what [.0f] prints is the grouped text with its commas removed. *)
Theorem grouping_only_inserts_commas v grouped :
  format_0f true v = Ok grouped →
  format_0f false v =
  Ok (string_of_list_ascii
        (filter (λ c, c ≠ ","%char) (list_ascii_of_string grouped))).
Proof.
  assert (∀ x,
    format_float_0f false x =
    string_of_list_ascii
      (filter (λ c, c ≠ ","%char)
         (list_ascii_of_string (format_float_0f true x)))) as Hfloat.
  { intros [s|s| |s m e]; try (by vm_compute); try (by destruct s; vm_compute).
    unfold format_float_0f. cbv beta iota zeta.
    rewrite list_ascii_of_string_app, filter_app, group_thousands_filter
      by apply str_int_no_comma.
    rewrite <- (string_of_list_ascii_of_string
                  (sign_text s +:+ str_int (round_half_even (Z.pos m) e))).
    rewrite list_ascii_of_string_app. by destruct s. }
  unfold format_0f. destruct v as [|n|x|s]; try done.
  - destruct (float_of_int n); try done; intros Heq; rewrite Hfloat; congruence.
  - intros Heq. rewrite Hfloat. congruence.
Qed.

Lemma grouping_only_inserts_commas_witness :
  format_0f true (PyInt 1234567) = Ok "1,234,567" ∧
  format_0f false (PyInt 1234567) = Ok "1234567".
Proof.
  assert (format_0f true (PyInt 1234567) = Ok "1,234,567") as H
    by (by vm_compute).
  split; [exact H|].
  exact (grouping_only_inserts_commas _ _ H).
Defined.

(** The rounding of the format: the result is the integer nearest to
    [m * 2 ^ e], the even one when two are equally near. *)
Lemma round_half_even_nearest m e :
  let n := round_half_even (Z.pos m) e in
  0 ≤ n ∧
  (0 ≤ e → n = Z.pos m * 2 ^ e) ∧
  (e < 0 →
   2 * Z.abs (n * 2 ^ (- e) - Z.pos m) ≤ 2 ^ (- e) ∧
   (2 * Z.abs (n * 2 ^ (- e) - Z.pos m) = 2 ^ (- e) → Z.even n = true)).
Proof.
  cbv zeta. unfold round_half_even. destruct (decide (0 ≤ e)) as [He|He].
  { split; [|split; [done|lia]].
    apply Z.mul_nonneg_nonneg; [lia|]. by apply Z.pow_nonneg. }
  assert (0 < 2 ^ (- e)) as Hd by (apply Z.pow_pos_nonneg; lia).
  set (d := 2 ^ (- e)) in *. clearbody d.
  pose proof (Z.div_mod (Z.pos m) d ltac:(lia)) as Hdiv.
  pose proof (Z.mod_pos_bound (Z.pos m) d Hd) as Hmod.
  pose proof (Z.div_pos (Z.pos m) d ltac:(lia) Hd) as Hq.
  set (q := Z.pos m `div` d) in *. set (r := Z.pos m `mod` d) in *.
  clearbody q r. cbv zeta.
  repeat case_decide; (split; [try lia; destruct (Z.even q); lia|]);
    (split; [lia|]); intros _.
  - split; [nia|]. intros; nia.
  - split; [nia|]. intros; nia.
  - destruct (Z.even q) eqn:Heven.
    + split; [nia|done].
    + split; [nia|]. intros _. rewrite Z.even_add, Heven. done.
Qed.

(** X18: the format [.0f] prints the nearest integer, ties going to the
    even one.  For a finite float [x = ± m * 2 ^ e] the digits are those of
    an integer [n] with [|n - m * 2 ^ e| ≤ 1/2], [n] even when the distance
    is exactly one half, and [n = m * 2 ^ e] when [e] is not negative. *)
Theorem format_rounds_half_even x s m e :
  Prim2SF x = S754_finite s m e →
  ∃ n,
    format_0f false (PyFloat x) = Ok (sign_text s +:+ str_int n) ∧
    0 ≤ n ∧
    (0 ≤ e → n = Z.pos m * 2 ^ e) ∧
    (e < 0 →
     2 * Z.abs (n * 2 ^ (- e) - Z.pos m) ≤ 2 ^ (- e) ∧
     (2 * Z.abs (n * 2 ^ (- e) - Z.pos m) = 2 ^ (- e) → Z.even n = true)).
Proof.
  intros Hx. exists (round_half_even (Z.pos m) e).
  split; [simpl; by rewrite Hx|]. apply round_half_even_nearest.
Qed.

Lemma format_rounds_half_even_witness :
  ∃ s m e n,
    Prim2SF 2.5%float = S754_finite s m e ∧
    format_0f false (PyFloat 2.5%float) = Ok (sign_text s +:+ str_int n) ∧
    format_0f false (PyFloat 2.5%float) = Ok "2" ∧
    format_0f false (PyFloat 3.5%float) = Ok "4".
Proof.
  destruct (Prim2SF 2.5%float) as [| | |s m e] eqn:Hx;
    try (by vm_compute in Hx).
  destruct (format_rounds_half_even _ _ _ _ Hx) as (n & Hn & _).
  exists s, m, e, n. split; [reflexivity|]. split; [exact Hn|].
  split; by vm_compute.
Defined.

(** *** What the narrative prints for a margin and for a revenue *)

(** Where [group_rev] puts its commas: with [seen] digits written since
    the last one, the character at place [j] is a comma exactly when
    [j + seen + 1] is a multiple of four. *)
Lemma group_rev_commas digits (seen j : nat) c :
  ","%char ∉ digits → (seen ≤ 3)%nat →
  group_rev digits seen !! j = Some c →
  c = ","%char ↔ (Z.of_nat j + Z.of_nat seen + 1) `mod` 4 = 0.
Proof.
  revert seen j. induction digits as [|x rest IH]; intros seen j Hno Hseen Hj;
    [done|].
  apply not_elem_of_cons in Hno as [Hx Hrest].
  destruct (decide (seen = 3%nat)) as [->|Hless].
  - simpl in Hj. destruct j as [|[|j]]; simpl in Hj.
    + injection Hj as <-. done.
    + injection Hj as <-. split; [done|]. intros H. by vm_compute in H.
    + rewrite (IH 1%nat j) by (done || lia).
      rewrite !Nat2Z.inj_succ.
      split; intros H; Z.div_mod_to_equations; lia.
  - assert (group_rev (x :: rest) seen = x :: group_rev rest (S seen)) as Heq.
    { simpl. by destruct seen as [|[|[|[|seen]]]]. }
    rewrite Heq in Hj. destruct j as [|j]; simpl in Hj.
    + injection Hj as <-. split; [done|].
      intros H. exfalso. Z.div_mod_to_equations. lia.
    + rewrite (IH (S seen) j) by (done || lia).
      rewrite !Nat2Z.inj_succ.
      split; intros H; Z.div_mod_to_equations; lia.
Qed.

(** In the grouped text the commas stand at the places whose distance
    from the end is a multiple of four, so each is followed by groups of
    three digits. *)
Lemma group_thousands_commas digits (k : nat) c :
  ","%char ∉ list_ascii_of_string digits →
  list_ascii_of_string (group_thousands digits) !! k = Some c →
  c = ","%char ↔
  (Z.of_nat (length (list_ascii_of_string (group_thousands digits)))
   - Z.of_nat k) `mod` 4 = 0.
Proof.
  intros Hno. unfold group_thousands.
  rewrite list_ascii_of_string_of_list_ascii, !rev_alt.
  change (rev_append ?l []) with (reverse l).
  set (r := group_rev (rev_append (list_ascii_of_string digits) []) 0).
  change (rev_append r []) with (reverse r).
  intros Hk.
  assert (k < length r)%nat as Hlt.
  { apply lookup_lt_Some in Hk. by rewrite length_reverse in Hk. }
  rewrite reverse_lookup in Hk by done.
  rewrite length_reverse.
  assert (","%char ∉ reverse (list_ascii_of_string digits)) as Hno'
    by (by rewrite elem_of_reverse).
  assert (0 ≤ 3)%nat as Hseen by lia.
  rewrite (group_rev_commas _ _ _ _ Hno' Hseen Hk).
  by replace (Z.of_nat (length r - S k) + Z.of_nat 0 + 1)
    with (Z.of_nat (length r) - Z.of_nat k) by lia.
Qed.

Lemma percent_text_float x :
  percent_text (PyFloat x) =
  Ok (format_float_0f false (Prim2SF (PrimFloat.mul x 100%float)) +:+ "%").
Proof.
  unfold percent_text, py_mul_int.
  let v := eval vm_compute in (float_of_int 100) in
  change (float_of_int 100) with v.
  reflexivity.
Qed.

Lemma money_text_finite value s m e :
  (∃ x, value = PyFloat x ∧ Prim2SF x = S754_finite s m e)
  ∨ (∃ k, value = PyInt k ∧ float_of_int k = S754_finite s m e) →
  money_text value =
  Ok ("$" +:+ sign_text s
      +:+ group_thousands (str_int (round_half_even (Z.pos m) e))).
Proof.
  intros [(x & -> & Hx)|(k & -> & Hk)]; unfold money_text, format_0f.
  - by rewrite Hx.
  - by rewrite Hk.
Qed.




(** ** The endpoint: what a request does to the shared agent *)

Section endpoint_outcome.
Import agent_api.
Context (invoke : string → list json → handler json).

(** The agent after the five assignments of the profile. *)
Local Abbreviation updated_profile d agent :=
  (dict_set "baseline_metrics" (default (JDict []) (dict_get "baseline_metrics" d))
     (dict_set "core_values" (default (JList []) (dict_get "core_values" d))
        (dict_set "vision" (default (JStr EmptyString) (dict_get "vision" d))
           (dict_set "mission" (default (JStr EmptyString) (dict_get "mission" d))
              (dict_set "company_name"
                 (default (JStr "Your Company") (dict_get "company_name" d))
                 agent))))).

Lemma lift_Ok_bind {A B : Type} (a : A) (k : A → handler B) agent :
  (lift (Ok a) ≫= k) agent = k a agent.
Proof. reflexivity. Qed.

Lemma try_block_not_dict data agent :
  (∀ d, data ≠ JDict d) →
  try_block invoke data agent = (agent, Raise AttributeError).
Proof. intros Hdata. destruct data; try reflexivity. by destruct (Hdata items). Qed.

Lemma year_targets_dict t year_key :
  year_targets (JDict t) year_key =
  match default (JDict []) (dict_get year_key t) with
  | JDict y =>
      Ok (JDict [("revenue_target", default JNull (dict_get "revenue" y));
                 ("customer_target", default JNull (dict_get "customers" y));
                 ("margin_target", default JNull (dict_get "margin" y))])
  | _ => Raise AttributeError
  end.
Proof.
  unfold year_targets. cbn [agent_api.get]. rewrite bind_Ok. cbv beta.
  by destruct (default _ _).
Qed.

(** The [try] block on a payload that is an object: the four lookups that
    call [.get] on a value of the payload decide between the two
    exceptions, and the profile is assigned before [set_targets] is
    called. *)
Lemma try_block_dict d agent :
  try_block invoke (JDict d) agent =
  match default (JDict []) (dict_get "targets" d) with
  | JDict t =>
      match default (JDict []) (dict_get "year1" t),
            default (JDict []) (dict_get "year2" t),
            default (JDict []) (dict_get "year3" t),
            default (JDict []) (dict_get "swot" d) with
      | JDict _, JDict _, JDict _, JDict _ =>
          (updated_profile d agent, Raise TypeError)
      | _, _, _, _ => (agent, Raise AttributeError)
      end
  | _ => (agent, Raise AttributeError)
  end.
Proof.
  unfold try_block. cbn [agent_api.get].
  rewrite !lift_Ok_bind.
  destruct (default (JDict []) (dict_get "targets" d)) as [| | | | | |t];
    try reflexivity.
  cbn [for_each]. rewrite !year_targets_dict.
  destruct (default (JDict []) (dict_get "year1" t)); try reflexivity.
  destruct (default (JDict []) (dict_get "year2" t)); try reflexivity.
  destruct (default (JDict []) (dict_get "year3" t)); try reflexivity.
  destruct (default (JDict []) (dict_get "swot" d)); reflexivity.
Qed.

Lemma try_block_outcome data agent agent' exc :
  try_block invoke data agent = (agent', Raise exc) →
  (exc = AttributeError ∧ agent' = agent
   ∧ ¬ ∃ d t s,
       data = JDict d
       ∧ default (JDict []) (dict_get "targets" d) = JDict t
       ∧ (∀ year_key, year_key ∈ ["year1"; "year2"; "year3"] →
            ∃ y, default (JDict []) (dict_get year_key t) = JDict y)
       ∧ default (JDict []) (dict_get "swot" d) = JDict s)
  ∨ (exc = TypeError
     ∧ ∃ d t s,
         data = JDict d ∧ agent' = updated_profile d agent
         ∧ default (JDict []) (dict_get "targets" d) = JDict t
         ∧ (∀ year_key, year_key ∈ ["year1"; "year2"; "year3"] →
              ∃ y, default (JDict []) (dict_get year_key t) = JDict y)
         ∧ default (JDict []) (dict_get "swot" d) = JDict s).
Proof.
  intros Hrun.
  assert (∀ v : json, (∀ items, v ≠ JDict items) ∨ ∃ items, v = JDict items)
    as Hcases by (intros []; eauto).
  destruct (Hcases data) as [Hdata|[d ->]].
  { rewrite try_block_not_dict in Hrun by done. injection Hrun as <- <-.
    left. repeat split. intros (d & _ & _ & -> & _). by eapply Hdata. }
  rewrite try_block_dict in Hrun.
  destruct (Hcases (default (JDict []) (dict_get "targets" d)))
    as [Ht|[t Ht]].
  { left.
    assert (agent' = agent ∧ exc = AttributeError) as [-> ->].
    { destruct (default _ (dict_get "targets" d)); try (by injection Hrun).
      by edestruct Ht. }
    repeat split.
    intros (d' & t & _ & [= <-] & Ht' & _). by eapply Ht. }
  rewrite Ht in Hrun.
  destruct (Hcases (default (JDict []) (dict_get "year1" t))) as [H1|[y1 H1]].
  { left.
    assert (agent' = agent ∧ exc = AttributeError) as [-> ->].
    { destruct (default _ (dict_get "year1" t)); try (by injection Hrun).
      by edestruct H1. }
    repeat split.
    intros (d' & t' & _ & [= <-] & Ht' & Hyears & _).
    rewrite Ht in Ht'. injection Ht' as <-.
    destruct (Hyears "year1") as [y Hy]; [set_solver|]. by eapply H1. }
  rewrite H1 in Hrun.
  destruct (Hcases (default (JDict []) (dict_get "year2" t))) as [H2|[y2 H2]].
  { left.
    assert (agent' = agent ∧ exc = AttributeError) as [-> ->].
    { destruct (default _ (dict_get "year2" t)); try (by injection Hrun).
      by edestruct H2. }
    repeat split.
    intros (d' & t' & _ & [= <-] & Ht' & Hyears & _).
    rewrite Ht in Ht'. injection Ht' as <-.
    destruct (Hyears "year2") as [y Hy]; [set_solver|]. by eapply H2. }
  rewrite H2 in Hrun.
  destruct (Hcases (default (JDict []) (dict_get "year3" t))) as [H3|[y3 H3]].
  { left.
    assert (agent' = agent ∧ exc = AttributeError) as [-> ->].
    { destruct (default _ (dict_get "year3" t)); try (by injection Hrun).
      by edestruct H3. }
    repeat split.
    intros (d' & t' & _ & [= <-] & Ht' & Hyears & _).
    rewrite Ht in Ht'. injection Ht' as <-.
    destruct (Hyears "year3") as [y Hy]; [set_solver|]. by eapply H3. }
  rewrite H3 in Hrun.
  destruct (Hcases (default (JDict []) (dict_get "swot" d))) as [Hs|[s Hs]].
  { left.
    assert (agent' = agent ∧ exc = AttributeError) as [-> ->].
    { destruct (default _ (dict_get "swot" d)); try (by injection Hrun).
      by edestruct Hs. }
    repeat split.
    intros (d' & t' & s & [= <-] & _ & _ & Hs'). by eapply Hs. }
  rewrite Hs in Hrun. injection Hrun as <- <-.
  right. split; [done|]. exists d, t, s. repeat split; try done.
  intros year_key Hkey.
  repeat (apply elem_of_cons in Hkey as [->|Hkey]; [eauto|]).
  by apply elem_of_nil in Hkey.
Qed.

End endpoint_outcome.

Section endpoint_theorems.
Import agent_api.
Context (invoke : string → list json → handler json).

(** X19: the answers of the endpoint.  The status is 400 or 500 and never
    200: it is 400 exactly when the request does not announce JSON or its
    body does not parse, and the agent is then left as it was; the
    "Request must be JSON" record answers exactly the requests that do not
    announce JSON; the plan and the narrative are never sent. *)
Theorem request_status agent req agent' body status :
  generate_plan invoke agent req = (agent', (body, status)) →
  (status = 400 ∨ status = 500) ∧
  (status = 400 ↔ req.(is_json) = false ∨ req.(parsed) = None) ∧
  (status = 400 → agent' = agent) ∧
  (body = ErrorRecord RequestMustBeJson ↔ req.(is_json) = false) ∧
  (∀ plan narrative, body ≠ PlanRecord plan narrative).
Proof.
  unfold generate_plan. intros Hrun.
  destruct (is_json req); simpl in Hrun.
  - destruct (parsed req) as [data|].
    + destruct (try_block_raises invoke data agent) as (agent'' & exc & Htry).
      rewrite Htry in Hrun. injection Hrun as <- <- <-.
      repeat split; try done; try (by intros [|]); by right.
    + injection Hrun as <- <- <-.
      repeat split; try done; try (by left); by right.
  - injection Hrun as <- <- <-.
    repeat split; try done; try (by left).
Qed.

(** X20: the exception behind a 500.  A request that announces JSON and
    parses fails with [TypeError] (the call of [set_targets]) when the
    payload is an object whose [targets] and [swot] entries, and the
    [year1], [year2] and [year3] entries of [targets], are objects where
    they are given; any other payload fails earlier, with the
    [AttributeError] of a [.get] on something that is no object. *)
Theorem request_exception agent req data agent' body status :
  req.(is_json) = true →
  req.(parsed) = Some data →
  generate_plan invoke agent req = (agent', (body, status)) →
  (body = ErrorRecord (FailedToGeneratePlan TypeError)
   ∨ body = ErrorRecord (FailedToGeneratePlan AttributeError)) ∧
  (body = ErrorRecord (FailedToGeneratePlan TypeError) ↔
   ∃ d t s,
     data = JDict d
     ∧ default (JDict []) (dict_get "targets" d) = JDict t
     ∧ (∀ year_key, year_key ∈ ["year1"; "year2"; "year3"] →
          ∃ y, default (JDict []) (dict_get year_key t) = JDict y)
     ∧ default (JDict []) (dict_get "swot" d) = JDict s).
Proof.
  unfold generate_plan. intros -> -> Hrun. simpl in Hrun.
  destruct (try_block_raises invoke data agent) as (agent'' & exc & Htry).
  rewrite Htry in Hrun. injection Hrun as <- <- <-.
  apply try_block_outcome in Htry
    as [(-> & _ & Hshape)|(-> & d & t & s & -> & _ & Hshape)].
  - split; [by right|]. split; [done|]. intros Hd. by destruct Hshape.
  - split; [by left|]. split; [|done]. intros _. by exists d, t, s.
Qed.

(** X21: a failed request still rewrites the shared agent.  When the
    request fails with [TypeError], its payload is an object and the agent
    that serves the next request holds the company name, mission, vision,
    core values and baseline metrics of this payload (or their defaults),
    and every other attribute as before; when it fails with
    [AttributeError], whatever the payload is, the agent is untouched. *)
Theorem failed_request_rewrites_profile agent req data agent' body status :
  req.(is_json) = true →
  req.(parsed) = Some data →
  generate_plan invoke agent req = (agent', (body, status)) →
  (body = ErrorRecord (FailedToGeneratePlan AttributeError) → agent' = agent) ∧
  (body = ErrorRecord (FailedToGeneratePlan TypeError) →
   ∃ d,
     data = JDict d ∧
     dict_get "company_name" agent'
       = Some (default (JStr "Your Company") (dict_get "company_name" d)) ∧
     dict_get "mission" agent'
       = Some (default (JStr EmptyString) (dict_get "mission" d)) ∧
     dict_get "vision" agent'
       = Some (default (JStr EmptyString) (dict_get "vision" d)) ∧
     dict_get "core_values" agent'
       = Some (default (JList []) (dict_get "core_values" d)) ∧
     dict_get "baseline_metrics" agent'
       = Some (default (JDict []) (dict_get "baseline_metrics" d)) ∧
     (∀ attr,
        attr ∉ ["company_name"; "mission"; "vision"; "core_values";
                "baseline_metrics"] →
        dict_get attr agent' = dict_get attr agent)).
Proof.
  unfold generate_plan. intros -> -> Hrun. simpl in Hrun.
  destruct (try_block_raises invoke data agent) as (agent'' & exc & Htry).
  rewrite Htry in Hrun. injection Hrun as <- <- <-.
  apply try_block_outcome in Htry
    as [(-> & -> & _)|(-> & d & t & s & -> & -> & _)].
  - split; [done|]. intros [=].
  - split; [intros [=]|]. intros _. exists d. split; [done|].
    repeat split;
      try (by repeat first [rewrite dict_get_set_eq | rewrite dict_get_set_ne by done]).
    intros attr Hattr.
    rewrite !dict_get_set_ne; [done|..]; intros ->; apply Hattr; set_solver.
Qed.

End endpoint_theorems.

(** The documented payload, sent to the agent that [create_app] makes. *)
Section endpoint_examples.
Import agent_api.

Lemma request_status_witness :
  ∃ agent' body,
    generate_plan (λ _ _, lift (Ok JNull)) (placeholder_agent 2025)
      documented_request = (agent', (body, 500))
    ∧ agent' ≠ placeholder_agent 2025.
Proof.
  destruct (generate_plan (λ _ _, lift (Ok JNull)) (placeholder_agent 2025)
              documented_request) as [agent' [body status]] eqn:Hrun.
  destruct (request_status _ _ _ _ _ _ Hrun) as ([Hstatus|Hstatus] & H400 & _).
  - apply H400 in Hstatus as [Hjson|Hparsed]; discriminate.
  - exists agent', body. rewrite Hstatus. split; [reflexivity|].
    vm_compute in Hrun. injection Hrun as <- _ _. discriminate.
Defined.

Lemma request_exception_witness :
  documented_request.(is_json) = true ∧
  ∃ agent',
    generate_plan (λ _ _, lift (Ok JNull)) (placeholder_agent 2025)
      documented_request
    = (agent', (ErrorRecord (FailedToGeneratePlan TypeError), 500)).
Proof.
  assert (documented_request.(is_json) = true) as Hjson by reflexivity.
  split; [exact Hjson|].
  destruct (generate_plan (λ _ _, lift (Ok JNull)) (placeholder_agent 2025)
              documented_request) as [agent' [body status]] eqn:Hrun.
  destruct (request_exception _ _ _ _ _ _ _ Hjson eq_refl Hrun) as [_ Hiff].
  vm_compute in Hrun. injection Hrun as _ <- <-. by exists agent'.
Defined.

Lemma failed_request_rewrites_profile_witness :
  documented_request.(is_json) = true ∧
  ∃ agent',
    (generate_plan (λ _ _, lift (Ok JNull)) (placeholder_agent 2025)
       documented_request).1 = agent'
    ∧ dict_get "company_name" agent' = Some (JStr "Acme Corp")
    ∧ dict_get "swot" agent' = Some JNull.
Proof.
  assert (documented_request.(is_json) = true) as Hjson by reflexivity.
  split; [exact Hjson|].
  destruct (generate_plan (λ _ _, lift (Ok JNull)) (placeholder_agent 2025)
              documented_request) as [agent' [body status]] eqn:Hrun.
  exists agent'. split; [reflexivity|].
  destruct (failed_request_rewrites_profile _ _ _ _ _ _ _ Hjson eq_refl Hrun)
    as [_ Hprofile].
  assert (body = ErrorRecord (FailedToGeneratePlan TypeError)) as Hbody.
  { vm_compute in Hrun. by injection Hrun as _ <- _. }
  destruct (Hprofile Hbody) as (d & [= <-] & Hname & _ & _ & _ & _ & Hother).
  split; [exact Hname|]. rewrite Hother; [reflexivity|].
  intros Hin. repeat (apply elem_of_cons in Hin as [[=]|Hin]).
  by apply elem_of_nil in Hin.
Defined.

End endpoint_examples.
